(** * The content lifecycle of [app.py]

    A shallow embedding of the Streamlit script [src/app.py]: the session
    dictionary, the Firestore collection behind it, the generation request
    of [render_tool_page] and the paginated list of
    [render_my_content_page], followed by the properties of the
    specification that are about them.

    Streamlit re-executes the whole script on every interaction.  One
    execution is modelled as a computation over the session dictionary, the
    remote collection and the list of what the execution showed or sent.
    [st.rerun()] raises a control exception that derives from
    [BaseException]: no [except Exception] clause of the script catches it,
    [finally] clauses run, and the execution ends there.

    The list of an execution holds the messages of [st.info], [st.success],
    [st.warning], [st.error] and [print], the requests to the generation
    API, the calls of the store, the text area of a generated result and
    the expanders of the saved items; titles, captions, buttons and the
    other widgets draw without an entry. *)

From Stdlib Require Import ZArith NArith List Bool String Ascii Lia Floats.
From Stdlib Require Import Sorting.Sorted DecimalString.
Import ListNotations.

Set Implicit Arguments.
Set Warnings "-register-all".

(** ** Python strings *)

(** A Python [str] is a sequence of Unicode code points. *)
Definition pystr := list N.

(** Source literals are written as Rocq strings, whose characters are the
    bytes of the UTF-8 encoding; [utf8] recovers the code points. *)
Fixpoint utf8 (bs : list N) : pystr :=
  match bs with
  | [] => []
  | b0 :: r0 =>
    if (b0 <? 128)%N then b0 :: utf8 r0 else
    match r0 with
    | [] => []
    | b1 :: r1 =>
      if (b0 <? 224)%N then ((b0 - 192) * 64 + (b1 - 128))%N :: utf8 r1 else
      match r1 with
      | [] => []
      | b2 :: r2 =>
        if (b0 <? 240)%N
        then ((b0 - 224) * 4096 + (b1 - 128) * 64 + (b2 - 128))%N :: utf8 r2
        else
          match r2 with
          | [] => []
          | b3 :: r3 =>
            ((b0 - 240) * 262144 + (b1 - 128) * 4096
             + (b2 - 128) * 64 + (b3 - 128))%N :: utf8 r3
          end
      end
    end
  end.

Definition py (s : string) : pystr :=
  utf8 (map N_of_ascii (list_ascii_of_string s)).

(** [str(n)] of a natural number. *)
Definition py_of_nat (n : nat) : pystr :=
  py (NilEmpty.string_of_uint (Nat.to_uint n)).

(** The line feed of the literal escapes of the source. *)
Definition LF : pystr := [10%N].

(** Truth value of a string: non-empty. *)
Definition str_truthy (s : pystr) : bool :=
  match s with [] => false | _ :: _ => true end.

(** [str.isspace] for one code point (CPython's [_PyUnicode_IsWhitespace]). *)
Definition is_space (c : N) : bool :=
  ((9 <=? c) && (c <=? 13) || (28 <=? c) && (c <=? 32)
   || (c =? 133) || (c =? 160) || (c =? 5760)
   || (8192 <=? c) && (c <=? 8202)
   || (c =? 8232) || (c =? 8233) || (c =? 8239) || (c =? 8287)
   || (c =? 12288))%N.

Fixpoint lstrip (s : pystr) : pystr :=
  match s with
  | [] => []
  | c :: r => if is_space c then lstrip r else s
  end.

Definition rstrip (s : pystr) : pystr := rev (lstrip (rev s)).

(** [s.strip()] *)
Definition strip (s : pystr) : pystr := rstrip (lstrip s).

Definition whitespace_only (s : pystr) : Prop := forallb is_space s = true.

Fixpoint str_eqb (a b : pystr) : bool :=
  match a, b with
  | [], [] => true
  | x :: a', y :: b' => (x =? y)%N && str_eqb a' b'
  | _, _ => false
  end.

(** Lexicographic comparison of strings by code point, the order of [<] on
    Python strings and of document names in the store. *)
Fixpoint str_ltb (a b : pystr) : bool :=
  match a, b with
  | _, [] => false
  | [], _ :: _ => true
  | x :: a', y :: b' => (x <? y)%N || (x =? y)%N && str_ltb a' b'
  end.

(** ** Values decoded from JSON *)

Inductive json : Type :=
| JNull
| JBool (b : bool)
| JInt (z : Z)
| JFloat (f : float)
| JStr (s : pystr)
| JList (l : list json)
| JDict (d : list (pystr * json)).

(** ** Exceptions *)

Inductive exc_class : Type :=
| RequestException     (* requests.exceptions.RequestException and subclasses *)
| NotFound             (* google.api_core.exceptions.NotFound *)
| ServiceUnavailable   (* transport or authentication failure of the store *)
| IndexError
| KeyError
| TypeError
| AttributeError
| OtherException.

(** An exception object: its class and [str(e)]. *)
Record pyexc : Type := MkExc { exc_cls : exc_class; exc_str : pystr }.

Definition is_request_exception (e : pyexc) : bool :=
  match exc_cls e with RequestException => true | _ => false end.

(** ** Python operations on decoded JSON *)

Inductive res (A : Type) : Type :=
| Ok (a : A)
| Exc (e : pyexc)
| Rerun.
Arguments Ok {A} a.
Arguments Exc {A} e.
Arguments Rerun {A}.

Definition type_name (j : json) : string :=
  match j with
  | JNull => "NoneType"
  | JBool _ => "bool"
  | JInt _ => "int"
  | JFloat _ => "float"
  | JStr _ => "str"
  | JList _ => "list"
  | JDict _ => "dict"
  end.

Definition truthy (j : json) : bool :=
  match j with
  | JNull => false
  | JBool b => b
  | JInt z => negb (z =? 0)%Z
  | JFloat f => negb (PrimFloat.eqb f 0%float)
  | JStr s => str_truthy s
  | JList l => match l with [] => false | _ => true end
  | JDict d => match d with [] => false | _ => true end
  end.

Fixpoint lookup (k : pystr) (d : list (pystr * json)) : option json :=
  match d with
  | [] => None
  | (k', v) :: r => if str_eqb k k' then Some v else lookup k r
  end.

(** [j.get(k, default)]: only dictionaries have [get]. *)
Definition dict_get (j : json) (k : pystr) (default : json) : res json :=
  match j with
  | JDict d => Ok (match lookup k d with Some v => v | None => default end)
  | _ => Exc (MkExc AttributeError
                (py "'" ++ py (type_name j) ++ py "' object has no attribute 'get'"))
  end.

(** [j[0]] *)
Definition subscript0 (j : json) : res json :=
  match j with
  | JList [] => Exc (MkExc IndexError (py "list index out of range"))
  | JList (x :: _) => Ok x
  | JStr [] => Exc (MkExc IndexError (py "string index out of range"))
  | JStr (c :: _) => Ok (JStr [c])
  | JDict _ => Exc (MkExc KeyError (py "0"))
  | _ => Exc (MkExc TypeError
                (py "'" ++ py (type_name j) ++ py "' object is not subscriptable"))
  end.

(** The elements [for part in j] runs over. *)
Definition iterate (j : json) : res (list json) :=
  match j with
  | JList l => Ok l
  | JStr s => Ok (map (fun c => JStr [c]) s)
  | JDict d => Ok (map (fun kv => JStr (fst kv)) d)
  | _ => Exc (MkExc TypeError
                (py "'" ++ py (type_name j) ++ py "' object is not iterable"))
  end.

(** [[part.get("text", "") for part in parts]] *)
Fixpoint text_parts_of (parts : list json) : res (list json) :=
  match parts with
  | [] => Ok []
  | part :: r =>
    match dict_get part (py "text") (JStr []) with
    | Ok t => match text_parts_of r with
              | Ok ts => Ok (t :: ts)
              | Exc e => Exc e
              | Rerun => Rerun
              end
    | Exc e => Exc e
    | Rerun => Rerun
    end
  end.

(** ["".join(l)], where [i] is the index of the head of [l]. *)
Fixpoint join_from (i : nat) (l : list json) : res pystr :=
  match l with
  | [] => Ok []
  | JStr s :: r =>
    match join_from (S i) r with
    | Ok t => Ok (s ++ t)
    | other => other
    end
  | j :: _ =>
    Exc (MkExc TypeError
           (py "sequence item " ++ py_of_nat i ++ py ": expected str instance, "
            ++ py (type_name j) ++ py " found"))
  end.

Definition join (l : list json) : res pystr := join_from 0 l.

(** ** The document store *)

(** The fields of a stored document: what [save_content_to_firestore] and
    [update_content_in_firestore] write. *)
Record doc_fields : Type := MkFields {
  toolId : pystr;
  toolName : pystr;
  prompt : pystr;
  text : pystr;
  createdAt : Z;                (* server timestamp, set by [add] *)
  updatedAt : option Z          (* server timestamp, set by [update] *)
}.

(** A document snapshot, as [query.stream()] yields them. *)
Record snapshot : Type := MkSnap { snap_id : pystr; snap_fields : doc_fields }.

(** An entry of the cached list: [doc_snap.to_dict()] with ['id'] added. *)
Record item : Type := MkItem { item_id : pystr; item_fields : doc_fields }.

Definition item_of_snapshot (d : snapshot) : item :=
  MkItem (snap_id d) (snap_fields d).

(** The order of [order_by("createdAt")]: by timestamp, documents with equal
    timestamps by document name. *)
Definition key_ltb (a b : snapshot) : bool :=
  (createdAt (snap_fields a) <? createdAt (snap_fields b))%Z
  || (createdAt (snap_fields a) =? createdAt (snap_fields b))%Z
     && str_ltb (snap_id a) (snap_id b).

Fixpoint insert_desc (d : snapshot) (l : list snapshot) : list snapshot :=
  match l with
  | [] => [d]
  | x :: r => if key_ltb x d then d :: l else x :: insert_desc d r
  end.

(** [order_by("createdAt", direction=DESCENDING)] *)
Definition order_by_desc (l : list snapshot) : list snapshot :=
  fold_right insert_desc [] l.

(** [start_after(c)]: the documents strictly after [c] in the order. *)
Definition start_after (c : snapshot) (l : list snapshot) : list snapshot :=
  filter (fun d => key_ltb d c) l.

(** The documents an ordered, limited query streams. *)
Definition query_docs (db : list snapshot) (limit_num : nat)
    (cursor : option snapshot) : list snapshot :=
  firstn limit_num
    match cursor with
    | Some c => start_after c (order_by_desc db)
    | None => order_by_desc db
    end.

Definition has_doc (i : pystr) (db : list snapshot) : bool :=
  existsb (fun d => str_eqb (snap_id d) i) db.

(** ** The session dictionary *)

(** [st.session_state].  A key the script deletes or tests for presence is
    an [option], [None] when the key is absent; for [user_id],
    [deleting_item_id] and [editing_item_id], which the script only tests
    for truth, [None] also stands for the value [None]. *)
Record session : Type := MkSession {
  user_id : option pystr;
  temp_user_id : option pystr;
  user_display_name : pystr;
  is_loading : bool;
  generated_result : pystr;
  error_message : option pystr;
  prompt_ : list (string * pystr);          (* the keys [prompt_<tool_key>] *)
  generated_content_list : option (list item);
  last_doc_snapshot : option snapshot;
  has_more_content : bool;
  is_loading_content : bool;
  deleting_item_id : option pystr;
  editing_item_id : option pystr;
  editing_item_prompt : pystr;
  editing_item_text : pystr;
  editing_item_toolName : pystr
}.

Definition set_user_id v s :=
  MkSession v (temp_user_id s) (user_display_name s) (is_loading s)
    (generated_result s) (error_message s) (prompt_ s)
    (generated_content_list s) (last_doc_snapshot s) (has_more_content s)
    (is_loading_content s) (deleting_item_id s) (editing_item_id s)
    (editing_item_prompt s) (editing_item_text s) (editing_item_toolName s).
Definition set_temp_user_id v s :=
  MkSession (user_id s) v (user_display_name s) (is_loading s)
    (generated_result s) (error_message s) (prompt_ s)
    (generated_content_list s) (last_doc_snapshot s) (has_more_content s)
    (is_loading_content s) (deleting_item_id s) (editing_item_id s)
    (editing_item_prompt s) (editing_item_text s) (editing_item_toolName s).
Definition set_user_display_name v s :=
  MkSession (user_id s) (temp_user_id s) v (is_loading s)
    (generated_result s) (error_message s) (prompt_ s)
    (generated_content_list s) (last_doc_snapshot s) (has_more_content s)
    (is_loading_content s) (deleting_item_id s) (editing_item_id s)
    (editing_item_prompt s) (editing_item_text s) (editing_item_toolName s).
Definition set_is_loading v s :=
  MkSession (user_id s) (temp_user_id s) (user_display_name s) v
    (generated_result s) (error_message s) (prompt_ s)
    (generated_content_list s) (last_doc_snapshot s) (has_more_content s)
    (is_loading_content s) (deleting_item_id s) (editing_item_id s)
    (editing_item_prompt s) (editing_item_text s) (editing_item_toolName s).
Definition set_generated_result v s :=
  MkSession (user_id s) (temp_user_id s) (user_display_name s) (is_loading s)
    v (error_message s) (prompt_ s)
    (generated_content_list s) (last_doc_snapshot s) (has_more_content s)
    (is_loading_content s) (deleting_item_id s) (editing_item_id s)
    (editing_item_prompt s) (editing_item_text s) (editing_item_toolName s).
Definition set_error_message v s :=
  MkSession (user_id s) (temp_user_id s) (user_display_name s) (is_loading s)
    (generated_result s) v (prompt_ s)
    (generated_content_list s) (last_doc_snapshot s) (has_more_content s)
    (is_loading_content s) (deleting_item_id s) (editing_item_id s)
    (editing_item_prompt s) (editing_item_text s) (editing_item_toolName s).
Definition set_prompt_ v s :=
  MkSession (user_id s) (temp_user_id s) (user_display_name s) (is_loading s)
    (generated_result s) (error_message s) v
    (generated_content_list s) (last_doc_snapshot s) (has_more_content s)
    (is_loading_content s) (deleting_item_id s) (editing_item_id s)
    (editing_item_prompt s) (editing_item_text s) (editing_item_toolName s).
Definition set_generated_content_list v s :=
  MkSession (user_id s) (temp_user_id s) (user_display_name s) (is_loading s)
    (generated_result s) (error_message s) (prompt_ s)
    v (last_doc_snapshot s) (has_more_content s)
    (is_loading_content s) (deleting_item_id s) (editing_item_id s)
    (editing_item_prompt s) (editing_item_text s) (editing_item_toolName s).
Definition set_last_doc_snapshot v s :=
  MkSession (user_id s) (temp_user_id s) (user_display_name s) (is_loading s)
    (generated_result s) (error_message s) (prompt_ s)
    (generated_content_list s) v (has_more_content s)
    (is_loading_content s) (deleting_item_id s) (editing_item_id s)
    (editing_item_prompt s) (editing_item_text s) (editing_item_toolName s).
Definition set_has_more_content v s :=
  MkSession (user_id s) (temp_user_id s) (user_display_name s) (is_loading s)
    (generated_result s) (error_message s) (prompt_ s)
    (generated_content_list s) (last_doc_snapshot s) v
    (is_loading_content s) (deleting_item_id s) (editing_item_id s)
    (editing_item_prompt s) (editing_item_text s) (editing_item_toolName s).
Definition set_is_loading_content v s :=
  MkSession (user_id s) (temp_user_id s) (user_display_name s) (is_loading s)
    (generated_result s) (error_message s) (prompt_ s)
    (generated_content_list s) (last_doc_snapshot s) (has_more_content s)
    v (deleting_item_id s) (editing_item_id s)
    (editing_item_prompt s) (editing_item_text s) (editing_item_toolName s).
Definition set_deleting_item_id v s :=
  MkSession (user_id s) (temp_user_id s) (user_display_name s) (is_loading s)
    (generated_result s) (error_message s) (prompt_ s)
    (generated_content_list s) (last_doc_snapshot s) (has_more_content s)
    (is_loading_content s) v (editing_item_id s)
    (editing_item_prompt s) (editing_item_text s) (editing_item_toolName s).
Definition set_editing_item_id v s :=
  MkSession (user_id s) (temp_user_id s) (user_display_name s) (is_loading s)
    (generated_result s) (error_message s) (prompt_ s)
    (generated_content_list s) (last_doc_snapshot s) (has_more_content s)
    (is_loading_content s) (deleting_item_id s) v
    (editing_item_prompt s) (editing_item_text s) (editing_item_toolName s).
Definition set_editing_item (p t n : pystr) s :=
  MkSession (user_id s) (temp_user_id s) (user_display_name s) (is_loading s)
    (generated_result s) (error_message s) (prompt_ s)
    (generated_content_list s) (last_doc_snapshot s) (has_more_content s)
    (is_loading_content s) (deleting_item_id s) (editing_item_id s) p t n.

Fixpoint prompt_lookup (k : string) (l : list (string * pystr)) : option pystr :=
  match l with
  | [] => None
  | (k', v) :: r => if String.eqb k k' then Some v else prompt_lookup k r
  end.

Fixpoint prompt_store (k : string) (v : pystr) (l : list (string * pystr))
    : list (string * pystr) :=
  match l with
  | [] => [(k, v)]
  | (k', v') :: r =>
    if String.eqb k k' then (k, v) :: r else (k', v') :: prompt_store k v r
  end.

(** ** One execution of the script *)

Inductive level : Type := info | success | warning | error.

(** What an execution shows or sends, in order. *)
Inductive event : Type :=
| Shown (lv : level) (msg : pystr)         (* st.info, st.success, st.warning, st.error *)
| Printed (msg : pystr)                    (* print *)
| ApiPost (full_prompt : pystr)            (* requests.post to the generation API *)
| StoreAdd (f : doc_fields)
| StoreUpdate (i : pystr) (new_prompt new_text : pystr)
| StoreDelete (i : pystr)
| StoreStream (limit_num : nat) (cursor : option snapshot)
| ResultShown (result : pystr)             (* the text area of the generated result *)
| ItemShown (it : item).                   (* the expander of a saved item *)

(** The widget that triggered the execution. A button returns [True] only in
    the execution its click triggered. *)
Inductive ui_event : Type :=
| NoEvent
| FormSubmit (tool_key : string) (typed : pystr)
| SaveClick (tool_key : string)
| EditClick (i : pystr)
| DeleteClick (i : pystr)
| SaveEdit (i : pystr) (current_prompt current_text : pystr)
| CancelEdit (i : pystr)
| ConfirmDelete (i : pystr)
| CancelDelete (i : pystr)
| LoadMore.

(** The page the sidebar and the routing at the end of the script select. *)
Inductive page : Type :=
| Dashboard
| ToolPage (tool_key : string)
| MyContent.

(** What one execution depends on besides the session and the store: the
    page and the widget event, the outcome of the HTTP request to the
    generation API (sent, status checked and body decoded), a fault that the
    store call of the execution meets, what the store's server assigns, the
    interpreter's [str()] of a decoded value that is not a string, and the
    exception, if any, that building a PDF of given lines raises. *)
Record env : Type := MkEnv {
  page_of : page;
  event_of : ui_event;
  api_reply : pyexc + json;
  store_fault : option pyexc;
  fresh_id : pystr;
  server_time : Z;
  missing_text : pystr;         (* the text of the store's NotFound error *)
  str_of : json -> pystr;
  pdf_fault : list pystr -> option pyexc
                                (* what the PDF library raises for these lines *)
}.

Record world : Type := MkWorld {
  ss : session;                 (* st.session_state *)
  db : list snapshot;           (* the user's collection in the store *)
  out : list event
}.

Definition M (A : Type) : Type := world -> res A * world.

Definition ret {A} (a : A) : M A := fun w => (Ok a, w).

Definition bind {A B} (m : M A) (k : A -> M B) : M B :=
  fun w =>
    match m w with
    | (Ok a, w') => k a w'
    | (Exc e, w') => (Exc e, w')
    | (Rerun, w') => (Rerun, w')
    end.

Declare Scope py_scope.
Delimit Scope py_scope with py_m.
Notation "x <- m ;; k" := (bind m (fun x => k))
  (at level 61, m at next level, right associativity) : py_scope.
Notation "m ;; k" := (bind m (fun _ => k))
  (at level 61, right associativity) : py_scope.
Local Open Scope py_scope.

Definition lift {A} (r : res A) : M A := fun w => (r, w).
Definition raise {A} (e : pyexc) : M A := fun w => (Exc e, w).

(** [st.rerun()] *)
Definition st_rerun {A} : M A := fun w => (Rerun, w).

Definition emit (e : event) : M unit :=
  fun w => (Ok tt, MkWorld (ss w) (db w) (out w ++ [e])).

Definition get_session : M session := fun w => (Ok (ss w), w).
Definition modify (f : session -> session) : M unit :=
  fun w => (Ok tt, MkWorld (f (ss w)) (db w) (out w)).
Definition get_db : M (list snapshot) := fun w => (Ok (db w), w).
Definition put_db (d : list snapshot) : M unit :=
  fun w => (Ok tt, MkWorld (ss w) d (out w)).

(** [try: m except Exception as e: h e] *)
Definition try_except {A} (m : M A) (h : pyexc -> M A) : M A :=
  fun w =>
    match m w with
    | (Exc e, w') => h e w'
    | other => other
    end.

(** [try: m finally: f] *)
Definition try_finally {A} (m : M A) (f : M unit) : M A :=
  fun w =>
    match m w with
    | (r, w') =>
      match f w' with
      | (Ok _, w'') => (r, w'')
      | (Exc e, w'') => (Exc e, w'')
      | (Rerun, w'') => (Rerun, w'')
      end
    end.

Definition when (b : bool) (m : M unit) : M unit := if b then m else ret tt.

(** Reading or deleting an attribute of the session that is absent raises;
    the text of the error is shortened to the name of the attribute. *)
Definition attr {A} (name : string) (o : option A) : M A :=
  match o with
  | Some a => ret a
  | None => raise (MkExc AttributeError (py name))
  end.

(** ** Configuration *)

(** An entry of [tool_configs]; the fields that only feed the layout
    (description, placeholder, icon) are left out. *)
Record tool : Type := MkTool {
  tool_id : pystr;
  tool_name : pystr;
  apiPromptPrefix : pystr;
  sampleOutput : option pystr        (* [tool.get('sampleOutput', ...)] *)
}.

Definition tool_configs : list (string * tool) :=
  [ ("article",
     MkTool (py "article") (py "Gerador de Artigos")
       (py "Escreva um artigo detalhado, informativo e bem estruturado sobre o seguinte tema: ")
       (Some (py "Artigo gerado sobre o tema X...")));
    ("headline",
     MkTool (py "headline") (py "Gerador de Headlines")
       (py "Gere 5 opções de headlines criativas e impactantes para um conteúdo sobre: ")
       (Some (py "1. Headline A" ++ LF ++ py "2. Headline B...")%list));
    ("social",
     MkTool (py "social") (py "Posts para Redes Sociais")
       (py "Crie um post para redes sociais (adequado para Instagram, Facebook e Twitter) sobre: ")
       (Some (py "Post para redes sociais sobre Y...")));
    ("summary",
     MkTool (py "summary") (py "Resumidor de Conteúdos")
       (py "Faça um resumo conciso e informativo do seguinte texto: ")
       (Some (py "Resumo do texto Z...")))
  ]%string.

(** [tool_configs.get(tool_key)] *)
Fixpoint tool_get (k : string) (l : list (string * tool)) : option tool :=
  match l with
  | [] => None
  | (k', t) :: r => if String.eqb k k' then Some t else tool_get k r
  end.

Definition ITEMS_PER_PAGE : nat := 5.

(** ** Helper functions *)

Definition opt_truthy (o : option pystr) : bool :=
  match o with Some s => str_truthy s | None => false end.

Definition is_some {A} (o : option A) : bool :=
  match o with Some _ => true | None => false end.

Definition is_nil {A} (l : list A) : bool :=
  match l with [] => true | _ => false end.

Fixpoint last_opt {A} (l : list A) : option A :=
  match l with
  | [] => None
  | [x] => Some x
  | _ :: r => last_opt r
  end.

Definition add_toast (message : pystr) (type : level) : M unit :=
  emit (Shown type message).

Definition get_user_id : M (option pystr) :=
  s <- get_session ;;
  when (negb (opt_truthy (user_id s)))
    (when (negb (is_some (temp_user_id s)))
       (modify (set_temp_user_id (Some (py "default_user")))) ;;
     s <- get_session ;;
     modify (set_user_id (temp_user_id s)) ;;
     modify (set_user_display_name (py "Usuário Visitante"))) ;;
  s <- get_session ;;
  ret (user_id s).

(** The collection is the one of the user of the session; the model holds
    that one collection in [db]. *)
Definition get_content_collection_ref : M unit :=
  get_user_id ;; ret tt.

(** *** The export helpers *)

(** Lines 106-113: a download button.  It shows no message and its callers
    do not use its value. *)
Definition download_as_txt (text filename : pystr) : M unit := ret tt.

(** Line 124: [text.encode('latin-1', 'replace').decode('latin-1')]; a
    character outside Latin-1 becomes a question mark. *)
Definition latin1_replace (text : pystr) : pystr :=
  map (fun c => if (c <? 256)%N then c else 63%N) text.

(** [s.split('\n')] *)
Fixpoint split_lines (s : pystr) : list pystr :=
  match s with
  | [] => [[]]
  | c :: r =>
    if (c =? 10)%N then [] :: split_lines r
    else
      match split_lines r with
      | [] => [[c]]
      | l :: ls => (c :: l) :: ls
      end
  end.

(** Lines 124-126: the lines [download_as_pdf] writes to the document. *)
Definition pdf_lines (text : pystr) : list pystr :=
  split_lines (latin1_replace text).

(** ['\n'.join(lines)] *)
Fixpoint join_lines (lines : list pystr) : pystr :=
  match lines with
  | [] => []
  | [l] => l
  | l :: r => (l ++ LF ++ join_lines r)%list
  end.

(** Lines 115-141: the document is built from the lines of the text and
    offered by a download button; whatever that raises is reported. *)
Definition download_as_pdf (E : env) (text filename : pystr) : M unit :=
  try_except
    (match pdf_fault E (pdf_lines text) with
     | Some e => raise e
     | None => ret tt
     end ;;
     add_toast (py "PDF pronto para download!") success)
    (fun e =>
       emit (Shown error (py "Erro ao gerar PDF: " ++ exc_str e)) ;;
       add_toast (py "Erro ao gerar PDF.") error).

(** [s.replace(' ', '_')] *)
Definition replace_spaces (s : pystr) : pystr :=
  map (fun c => if (c =? 32)%N then 95%N else c) s.

(** *** Calls of the store client *)

Definition fail_on_fault (E : env) : M unit :=
  match store_fault E with
  | Some e => raise e
  | None => ret tt
  end.

(** [content_collection.add(content_data)] *)
Definition store_add (E : env) (f : doc_fields) : M unit :=
  emit (StoreAdd f) ;;
  fail_on_fault E ;;
  d <- get_db ;;
  put_db (MkSnap (fresh_id E) f :: d).

Definition update_doc (i new_prompt new_text : pystr) (now : Z) (d : snapshot)
    : snapshot :=
  if str_eqb (snap_id d) i
  then MkSnap (snap_id d)
         (MkFields (toolId (snap_fields d)) (toolName (snap_fields d))
            new_prompt new_text (createdAt (snap_fields d)) (Some now))
  else d.

(** [doc_ref.update(updated_data)]: the store refuses to update a document
    that does not exist. *)
Definition store_update (E : env) (i new_prompt new_text : pystr) : M unit :=
  emit (StoreUpdate i new_prompt new_text) ;;
  fail_on_fault E ;;
  d <- get_db ;;
  if has_doc i d
  then put_db (map (update_doc i new_prompt new_text (server_time E)) d)
  else raise (MkExc NotFound (missing_text E)).

(** [doc_ref.delete()]: deleting an absent document succeeds. *)
Definition store_delete (E : env) (i : pystr) : M unit :=
  emit (StoreDelete i) ;;
  fail_on_fault E ;;
  d <- get_db ;;
  put_db (filter (fun x => negb (str_eqb (snap_id x) i)) d).

(** [list(query.stream())] *)
Definition store_stream (E : env) (limit_num : nat) (cursor : option snapshot)
    : M (list snapshot) :=
  emit (StoreStream limit_num cursor) ;;
  fail_on_fault E ;;
  d <- get_db ;;
  ret (query_docs d limit_num cursor).

(** *** Firestore interaction functions *)

Definition save_content_to_firestore (E : env)
    (c_toolId c_toolName c_prompt c_text : pystr) : M unit :=
  u <- get_user_id ;;
  if negb (opt_truthy u)
  then add_toast (py "Usuário não identificado. Não é possível salvar.") error
  else
    try_except
      (get_content_collection_ref ;;
       store_add E (MkFields c_toolId c_toolName c_prompt c_text
                      (server_time E) None) ;;
       add_toast (py "Conteúdo salvo com sucesso!") success ;;
       s <- get_session ;;
       when (is_some (generated_content_list s))
         (modify (set_generated_content_list None)) ;;
       st_rerun)
      (fun e =>
         emit (Printed (py "Erro ao salvar conteúdo no Firestore: " ++ exc_str e)) ;;
         add_toast (py "Falha ao salvar conteúdo: " ++ exc_str e) error).

Definition fetch_content (E : env) (limit_num : nat)
    (last_doc : option snapshot)
    : M (list item * option snapshot * bool) :=
  u <- get_user_id ;;
  if negb (opt_truthy u)
  then ret ([], None, false)
  else
    get_content_collection_ref ;;
    try_except
      (docs_snapshots <- store_stream E limit_num last_doc ;;
       let content := map item_of_snapshot docs_snapshots in
       let new_last_doc := last_opt docs_snapshots in
       let has_more := Nat.eqb (List.length docs_snapshots) limit_num in
       ret (content, new_last_doc, has_more))
      (fun e =>
         emit (Shown error (py "Erro ao buscar conteúdos: " ++ exc_str e)) ;;
         ret ([], None, false)).

Definition delete_content_from_firestore (E : env) (content_id : pystr)
    : M unit :=
  u <- get_user_id ;;
  if negb (opt_truthy u)
  then add_toast (py "Usuário não identificado. Não é possível excluir.") error
  else
    try_except
      (get_content_collection_ref ;;
       store_delete E content_id ;;
       add_toast (py "Conteúdo excluído com sucesso!") success ;;
       s <- get_session ;;
       when (is_some (generated_content_list s))
         (modify (set_generated_content_list None)) ;;
       st_rerun)
      (fun e =>
         emit (Printed (py "Erro ao excluir conteúdo: " ++ exc_str e)) ;;
         add_toast (py "Falha ao excluir conteúdo: " ++ exc_str e) error).

Definition update_content_in_firestore (E : env)
    (content_id new_prompt new_text : pystr) : M bool :=
  u <- get_user_id ;;
  if negb (opt_truthy u)
  then
    add_toast (py "Usuário não identificado. Não é possível atualizar.") error ;;
    ret false
  else
    try_except
      (get_content_collection_ref ;;
       store_update E content_id new_prompt new_text ;;
       add_toast (py "Conteúdo atualizado com sucesso!") success ;;
       s <- get_session ;;
       when (is_some (generated_content_list s))
         (modify (set_generated_content_list None)) ;;
       ret true)
      (fun e =>
         emit (Printed (py "Erro ao atualizar conteúdo: " ++ exc_str e)) ;;
         add_toast (py "Falha ao atualizar conteúdo: " ++ exc_str e) error ;;
         ret false).

(** ** The tool page *)

(** [format(j)] inside an f-string. *)
Definition fmt (E : env) (j : json) : pystr :=
  match j with
  | JStr s => s
  | _ => str_of E j
  end.

(** The form of the page: the text area with key [prompt_<tool_key>] and the
    submit button.  The widget keeps its value in the session; a submission
    of the form brings the typed text. *)
Definition tool_form (E : env) (tool_key : string) : M (pystr * bool) :=
  let submitted :=
    match event_of E with
    | FormSubmit k typed => if String.eqb k tool_key then Some typed else None
    | _ => None
    end in
  s <- get_session ;;
  let value :=
    match submitted with
    | Some typed => typed
    | None => match prompt_lookup tool_key (prompt_ s) with
              | Some p => p
              | None => []
              end
    end in
  modify (fun s => set_prompt_ (prompt_store tool_key value (prompt_ s)) s) ;;
  ret (value, is_some submitted).

Definition sample_or_default (tl : tool) : pystr :=
  match sampleOutput tl with
  | Some s => s
  | None => py "Ocorreu um erro ao gerar o conteúdo."
  end.

(** Lines 292-315: the request and the reading of its response.  The
    condition of line 297 and the comprehension of line 298 read the same
    path of [result]; it is read once. *)
Definition request_and_parse (E : env) (tl : tool) (full_prompt : pystr)
    : M unit :=
  emit (ApiPost full_prompt) ;;
  result <- match api_reply E with
            | inl e => raise e
            | inr j => ret j
            end ;;
  candidates <- lift (dict_get result (py "candidates") JNull) ;;
  parts <- (if truthy candidates
            then
              c0 <- lift (subscript0 candidates) ;;
              content <- lift (dict_get c0 (py "content") (JDict [])) ;;
              lift (dict_get content (py "parts") JNull)
            else ret candidates) ;;
  if truthy candidates && truthy parts
  then
    elems <- lift (iterate parts) ;;
    text_parts <- lift (text_parts_of elems) ;;
    joined <- lift (join text_parts) ;;
    modify (set_generated_result joined) ;;
    add_toast (py "Conteúdo gerado com sucesso!") success
  else
    with_default <- lift (dict_get result (py "candidates") (JList [JDict []])) ;;
    first <- lift (subscript0 with_default) ;;
    finish_reason <- lift (dict_get first (py "finishReason") (JStr (py "N/A"))) ;;
    safety_ratings <- lift (dict_get first (py "safetyRatings") (JList [])) ;;
    let detailed_error :=
      (py "Resposta da API vazia ou malformada. Motivo: " ++ fmt E finish_reason
       ++ py ". Classificações: " ++ fmt E safety_ratings)%list in
    emit (Printed (py "Estrutura de resposta inesperada: " ++ str_of E result)) ;;
    modify (set_generated_result
              (py "Não foi possível gerar o conteúdo. " ++ detailed_error)) ;;
    add_toast (py "Falha ao gerar: " ++ detailed_error) error.

(** The two [except] clauses of lines 308-315. *)
Definition generation_handler (tl : tool) (e : pyexc) : M unit :=
  if is_request_exception e
  then
    modify (set_error_message (Some (py "Erro de rede/API: " ++ exc_str e))) ;;
    modify (set_generated_result (sample_or_default tl)) ;;
    add_toast (py "Erro na geração (rede): " ++ exc_str e) error
  else
    modify (set_error_message (Some (py "Erro ao gerar conteúdo: " ++ exc_str e))) ;;
    modify (set_generated_result (sample_or_default tl)) ;;
    add_toast (py "Erro na geração: " ++ exc_str e) error.

Definition prompt_key (tool_key : string) : string :=
  ("prompt_" ++ tool_key)%string.

(** Lines 286-318. *)
Definition generation (E : env) (tl : tool) (tool_key : string) : M unit :=
  s <- get_session ;;
  when (is_loading s)
    (stored <- match prompt_lookup tool_key (prompt_ s) with
               | Some p => ret p
               | None => raise (MkExc KeyError (py (prompt_key tool_key)))
               end ;;
     let full_prompt := (apiPromptPrefix tl ++ stored)%list in
     try_finally
       (try_except (request_and_parse E tl full_prompt) (generation_handler tl))
       (modify (set_is_loading false)) ;;
     st_rerun).

(** Lines 320-346. *)
Definition result_area (E : env) (tl : tool) (tool_key : string) : M unit :=
  s <- get_session ;;
  when (str_truthy (generated_result s))
    (emit (ResultShown (generated_result s)) ;;
     download_as_txt (generated_result s) (tool_id tl ++ py "_conteudo.txt") ;;
     download_as_pdf E (generated_result s) (tool_id tl ++ py "_conteudo.pdf") ;;
     when (match event_of E with
           | SaveClick k => String.eqb k tool_key
           | _ => false
           end)
       (s <- get_session ;;
        if str_truthy (generated_result s)
        then
          save_content_to_firestore E (tool_id tl) (tool_name tl)
            (match prompt_lookup tool_key (prompt_ s) with
             | Some p => p
             | None => []
             end)
            (generated_result s)
        else add_toast (py "Nenhum conteúdo gerado para salvar.") warning)).

Definition render_tool_page (E : env) (tool_key : string) : M unit :=
  match tool_get tool_key tool_configs with
  | None => emit (Shown error (py "Ferramenta não encontrada."))
  | Some tl =>
    f <- tool_form E tool_key ;;
    let '(prompt_text, submit_button) := f in
    s <- get_session ;;
    when (opt_truthy (error_message s))
      (emit (Shown error (match error_message s with Some m => m | None => [] end)) ;;
       modify (set_error_message None)) ;;
    when submit_button
      (when (negb (str_truthy (strip prompt_text)))
         (modify (set_error_message (Some (py "Por favor, insira um prompt."))) ;;
          st_rerun) ;;
       modify (set_error_message (Some [])) ;;
       modify (set_generated_result []) ;;
       modify (set_is_loading true) ;;
       st_rerun) ;;
    generation E tl tool_key ;;
    result_area E tl tool_key
  end.

(** ** The page of saved content *)

Definition is_event_edit (E : env) (i : pystr) : bool :=
  match event_of E with EditClick j => str_eqb j i | _ => false end.

Definition is_event_delete (E : env) (i : pystr) : bool :=
  match event_of E with DeleteClick j => str_eqb j i | _ => false end.

(** Lines 373-414: one expander per cached item, with its download, edit
    and delete buttons. *)
Fixpoint render_items (E : env) (l : list item) : M unit :=
  match l with
  | [] => ret tt
  | it :: r =>
    let tool_name := toolName (item_fields it) in
    emit (ItemShown it) ;;
    download_as_txt (text (item_fields it))
      (replace_spaces tool_name ++ py "_" ++ item_id it ++ py ".txt") ;;
    download_as_pdf E (text (item_fields it))
      (replace_spaces tool_name ++ py "_" ++ item_id it ++ py ".pdf") ;;
    when (is_event_edit E (item_id it))
      (modify (set_editing_item_id (Some (item_id it))) ;;
       modify (set_editing_item (prompt (item_fields it))
                 (text (item_fields it)) (toolName (item_fields it))) ;;
       st_rerun) ;;
    when (is_event_delete E (item_id it))
      (modify (set_deleting_item_id (Some (item_id it)))) ;;
    render_items E r
  end.

(** Lines 420-439: the dialog [edit_modal] of the item being edited. *)
Definition edit_modal (E : env) (item_id_ : pystr) : M unit :=
  match event_of E with
  | SaveEdit i current_prompt current_text =>
    when (str_eqb i item_id_)
      (if negb (str_truthy (strip current_text))
       then add_toast (py "O conteúdo não pode estar vazio.") error
       else
         ok <- update_content_in_firestore E item_id_ current_prompt current_text ;;
         when ok
           (s <- get_session ;;
            attr "editing_item_id" (editing_item_id s) ;;
            modify (set_editing_item_id None) ;;
            st_rerun))
  | CancelEdit i =>
    when (str_eqb i item_id_)
      (s <- get_session ;;
       attr "editing_item_id" (editing_item_id s) ;;
       modify (set_editing_item_id None) ;;
       st_rerun)
  | _ => ret tt
  end.

(** Lines 446-458: the dialog [confirm_delete_modal]. *)
Definition confirm_delete_modal (E : env) (item_id_to_delete : pystr) : M unit :=
  emit (Shown warning
          (py "Tem certeza de que deseja excluir este item? Esta ação não pode ser desfeita.")) ;;
  match event_of E with
  | ConfirmDelete i =>
    when (str_eqb i item_id_to_delete)
      (delete_content_from_firestore E item_id_to_delete ;;
       s <- get_session ;;
       attr "deleting_item_id" (deleting_item_id s) ;;
       modify (set_deleting_item_id None) ;;
       st_rerun)
  | CancelDelete i =>
    when (str_eqb i item_id_to_delete)
      (s <- get_session ;;
       attr "deleting_item_id" (deleting_item_id s) ;;
       modify (set_deleting_item_id None) ;;
       st_rerun)
  | _ => ret tt
  end.

Definition is_event_load_more (E : env) : bool :=
  match event_of E with LoadMore => true | _ => false end.

(** Lines 461-475. *)
Definition load_more_section (E : env) : M unit :=
  s <- get_session ;;
  when (has_more_content s && negb (is_loading_content s))
    (when (is_event_load_more E)
       (modify (set_is_loading_content true) ;;
        s <- get_session ;;
        r <- fetch_content E ITEMS_PER_PAGE (last_doc_snapshot s) ;;
        let '(new_content, new_last_doc, new_has_more) := r in
        s <- get_session ;;
        l <- attr "generated_content_list" (generated_content_list s) ;;
        modify (set_generated_content_list (Some (l ++ new_content)%list)) ;;
        modify (fun s => set_last_doc_snapshot
                           (match new_last_doc with
                            | Some d => Some d
                            | None => last_doc_snapshot s
                            end) s) ;;
        modify (set_has_more_content new_has_more) ;;
        modify (set_is_loading_content false) ;;
        st_rerun)).

Definition render_my_content_page (E : env) : M unit :=
  (* lines 353-357 *)
  s <- get_session ;;
  when (negb (is_some (generated_content_list s)))
    (modify (set_generated_content_list (Some [])) ;;
     modify (set_last_doc_snapshot None) ;;
     modify (set_has_more_content true) ;;
     modify (set_is_loading_content true)) ;;
  (* lines 359-366 *)
  s <- get_session ;;
  l <- attr "generated_content_list" (generated_content_list s) ;;
  when (is_loading_content s && is_nil l)
    (r <- fetch_content E ITEMS_PER_PAGE None ;;
     let '(content, last_doc, has_more) := r in
     modify (set_generated_content_list (Some content)) ;;
     modify (set_last_doc_snapshot last_doc) ;;
     modify (set_has_more_content has_more) ;;
     modify (set_is_loading_content false) ;;
     st_rerun) ;;
  (* lines 369-371 *)
  s <- get_session ;;
  l <- attr "generated_content_list" (generated_content_list s) ;;
  if is_nil l && negb (is_loading_content s)
  then
    emit (Shown info
            (py "Nenhum conteúdo salvo ainda. Comece a gerar conteúdos e eles aparecerão aqui!"))
  else
    render_items E l ;;
    s <- get_session ;;
    when (opt_truthy (editing_item_id s))
      (edit_modal E (match editing_item_id s with Some i => i | None => [] end)) ;;
    s <- get_session ;;
    when (opt_truthy (deleting_item_id s))
      (confirm_delete_modal E
         (match deleting_item_id s with Some i => i | None => [] end)) ;;
    load_more_section E.

(** ** The script *)

(** Lines 482-499: a key of [default_session_state] that is absent from the
    session gets its default.  Of the keys of the model only [error_message]
    and [generated_content_list] can be absent with a default that differs
    from [None]. *)
Definition apply_defaults : M unit :=
  s <- get_session ;;
  when (negb (is_some (error_message s)))
    (modify (set_error_message (Some []))) ;;
  when (negb (is_some (generated_content_list s)))
    (modify (set_generated_content_list (Some []))).

(** The session after the first pass over lines 482-499. *)
Definition default_session_state : session :=
  MkSession None None (py "Usuário") false [] (Some []) []
    (Some []) None true true None None [] [] [].

(** One execution of the script, from line 482 on: the defaults,
    [get_user_id()], then the page the sidebar selected.  Lines 23-35 are
    taken to have given the store client [db] (an execution in which they
    fail stops at line 28 or 31, or goes on with the mock of lines 39-62).
    The dashboard draws; a click on one of its buttons is not among the
    events [ui_event] lists. *)
Definition script (E : env) : M unit :=
  apply_defaults ;;
  get_user_id ;;
  match page_of E with
  | Dashboard => ret tt
  | ToolPage tool_key => render_tool_page E tool_key
  | MyContent => render_my_content_page E
  end.

Definition run (E : env) (w : world) : res unit * world := script E w.

(** The execution that a [st.rerun()] triggers has no widget event. *)
Definition quiet (E : env) : env :=
  MkEnv (page_of E) NoEvent (api_reply E) (store_fault E) (fresh_id E)
    (server_time E) (missing_text E) (str_of E) (pdf_fault E).

(** The executions of one interaction: the one the event triggers, then the
    ones each [st.rerun()] triggers, at most [fuel] of them. *)
Fixpoint reruns (fuel : nat) (E : env) (w : world) : res unit * world :=
  match fuel with
  | O => (Rerun, w)
  | S f =>
    match run (quiet E) w with
    | (Rerun, w') => reruns f E w'
    | other => other
    end
  end.

Definition interact (fuel : nat) (E : env) (w : world) : res unit * world :=
  match run E w with
  | (Rerun, w') => reruns fuel E w'
  | other => other
  end.

(** ** Observations on executions *)

(** The user of the session is known: line 502 has run. *)
Definition identified (s : session) : Prop := opt_truthy (user_id s) = true.

(** The same execution context with another widget event. *)
Definition with_event (ev : ui_event) (E : env) : env :=
  MkEnv (page_of E) ev (api_reply E) (store_fault E) (fresh_id E)
    (server_time E) (missing_text E) (str_of E) (pdf_fault E).

Definition is_post (e : event) : bool :=
  match e with ApiPost _ => true | _ => false end.

(** The number of requests sent to the generation API. *)
Definition count_posts (l : list event) : nat :=
  List.length (filter is_post l).

Definition is_stream (e : event) : bool :=
  match e with StoreStream _ _ => true | _ => false end.

(** The number of page fetches sent to the store. *)
Definition count_streams (l : list event) : nat :=
  List.length (filter is_stream l).

Definition is_write (e : event) : bool :=
  match e with
  | StoreAdd _ | StoreUpdate _ _ _ | StoreDelete _ => true
  | _ => false
  end.

(** The number of writes sent to the store. *)
Definition count_writes (l : list event) : nat :=
  List.length (filter is_write l).

(** Opening the page of saved content, and the execution its [st.rerun()]
    triggers. *)
Definition visit_my_content (E : env) (w : world) : res unit * world :=
  interact 1 (with_event NoEvent E) w.

(** [n] clicks on the button that loads more content, each followed by the
    execution its [st.rerun()] triggers. *)
Fixpoint load_more_clicks (n : nat) (E : env) (w : world) : world :=
  match n with
  | O => w
  | S k => snd (interact 1 (with_event LoadMore E) (load_more_clicks k E w))
  end.

(** The cache of the list of saved content. *)
Definition cache_of (s : session)
    : option (list item) * option snapshot * bool * bool :=
  (generated_content_list s, last_doc_snapshot s, has_more_content s,
   is_loading_content s).

(** The text the page shows when its list is empty. *)
Definition no_content_message : pystr :=
  py "Nenhum conteúdo salvo ainda. Comece a gerar conteúdos e eles aparecerão aqui!".

(** [needle in s] for strings. *)
Fixpoint is_prefix (p s : pystr) : bool :=
  match p, s with
  | [], _ => true
  | x :: p', y :: s' => (x =? y)%N && is_prefix p' s'
  | _ :: _, [] => false
  end.

Fixpoint contains (needle s : pystr) : bool :=
  is_prefix needle s
  || match s with
     | [] => false
     | _ :: r => contains needle r
     end.

(** [l] runs from the newest to the oldest document. *)
Definition descending (l : list snapshot) : Prop :=
  StronglySorted (fun a b => key_ltb b a = true) l.

(** [l] runs from the latest [createdAt] to the earliest. *)
Definition newest_first (l : list snapshot) : Prop :=
  StronglySorted
    (fun a b => (createdAt (snap_fields b) <= createdAt (snap_fields a))%Z) l.

(** The session once lines 160-161 (206-207, 224-225) have run. *)
Definition without_list (s : session) : session :=
  if is_some (generated_content_list s)
  then set_generated_content_list None s
  else s.

(** The value of the text area of the form of a tool page. *)
Definition widget_prompt (tool_key : string) (s : session) : pystr :=
  match prompt_lookup tool_key (prompt_ s) with
  | Some p => p
  | None => []
  end.

(** The session once the loop of lines 497-499 has run. *)
Definition with_defaults (s : session) : session :=
  let s1 := if is_some (error_message s) then s
            else set_error_message (Some []) s in
  if is_some (generated_content_list s1) then s1
  else set_generated_content_list (Some []) s1.

(** The session once [get_user_id()] has run. *)
Definition with_user (s : session) : session :=
  if opt_truthy (user_id s) then s
  else
    let s1 := if is_some (temp_user_id s) then s
              else set_temp_user_id (Some (py "default_user")) s in
    set_user_display_name (py "Usuário Visitante")
      (set_user_id (temp_user_id s1) s1).

(** The session once lines 482-502 have run. *)
Definition prelude (s : session) : session := with_user (with_defaults s).

(** Line 502 finds or names the user of the session. *)
Definition identifiable (s : session) : Prop :=
  opt_truthy (user_id (with_user s)) = true.

(** The page that the routing of lines 551-563 draws. *)
Definition render_page (E : env) : M unit :=
  match page_of E with
  | Dashboard => ret tt
  | ToolPage tool_key => render_tool_page E tool_key
  | MyContent => render_my_content_page E
  end.

(** The value of a key that may be absent, with its default. *)
Definition or_default {A} (o : option A) (d : A) : A :=
  match o with Some a => a | None => d end.

(** *** The greeting *)

Definition get_user_display_name : M pystr :=
  get_user_id ;;
  s <- get_session ;;
  ret (user_display_name s).

(** What [download_as_pdf] shows for a text. *)
Definition pdf_events (E : env) (text : pystr) : list event :=
  match pdf_fault E (pdf_lines text) with
  | None => [Shown success (py "PDF pronto para download!")]
  | Some e => [Shown error (py "Erro ao gerar PDF: " ++ exc_str e);
               Shown error (py "Erro ao gerar PDF.")]
  end.

(** What the expander of an item shows, and the expanders of a list. *)
Definition item_events (E : env) (it : item) : list event :=
  ItemShown it :: pdf_events E (text (item_fields it)).

Definition items_events (E : env) (l : list item) : list event :=
  flat_map (item_events E) l.

(** What the dialog that confirms a delete shows when it is open. *)
Definition confirm_events (s : session) : list event :=
  if opt_truthy (deleting_item_id s)
  then [Shown warning
          (py "Tem certeza de que deseja excluir este item? Esta ação não pode ser desfeita.")]
  else [].

(** The requests sent to the generation API, in order. *)
Definition posts (l : list event) : list event := filter is_post l.

(** An execution that sends nothing to the generation API. *)
Definition silent {A} (m : M A) : Prop :=
  forall w, posts (out (snd (m w))) = posts (out w).

(** An execution that sends at most one request to the generation API. *)
Definition sends_at_most_one {A} (m : M A) : Prop :=
  forall w,
    count_posts (out w) <= count_posts (out (snd (m w)))
    <= S (count_posts (out w)).

(** A part of a candidate of the generation API, and a response with one
    candidate made of such parts. *)
Definition text_part (t : pystr) : json := JDict [(py "text", JStr t)].

Definition reply_with (texts : list pystr) : json :=
  JDict [(py "candidates",
          JList [JDict [(py "content",
                         JDict [(py "parts", JList (map text_part texts))])]])].

(** *** Sample inputs *)

(** [str()] of the decoded values the samples need. *)
Definition str_of_small (j : json) : pystr :=
  match j with
  | JNull => py "None"
  | JBool true => py "True"
  | JBool false => py "False"
  | JList [] => py "[]"
  | JDict [] => py "{}"
  | JDict [(k, JList [])] => (py "{'" ++ k ++ py "': []}")%list
  | _ => py "..."
  end.

(** The session of a visitor once line 502 has run. *)
Definition visitor_session : session :=
  MkSession (Some (py "default_user")) (Some (py "default_user"))
    (py "Usuário Visitante") false [] (Some []) []
    (Some []) None true true None None [] [] [].

Definition sample_env (p : page) (ev : ui_event) (reply : pyexc + json)
    (fault : option pyexc) : env :=
  MkEnv p ev reply fault (py "doc9") 900 (py "404 No document to update: doc0")
    str_of_small (fun _ => None).

(** A visitor who typed a prompt and whose generation is pending. *)
Definition pending_session (tool_key : string) (typed : pystr) : session :=
  set_is_loading true
    (set_prompt_ [(tool_key, typed)] visitor_session).

(** A request that timed out. *)
Definition timeout_error : pyexc :=
  MkExc RequestException (py "HTTPSConnectionPool: Read timed out.").

(** The execution that follows a submission of the article form. *)
Definition article_env (reply : pyexc + json) : env :=
  sample_env (ToolPage "article") NoEvent reply None.

Definition pending_world : world :=
  MkWorld (pending_session "article" (py "gatos")) [] [].

(** The text lines 302-304 build when neither a finish reason nor safety
    ratings are found. *)
Definition default_detail (E : env) : pystr :=
  (py "Resposta da API vazia ou malformada. Motivo: " ++ py "N/A"
   ++ py ". Classificações: " ++ str_of E (JList []))%list.

(** The store cannot be reached. *)
Definition unavailable_error : pyexc :=
  MkExc ServiceUnavailable (py "503 The service is currently unavailable.").

(** A collection of eight documents, in the order of their creation. *)
Definition sample_doc (n : nat) : snapshot :=
  MkSnap (py "doc" ++ py_of_nat n)
    (MkFields (py "article") (py "Gerador de Artigos")
       (py "tema " ++ py_of_nat n) (py "Era uma vez...")
       (Z.of_nat n * 100) None).

Definition sample_collection : list snapshot :=
  map sample_doc [1; 2; 3; 4; 5; 6; 7; 8].

(** The session of a visitor who has opened the page of saved content. *)
Definition listed_session : session :=
  set_is_loading_content false
    (set_has_more_content true
       (set_last_doc_snapshot (Some (sample_doc 4))
          (set_generated_content_list
             (Some (map item_of_snapshot (map sample_doc [8; 7; 6; 5; 4])))
             visitor_session))).

Definition listed_world : world :=
  MkWorld listed_session sample_collection [].

(** The state of the page of saved content once [k] pages of the
    collection [coll] have been loaded. *)
Definition listing (coll : list snapshot) (k : nat) (w : world) : Prop :=
  db w = coll
  /\ identified (ss w)
  /\ is_some (error_message (ss w)) = true
  /\ generated_content_list (ss w)
     = Some (map item_of_snapshot
               (firstn (k * ITEMS_PER_PAGE) (order_by_desc coll)))
  /\ is_loading_content (ss w) = false
  /\ has_more_content (ss w)
     = (k * ITEMS_PER_PAGE <=? List.length (order_by_desc coll))
  /\ (has_more_content (ss w) = true ->
      last_doc_snapshot (ss w)
      = last_opt (firstn (k * ITEMS_PER_PAGE) (order_by_desc coll))).

(** A session in which the page of saved content has yet to load. *)
Definition awaiting_first_page (s : session) : Prop :=
  is_loading_content s = true
  /\ or_default (generated_content_list s) [] = [].

(** No string occurs twice in [l]. *)
Fixpoint distinct (l : list pystr) : bool :=
  match l with
  | [] => true
  | x :: r => negb (existsb (str_eqb x) r) && distinct r
  end.

(** The first visit of a visitor to the page of saved content. *)
Definition list_env (ev : ui_event) (fault : option pyexc) : env :=
  sample_env MyContent ev (inr JNull) fault.

Definition fresh_world : world := MkWorld visitor_session sample_collection [].

(** A collection that fills exactly one page. *)
Definition five_docs_world : world :=
  MkWorld visitor_session (map sample_doc [1; 2; 3; 4; 5]) [].

(** A visitor whose article has been generated. *)
Definition written_session : session :=
  set_generated_result (py "Era uma vez.")
    (set_prompt_ [("article"%string, py "gatos")] visitor_session).

Definition written_world : world :=
  MkWorld written_session sample_collection [].

(** A click on one of the two buttons of an expander. *)
Definition is_item_click (ev : ui_event) : bool :=
  match ev with
  | EditClick _ | DeleteClick _ => true
  | _ => false
  end.

(** A visitor who has opened the dialog that edits [doc6]. *)
Definition editing_world : world :=
  MkWorld (set_editing_item_id (Some (py "doc6")) listed_session)
    sample_collection [].

(** A visitor who has opened the dialog that deletes [doc6]. *)
Definition deleting_world : world :=
  MkWorld (set_deleting_item_id (Some (py "doc6")) listed_session)
    sample_collection [].

Arguments py : simpl never.
Arguments tool_get : simpl never.

(** * Properties *)

(** ** Strings *)

Lemma lstrip_whitespace (s : pystr) : whitespace_only s -> lstrip s = [].
Proof.
  unfold whitespace_only.
  induction s as [|c r IH]; simpl; intros H; [reflexivity|].
  apply andb_true_iff in H. destruct H as [Hc Hr].
  rewrite Hc. auto.
Qed.

Lemma strip_whitespace (s : pystr) : whitespace_only s -> strip s = [].
Proof.
  intros H. unfold strip, rstrip. rewrite (lstrip_whitespace H). reflexivity.
Qed.

Lemma lstrip_head (s : pystr) :
  lstrip s = [] \/ exists c r, lstrip s = c :: r /\ is_space c = false.
Proof.
  induction s as [|c r IH]; simpl; [left; reflexivity|].
  destruct (is_space c) eqn:Hc; [exact IH|].
  right. exists c, r. split; [reflexivity | exact Hc].
Qed.

Lemma lstrip_nil_whitespace (s : pystr) : lstrip s = [] -> whitespace_only s.
Proof.
  unfold whitespace_only.
  induction s as [|c r IH]; simpl; intros H; [reflexivity|].
  destruct (is_space c); [auto | discriminate].
Qed.

(** [strip] leaves nothing exactly of the strings made of white space. *)
Lemma strip_nil_iff (s : pystr) : strip s = [] <-> whitespace_only s.
Proof.
  split; [|apply strip_whitespace].
  unfold strip, rstrip. intros H.
  apply lstrip_nil_whitespace.
  destruct (lstrip_head s) as [E0 | (c & r & E1 & Hc)]; [exact E0|].
  exfalso. rewrite E1 in H.
  assert (Hrev : lstrip (rev (c :: r)) = []).
  { apply (f_equal (@rev N)) in H. rewrite rev_involutive in H. exact H. }
  apply lstrip_nil_whitespace in Hrev. unfold whitespace_only in Hrev.
  rewrite forallb_forall in Hrev.
  specialize (Hrev c). rewrite Hc in Hrev.
  assert (In c (rev (c :: r))) by (apply in_rev; rewrite rev_involutive; left; reflexivity).
  specialize (Hrev H0). discriminate.
Qed.

Lemma str_eqb_refl (a : pystr) : str_eqb a a = true.
Proof.
  induction a as [|x a IH]; simpl; [reflexivity|].
  rewrite N.eqb_refl. exact IH.
Qed.

Lemma str_eqb_eq (a b : pystr) : str_eqb a b = true <-> a = b.
Proof.
  split; [|intros ->; apply str_eqb_refl].
  revert b. induction a as [|x a IH]; intros [|y b]; simpl; try discriminate; auto.
  intros H. apply andb_true_iff in H. destruct H as [Hx Hr].
  apply N.eqb_eq in Hx. subst. f_equal. auto.
Qed.

Lemma str_ltb_irrefl (a : pystr) : str_ltb a a = false.
Proof.
  induction a as [|x a IH]; simpl; [reflexivity|].
  rewrite N.ltb_irrefl, N.eqb_refl. exact IH.
Qed.

Lemma str_ltb_trans (a b c : pystr) :
  str_ltb a b = true -> str_ltb b c = true -> str_ltb a c = true.
Proof.
  revert b c. induction a as [|x a IH]; intros [|y b] [|z c]; simpl;
    try discriminate; auto.
  intros H1 H2.
  apply orb_true_iff in H1. apply orb_true_iff in H2. apply orb_true_iff.
  destruct H1 as [H1 | H1]; destruct H2 as [H2 | H2].
  - left. apply N.ltb_lt in H1, H2. apply N.ltb_lt. lia.
  - apply andb_true_iff in H2. destruct H2 as [H2 _].
    apply N.eqb_eq in H2. subst. left. exact H1.
  - apply andb_true_iff in H1. destruct H1 as [H1 _].
    apply N.eqb_eq in H1. subst. left. exact H2.
  - apply andb_true_iff in H1. apply andb_true_iff in H2.
    destruct H1 as [H1 H1']. destruct H2 as [H2 H2'].
    apply N.eqb_eq in H1, H2. subst. right.
    rewrite N.eqb_refl. simpl. eauto.
Qed.

Lemma str_ltb_total (a b : pystr) :
  str_ltb a b = false -> str_ltb b a = false -> a = b.
Proof.
  revert b. induction a as [|x a IH]; intros [|y b]; simpl;
    try discriminate; auto.
  intros H1 H2.
  apply orb_false_iff in H1. apply orb_false_iff in H2.
  destruct H1 as [H1 H1']. destruct H2 as [H2 H2'].
  apply N.ltb_ge in H1, H2.
  assert (x = y) by lia. subst.
  rewrite N.eqb_refl in H1', H2'. simpl in H1', H2'.
  f_equal. auto.
Qed.

(** ** The order of the collection *)

Lemma key_ltb_irrefl (a : snapshot) : key_ltb a a = false.
Proof.
  unfold key_ltb. rewrite Z.ltb_irrefl, Z.eqb_refl, str_ltb_irrefl. reflexivity.
Qed.

Lemma key_ltb_trans (a b c : snapshot) :
  key_ltb a b = true -> key_ltb b c = true -> key_ltb a c = true.
Proof.
  unfold key_ltb. intros H1 H2.
  apply orb_true_iff in H1. apply orb_true_iff in H2. apply orb_true_iff.
  destruct H1 as [H1 | H1]; destruct H2 as [H2 | H2].
  - left. apply Z.ltb_lt in H1, H2. apply Z.ltb_lt. lia.
  - apply andb_true_iff in H2. destruct H2 as [H2 _].
    apply Z.eqb_eq in H2. rewrite <- H2. left. exact H1.
  - apply andb_true_iff in H1. destruct H1 as [H1 _].
    apply Z.eqb_eq in H1. rewrite H1. left. exact H2.
  - apply andb_true_iff in H1. apply andb_true_iff in H2.
    destruct H1 as [H1 H1']. destruct H2 as [H2 H2'].
    apply Z.eqb_eq in H1, H2. right.
    rewrite H1, H2, Z.eqb_refl. simpl. eapply str_ltb_trans; eauto.
Qed.

Lemma key_ltb_asym (a b : snapshot) : key_ltb a b = true -> key_ltb b a = false.
Proof.
  intros H. destruct (key_ltb b a) eqn:Hba; [|reflexivity].
  rewrite <- (key_ltb_irrefl a). symmetry. eapply key_ltb_trans; eauto.
Qed.

(** Two documents that the order does not separate have the same name. *)
Lemma key_ltb_total (a b : snapshot) :
  key_ltb a b = false -> key_ltb b a = false -> snap_id a = snap_id b.
Proof.
  unfold key_ltb. intros H1 H2.
  apply orb_false_iff in H1. apply orb_false_iff in H2.
  destruct H1 as [H1 H1']. destruct H2 as [H2 H2'].
  apply Z.ltb_ge in H1, H2.
  assert (Heq : createdAt (snap_fields a) = createdAt (snap_fields b)) by lia.
  rewrite Heq, Z.eqb_refl in H1', H2'. simpl in H1', H2'.
  apply str_ltb_total; assumption.
Qed.

Lemma insert_desc_in (d x : snapshot) (l : list snapshot) :
  In x (insert_desc d l) <-> x = d \/ In x l.
Proof.
  induction l as [|y r IH]; simpl.
  - intuition.
  - destruct (key_ltb y d); simpl; [intuition|].
    rewrite IH. intuition.
Qed.

Lemma order_by_desc_in (x : snapshot) (l : list snapshot) :
  In x (order_by_desc l) <-> In x l.
Proof.
  induction l as [|y r IH]; simpl; [reflexivity|].
  rewrite insert_desc_in, IH. intuition.
Qed.

Lemma insert_desc_descending (d : snapshot) (l : list snapshot) :
  descending l ->
  (forall x, In x l -> snap_id x <> snap_id d) ->
  descending (insert_desc d l).
Proof.
  unfold descending.
  induction l as [|y r IH]; simpl; intros Hs Hd.
  - constructor; constructor.
  - inversion Hs as [|? ? Hr Hy]; subst.
    destruct (key_ltb y d) eqn:Hyd.
    + constructor; [exact Hs|].
      constructor; [exact Hyd|].
      rewrite Forall_forall in *. intros x Hx.
      eapply key_ltb_trans; [apply Hy; exact Hx | exact Hyd].
    + assert (Hdy : key_ltb d y = true).
      { destruct (key_ltb d y) eqn:Hdy; [reflexivity|].
        exfalso. apply (Hd y); [left; reflexivity|].
        apply key_ltb_total; assumption. }
      constructor.
      * apply IH; [exact Hr|]. intros x Hx. apply Hd. right. exact Hx.
      * rewrite Forall_forall in *. intros x Hx.
        apply insert_desc_in in Hx. destruct Hx as [-> | Hx]; auto.
Qed.

(** A collection, whose documents have distinct names, is streamed from the
    newest to the oldest document. *)
Lemma order_by_desc_descending (l : list snapshot) :
  NoDup (map snap_id l) -> descending (order_by_desc l).
Proof.
  induction l as [|d r IH]; simpl; intros H.
  - constructor.
  - inversion H as [|? ? Hnotin Hr]; subst.
    apply insert_desc_descending; [auto|].
    intros x Hx Heq. apply Hnotin.
    apply (proj1 (order_by_desc_in _ _)) in Hx.
    rewrite <- Heq. apply in_map. exact Hx.
Qed.

Lemma filter_all {A} (f : A -> bool) (l : list A) :
  Forall (fun x => f x = true) l -> filter f l = l.
Proof.
  induction 1 as [|x r Hx Hr IH]; simpl; [reflexivity|].
  rewrite Hx, IH. reflexivity.
Qed.

Lemma last_opt_in {A} (l : list A) (c : A) : last_opt l = Some c -> In c l.
Proof.
  induction l as [|x r IH]; simpl; [discriminate|].
  destruct r as [|y r']; [intros [= ->]; left; reflexivity|].
  intros H. right. apply IH. exact H.
Qed.

(** The documents after the last one of the first [n] are the ones past the
    first [n]. *)
Lemma start_after_last (l : list snapshot) :
  descending l ->
  forall n c, last_opt (firstn n l) = Some c -> start_after c l = skipn n l.
Proof.
  unfold descending, start_after.
  induction 1 as [|x r Hr IH Hx]; intros n c Hc.
  - destruct n; discriminate.
  - destruct n as [|m]; [discriminate|].
    cbn [firstn] in Hc. cbn [skipn filter].
    destruct (firstn m r) as [|y f] eqn:Hf.
    + injection Hc as <-.
      rewrite key_ltb_irrefl, (filter_all _ Hx).
      destruct m; [reflexivity|].
      destruct r; [reflexivity | discriminate].
    + change (last_opt (y :: f) = Some c) in Hc.
      assert (Hin : In c r).
      { apply last_opt_in in Hc. rewrite <- Hf in Hc.
        rewrite <- (firstn_skipn m r). apply in_or_app. left. exact Hc. }
      rewrite Forall_forall in Hx.
      rewrite (key_ltb_asym _ _ (Hx c Hin)).
      apply IH. rewrite Hf. exact Hc.
Qed.

Lemma firstn_add {A} (n m : nat) (l : list A) :
  firstn (n + m) l = (firstn n l ++ firstn m (skipn n l))%list.
Proof.
  revert l. induction n as [|n IH]; intros l; [reflexivity|].
  destruct l as [|x r]; simpl.
  - rewrite firstn_nil. reflexivity.
  - rewrite IH. reflexivity.
Qed.

Lemma last_opt_app {A} (l1 l2 : list A) :
  l2 <> [] -> last_opt (l1 ++ l2) = last_opt l2.
Proof.
  intros H. induction l1 as [|x r IH]; [reflexivity|].
  cbn [app last_opt]. rewrite IH.
  destruct (r ++ l2)%list eqn:Happ; [|reflexivity].
  apply app_eq_nil in Happ. destruct Happ. contradiction.
Qed.

(** ** Executions *)

Ltac unfold_m :=
  unfold add_toast, download_as_txt in *;
  unfold bind, ret, lift, raise, st_rerun, emit, get_session, modify, get_db,
    put_db, try_except, try_finally, when, attr in *.

Lemma bind_ok {A B} (m : M A) (k : A -> M B) (w w' : world) (a : A) :
  m w = (Ok a, w') -> bind m k w = k a w'.
Proof. intros H. unfold bind. rewrite H. reflexivity. Qed.
Arguments bind_ok {A B} [m] k [w w' a] _.

Lemma bind_rerun {A B} (m : M A) (k : A -> M B) (w w' : world) :
  m w = (Rerun, w') -> bind m k w = (Rerun, w').
Proof. intros H. unfold bind. rewrite H. reflexivity. Qed.
Arguments bind_rerun {A B} [m] k [w w'] _.

Lemma bind_exc {A B} (m : M A) (k : A -> M B) (w w' : world) (e : pyexc) :
  m w = (Exc e, w') -> bind m k w = (Exc e, w').
Proof. intros H. unfold bind. rewrite H. reflexivity. Qed.
Arguments bind_exc {A B} [m] k [w w' e] _.

Lemma world_eta (w : world) : MkWorld (ss w) (db w) (out w) = w.
Proof. destruct w; reflexivity. Qed.

(** [download_as_pdf] always returns, and only shows. *)
Lemma download_as_pdf_eval (E : env) (text filename : pystr) (w : world) :
  download_as_pdf E text filename w
  = (Ok tt, MkWorld (ss w) (db w) (out w ++ pdf_events E text)).
Proof.
  unfold download_as_pdf, pdf_events. unfold_m.
  destruct (pdf_fault E (pdf_lines text)); cbn [ss db out];
    rewrite <- ?app_assoc; reflexivity.
Qed.

Arguments download_as_pdf : simpl never.

Lemma pdf_events_no_post (E : env) (text : pystr) :
  filter is_post (pdf_events E text) = [].
Proof. unfold pdf_events. destruct (pdf_fault E (pdf_lines text)); reflexivity. Qed.

Lemma pdf_events_no_stream (E : env) (text : pystr) :
  filter is_stream (pdf_events E text) = [].
Proof. unfold pdf_events. destruct (pdf_fault E (pdf_lines text)); reflexivity. Qed.

Lemma pdf_events_no_write (E : env) (text : pystr) :
  filter is_write (pdf_events E text) = [].
Proof. unfold pdf_events. destruct (pdf_fault E (pdf_lines text)); reflexivity. Qed.

(** Once the user is known, [get_user_id] only reads the session. *)
Lemma get_user_id_identified (w : world) :
  identified (ss w) -> get_user_id w = (Ok (user_id (ss w)), w).
Proof.
  unfold identified, get_user_id. intros H.
  unfold_m. rewrite H. reflexivity.
Qed.

Lemma get_content_collection_ref_identified (w : world) :
  identified (ss w) -> get_content_collection_ref w = (Ok tt, w).
Proof.
  intros H. unfold get_content_collection_ref.
  rewrite (bind_ok _ (get_user_id_identified w H)). reflexivity.
Qed.

(** A page fetch that the store answers. *)
Lemma fetch_content_ok (E : env) (w : world) (limit_num : nat)
    (cursor : option snapshot) :
  identified (ss w) -> store_fault E = None ->
  fetch_content E limit_num cursor w =
  (Ok (map item_of_snapshot (query_docs (db w) limit_num cursor),
       last_opt (query_docs (db w) limit_num cursor),
       Nat.eqb (List.length (query_docs (db w) limit_num cursor)) limit_num),
   MkWorld (ss w) (db w) (out w ++ [StoreStream limit_num cursor])).
Proof.
  intros Hid Hf. unfold fetch_content.
  rewrite (bind_ok _ (get_user_id_identified w Hid)).
  unfold identified in Hid. rewrite Hid. cbn [negb].
  rewrite (bind_ok _ (get_content_collection_ref_identified w Hid)).
  unfold store_stream, fail_on_fault. rewrite Hf.
  unfold_m. reflexivity.
Qed.

(** A page fetch that the store fails. *)
Lemma fetch_content_fault (E : env) (w : world) (limit_num : nat)
    (cursor : option snapshot) (e : pyexc) :
  identified (ss w) -> store_fault E = Some e ->
  fetch_content E limit_num cursor w =
  (Ok ([], None, false),
   MkWorld (ss w) (db w)
     (out w ++ [StoreStream limit_num cursor;
                Shown error (py "Erro ao buscar conteúdos: " ++ exc_str e)])).
Proof.
  intros Hid Hf. unfold fetch_content.
  rewrite (bind_ok _ (get_user_id_identified w Hid)).
  unfold identified in Hid. rewrite Hid. cbn [negb].
  rewrite (bind_ok _ (get_content_collection_ref_identified w Hid)).
  unfold store_stream, fail_on_fault. rewrite Hf.
  unfold_m. cbn [ss db out]. rewrite <- app_assoc. reflexivity.
Qed.

(** *** The functions that write to the store *)

Ltac enter_store_function Hid :=
  rewrite (bind_ok _ (get_user_id_identified _ Hid));
  let Hid' := fresh "Hid" in
  pose proof Hid as Hid'; unfold identified in Hid'; rewrite Hid'; cbn [negb];
  unfold try_except;
  rewrite (bind_ok _ (get_content_collection_ref_identified _ Hid)).

Lemma save_content_fault (E : env) (w : world) (e : pyexc)
    (c_toolId c_toolName c_prompt c_text : pystr) :
  identified (ss w) -> store_fault E = Some e ->
  save_content_to_firestore E c_toolId c_toolName c_prompt c_text w =
  (Ok tt,
   MkWorld (ss w) (db w)
     (out w ++ [StoreAdd (MkFields c_toolId c_toolName c_prompt c_text
                            (server_time E) None);
                Printed (py "Erro ao salvar conteúdo no Firestore: " ++ exc_str e);
                Shown error (py "Falha ao salvar conteúdo: " ++ exc_str e)])).
Proof.
  intros Hid Hf. unfold save_content_to_firestore.
  enter_store_function Hid.
  unfold store_add, fail_on_fault. rewrite Hf.
  unfold_m. cbn [ss db out]. rewrite <- !app_assoc. reflexivity.
Qed.

Lemma save_content_ok (E : env) (w : world)
    (c_toolId c_toolName c_prompt c_text : pystr) :
  identified (ss w) -> store_fault E = None ->
  save_content_to_firestore E c_toolId c_toolName c_prompt c_text w =
  (Rerun,
   MkWorld (without_list (ss w))
     (MkSnap (fresh_id E)
        (MkFields c_toolId c_toolName c_prompt c_text (server_time E) None)
      :: db w)
     (out w ++ [StoreAdd (MkFields c_toolId c_toolName c_prompt c_text
                            (server_time E) None);
                Shown success (py "Conteúdo salvo com sucesso!")])).
Proof.
  intros Hid Hf. unfold save_content_to_firestore.
  enter_store_function Hid.
  unfold store_add, fail_on_fault, without_list. rewrite Hf.
  unfold_m. cbn [ss db out]. rewrite <- !app_assoc.
  destruct (generated_content_list (ss w)); reflexivity.
Qed.

Lemma delete_content_fault (E : env) (w : world) (e : pyexc)
    (content_id : pystr) :
  identified (ss w) -> store_fault E = Some e ->
  delete_content_from_firestore E content_id w =
  (Ok tt,
   MkWorld (ss w) (db w)
     (out w ++ [StoreDelete content_id;
                Printed (py "Erro ao excluir conteúdo: " ++ exc_str e);
                Shown error (py "Falha ao excluir conteúdo: " ++ exc_str e)])).
Proof.
  intros Hid Hf. unfold delete_content_from_firestore.
  enter_store_function Hid.
  unfold store_delete, fail_on_fault. rewrite Hf.
  unfold_m. cbn [ss db out]. rewrite <- !app_assoc. reflexivity.
Qed.

Lemma delete_content_ok (E : env) (w : world) (content_id : pystr) :
  identified (ss w) -> store_fault E = None ->
  delete_content_from_firestore E content_id w =
  (Rerun,
   MkWorld (without_list (ss w))
     (filter (fun x => negb (str_eqb (snap_id x) content_id)) (db w))
     (out w ++ [StoreDelete content_id;
                Shown success (py "Conteúdo excluído com sucesso!")])).
Proof.
  intros Hid Hf. unfold delete_content_from_firestore.
  enter_store_function Hid.
  unfold store_delete, fail_on_fault, without_list. rewrite Hf.
  unfold_m. cbn [ss db out]. rewrite <- !app_assoc.
  destruct (generated_content_list (ss w)); reflexivity.
Qed.

(** The exception an update meets, if any: the fault of the store call, or
    the store's refusal to update a document that does not exist. *)
Lemma update_content_failure (E : env) (w : world) (e : pyexc)
    (content_id new_prompt new_text : pystr) :
  identified (ss w) ->
  store_fault E = Some e
  \/ (store_fault E = None /\ has_doc content_id (db w) = false
      /\ e = MkExc NotFound (missing_text E)) ->
  update_content_in_firestore E content_id new_prompt new_text w =
  (Ok false,
   MkWorld (ss w) (db w)
     (out w ++ [StoreUpdate content_id new_prompt new_text;
                Printed (py "Erro ao atualizar conteúdo: " ++ exc_str e);
                Shown error (py "Falha ao atualizar conteúdo: " ++ exc_str e)])).
Proof.
  intros Hid Hf. unfold update_content_in_firestore.
  enter_store_function Hid.
  unfold store_update, fail_on_fault.
  destruct Hf as [Hf | (Hf & Hdoc & ->)]; rewrite Hf.
  - unfold_m. cbn [ss db out]. rewrite <- !app_assoc. reflexivity.
  - unfold_m. cbn [ss db out]. rewrite Hdoc. cbn [ss db out exc_str].
    rewrite <- !app_assoc. reflexivity.
Qed.

Lemma update_content_ok (E : env) (w : world)
    (content_id new_prompt new_text : pystr) :
  identified (ss w) -> store_fault E = None ->
  has_doc content_id (db w) = true ->
  update_content_in_firestore E content_id new_prompt new_text w =
  (Ok true,
   MkWorld (without_list (ss w))
     (map (update_doc content_id new_prompt new_text (server_time E)) (db w))
     (out w ++ [StoreUpdate content_id new_prompt new_text;
                Shown success (py "Conteúdo atualizado com sucesso!")])).
Proof.
  intros Hid Hf Hdoc. unfold update_content_in_firestore.
  enter_store_function Hid.
  unfold store_update, fail_on_fault, without_list. rewrite Hf.
  unfold_m. cbn [ss db out]. rewrite Hdoc. cbn [ss db out].
  rewrite <- !app_assoc.
  destruct (generated_content_list (ss w)); reflexivity.
Qed.

(** *** The tool page *)

Lemma prompt_lookup_store (k : string) (v : pystr) (l : list (string * pystr)) :
  prompt_lookup k (prompt_store k v l) = Some v.
Proof.
  induction l as [|[k' v'] r IH]; simpl.
  - rewrite String.eqb_refl. reflexivity.
  - destruct (String.eqb k k') eqn:Hk; simpl; rewrite ?String.eqb_refl, ?Hk; auto.
Qed.

Lemma str_truthy_app (p x : pystr) :
  str_truthy p = true -> str_truthy (p ++ x) = true.
Proof. destruct p; [discriminate | reflexivity]. Qed.

(** Every configured tool has a sample output, and none is empty. *)
Lemma tool_has_sample (tool_key : string) (tl : tool) :
  tool_get tool_key tool_configs = Some tl ->
  exists sample, sampleOutput tl = Some sample /\ str_truthy sample = true.
Proof.
  unfold tool_configs, tool_get.
  repeat match goal with
         | |- context [String.eqb ?a ?b] => destruct (String.eqb a b)
         end;
    intros [= <-]; cbn [sampleOutput]; eexists; (split; [reflexivity|]);
    vm_compute; reflexivity.
Qed.

Ltac open_env E :=
  destruct E;
  cbn [page_of event_of api_reply store_fault fresh_id server_time
       missing_text str_of pdf_fault] in *.

Ltac open_world w :=
  let s := fresh "s" in
  unfold identified in *;
  destruct w as [s dbw outw];
  destruct s as [uid tuid udn isl gres emsg prm gcl lds hmc ilc did eid
                 eip eit eitn];
  cbn [ss db out user_id temp_user_id user_display_name is_loading
       generated_result error_message prompt_ generated_content_list
       last_doc_snapshot has_more_content is_loading_content deleting_item_id
       editing_item_id editing_item_prompt editing_item_text
       editing_item_toolName] in *.

Ltac unfold_script :=
  unfold run, script, apply_defaults, render_tool_page, tool_form,
    generation, request_and_parse, generation_handler, result_area,
    sample_or_default, quiet, with_event, widget_prompt,
    render_my_content_page, load_more_section, edit_modal,
    confirm_delete_modal, get_user_id;
  unfold_m.

(** The cases of the keys that lines 482-502 read. *)
Ltac split_prelude :=
  match goal with
  | uid : option pystr, tuid : option pystr, gcl : option (list item) |- _ =>
    destruct gcl; destruct uid as [[|? ?]|]; destruct tuid as [[|? ?]|]
  end.

Ltac known_truthy :=
  repeat match goal with
         | |- context [str_truthy (py ?s ++ ?x)] =>
           change (str_truthy (py s ++ x)) with true
         | |- context [str_truthy (py ?s)] =>
           change (str_truthy (py s)) with true
         end.

(** *** Lines 482-502 *)

Lemma run_eval (E : env) (w : world) :
  run E w = render_page E (MkWorld (prelude (ss w)) (db w) (out w)).
Proof.
  unfold run, script, render_page, prelude, with_user, with_defaults,
    apply_defaults, get_user_id.
  destruct w as [s d o].
  destruct s as [uid tuid udn isl gres emsg prm gcl lds hmc ilc did eid
                 eip eit eitn].
  destruct emsg, gcl, uid as [[|? ?]|], tuid; reflexivity.
Qed.

(** What lines 482-502 make of a session whose user can be named. *)
Lemma prelude_spec (s : session) :
  identifiable s ->
  exists u t n,
    opt_truthy u = true
    /\ prelude s =
       MkSession u t n (is_loading s) (generated_result s)
         (Some (or_default (error_message s) [])) (prompt_ s)
         (Some (or_default (generated_content_list s) []))
         (last_doc_snapshot s) (has_more_content s) (is_loading_content s)
         (deleting_item_id s) (editing_item_id s) (editing_item_prompt s)
         (editing_item_text s) (editing_item_toolName s).
Proof.
  unfold identifiable, prelude, with_user, with_defaults.
  destruct s as [uid tuid udn isl gres emsg prm gcl lds hmc ilc did eid
                 eip eit eitn].
  destruct emsg, gcl, uid as [[|? ?]|], tuid as [[|? ?]|]; cbn;
    intros H; try discriminate H;
    do 3 eexists; (split; [|reflexivity]); reflexivity.
Qed.

(** Lines 482-502 leave alone a session that has its keys and its user. *)
Lemma prelude_fixed (s : session) :
  identified s ->
  is_some (error_message s) = true ->
  is_some (generated_content_list s) = true ->
  prelude s = s.
Proof.
  unfold identified, prelude, with_user, with_defaults.
  intros Hid He Hl. rewrite He. cbn zeta. rewrite Hl, Hid. reflexivity.
Qed.

Lemma identified_identifiable (s : session) : identified s -> identifiable s.
Proof.
  unfold identified, identifiable, with_user. intros H. rewrite H. exact H.
Qed.

(** *** The generation request *)

(** A response without the key [candidates]: lines 302-307 report it, with
    the defaults of the two [get] calls. *)
Lemma missing_candidates_reported (E : env) (w : world) (tool_key : string)
    (tl : tool) (d : list (pystr * json)) :
  page_of E = ToolPage tool_key ->
  tool_get tool_key tool_configs = Some tl ->
  event_of E = NoEvent ->
  identifiable (ss w) ->
  is_loading (ss w) = true ->
  error_message (ss w) = Some [] ->
  api_reply E = inr (JDict d) ->
  lookup (py "candidates") d = None ->
  exists w1,
    run E w = (Rerun, w1)
    /\ is_loading (ss w1) = false
    /\ error_message (ss w1) = Some []
    /\ generated_result (ss w1)
       = py "Não foi possível gerar o conteúdo. " ++ default_detail E
    /\ out w1
       = out w
         ++ [ApiPost (apiPromptPrefix tl ++ widget_prompt tool_key (ss w));
             Printed (py "Estrutura de resposta inesperada: "
                      ++ str_of E (JDict d));
             Shown error (py "Falha ao gerar: " ++ default_detail E)].
Proof.
  intros Hpage Htool Hev Hid Hload Herr Hreply Hcand.
  destruct (@prelude_spec _ Hid) as (u & t & n & Hu & Hp).
  eexists. split.
  { rewrite run_eval, Hp. unfold render_page. rewrite Hpage, Hload, Herr.
    unfold render_tool_page. rewrite Htool.
    unfold tool_form, generation, request_and_parse, generation_handler.
    rewrite Hev, Hreply. unfold_m. simpl.
    rewrite prompt_lookup_store. simpl. rewrite Hcand. simpl.
    reflexivity. }
  cbn [ss db out is_loading error_message generated_result set_is_loading
       set_generated_result].
  repeat (split; [reflexivity|]).
  unfold widget_prompt. rewrite <- !app_assoc. reflexivity.
Qed.

(** C8.  A [RequestException] of the generation request ends the pending
    state, stores the message [Erro de rede/API: ...] in [error_message]
    and the sample output of the tool in [generated_result]; every
    configured tool has one.  The execution that follows shows both, and
    what [download_as_pdf] reports for the sample.  A
    response without candidates is reported otherwise: [error_message]
    stays empty and [generated_result] is the text of lines 304-306. *)
Theorem transport_fault_falls_back_to_sample (E : env) (w : world)
    (tool_key : string) (tl : tool) (e : pyexc) :
  page_of E = ToolPage tool_key ->
  tool_get tool_key tool_configs = Some tl ->
  event_of E = NoEvent ->
  identifiable (ss w) ->
  is_loading (ss w) = true ->
  error_message (ss w) = Some [] ->
  api_reply E = inl e ->
  is_request_exception e = true ->
  (exists w1 w2 sample,
    run E w = (Rerun, w1)
    /\ sampleOutput tl = Some sample
    /\ is_loading (ss w1) = false
    /\ error_message (ss w1) = Some (py "Erro de rede/API: " ++ exc_str e)
    /\ generated_result (ss w1) = sample
    /\ out w1
       = out w
         ++ [ApiPost (apiPromptPrefix tl ++ widget_prompt tool_key (ss w));
             Shown error (py "Erro na geração (rede): " ++ exc_str e)]
    /\ run (quiet E) w1 = (Ok tt, w2)
    /\ out w2
       = out w1
         ++ [Shown error (py "Erro de rede/API: " ++ exc_str e);
             ResultShown sample]
         ++ pdf_events E sample
    /\ is_loading (ss w2) = false
    /\ generated_result (ss w2) = sample)
  /\ (forall E' d,
        page_of E' = ToolPage tool_key ->
        event_of E' = NoEvent ->
        api_reply E' = inr (JDict d) ->
        lookup (py "candidates") d = None ->
        exists w1',
          run E' w = (Rerun, w1')
          /\ error_message (ss w1') = Some []
          /\ generated_result (ss w1')
             = py "Não foi possível gerar o conteúdo. " ++ default_detail E').
Proof.
  intros Hpage Htool Hev Hid Hload Herr Hreply Hreq.
  split.
  - destruct (tool_has_sample _ Htool) as (sample & Hsample & Htruthy).
    destruct (@prelude_spec _ Hid) as (u & t & n & Hu & Hp).
    eexists. eexists. exists sample.
    split.
    { rewrite run_eval, Hp. unfold render_page. rewrite Hpage, Hload, Herr.
      unfold render_tool_page. rewrite Htool.
      unfold tool_form, generation, request_and_parse, generation_handler,
        sample_or_default. rewrite Hev, Hreply. unfold_m. simpl.
      rewrite prompt_lookup_store. simpl. rewrite Hreq, Hsample. simpl.
      reflexivity. }
    cbn [ss db out is_loading error_message generated_result set_is_loading].
    split; [exact Hsample|].
    repeat (split; [reflexivity|]).
    split. { rewrite <- app_assoc. reflexivity. }
    split.
    { rewrite run_eval. unfold render_page, quiet. cbn [page_of ss db out].
      rewrite Hpage. rewrite prelude_fixed; [|exact Hu|reflexivity|reflexivity].
      unfold render_tool_page. rewrite Htool.
      unfold tool_form, generation, result_area. unfold_m. simpl.
      known_truthy. simpl. rewrite Htruthy. simpl.
      rewrite download_as_pdf_eval. simpl. reflexivity. }
    cbn [ss db out is_loading generated_result].
    split. { rewrite <- !app_assoc. reflexivity. }
    split; reflexivity.
  - intros E' d Hpage' Hev' Hreply' Hcand.
    destruct (@missing_candidates_reported E' w tool_key tl d Hpage' Htool
                Hev' Hid Hload Herr Hreply' Hcand)
      as (w1' & Hrun & _ & Hmsg & Hres & _).
    exists w1'. auto.
Qed.

Lemma transport_fault_witness :
  is_request_exception timeout_error = true
  /\ exists w1,
       run (article_env (inl timeout_error)) pending_world = (Rerun, w1)
       /\ generated_result (ss w1) = py "Artigo gerado sobre o tema X...".
Proof.
  split; [reflexivity|].
  destruct (tool_get "article" tool_configs) as [tl|] eqn:Htool;
    [|vm_compute in Htool; discriminate Htool].
  assert (Hid : identifiable (ss pending_world)) by (vm_compute; reflexivity).
  destruct (@transport_fault_falls_back_to_sample
              (article_env (inl timeout_error)) pending_world "article" tl
              timeout_error eq_refl Htool eq_refl Hid eq_refl eq_refl eq_refl
              eq_refl)
    as [(w1 & w2 & sample & Hrun & Hsample & _ & _ & Hres & _) _].
  exists w1. split; [exact Hrun|].
  rewrite Hres.
  vm_compute in Htool. injection Htool as <-.
  vm_compute in Hsample. injection Hsample as <-.
  vm_compute. reflexivity.
Defined.

Lemma count_posts_app (l1 l2 : list event) :
  count_posts (l1 ++ l2) = count_posts l1 + count_posts l2.
Proof. unfold count_posts. rewrite filter_app, length_app. reflexivity. Qed.

Ltac count_events :=
  unfold count_posts, count_streams;
  rewrite ?filter_app, ?length_app; simpl; try lia.

(** C3.  A response whose [candidates] is the empty list does not reach the
    report of lines 302-307: the condition of line 297 is false, and line
    302 subscripts the empty list, since the default [[{}]] of [get] only
    stands for an absent key.  The [IndexError] is caught by the clause of
    line 312: [error_message] is [Erro ao gerar conteúdo: list index out of
    range], the result shown is the sample output of the tool, and no text
    of the execution holds [N/A]. *)
Theorem empty_candidates_raise_index_error (E : env) (w : world)
    (tool_key : string) (tl : tool) (d : list (pystr * json)) :
  page_of E = ToolPage tool_key ->
  tool_get tool_key tool_configs = Some tl ->
  event_of E = NoEvent ->
  identifiable (ss w) ->
  is_loading (ss w) = true ->
  error_message (ss w) = Some [] ->
  api_reply E = inr (JDict d) ->
  lookup (py "candidates") d = Some (JList []) ->
  exists w1 sample,
    run E w = (Rerun, w1)
    /\ sampleOutput tl = Some sample
    /\ is_loading (ss w1) = false
    /\ error_message (ss w1)
       = Some (py "Erro ao gerar conteúdo: " ++ py "list index out of range")
    /\ generated_result (ss w1) = sample
    /\ out w1
       = out w
         ++ [ApiPost (apiPromptPrefix tl ++ widget_prompt tool_key (ss w));
             Shown error (py "Erro na geração: " ++ py "list index out of range")]
    /\ contains (py "N/A")
         (py "Erro ao gerar conteúdo: " ++ py "list index out of range") = false
    /\ contains (py "N/A")
         (py "Erro na geração: " ++ py "list index out of range") = false.
Proof.
  intros Hpage Htool Hev Hid Hload Herr Hreply Hcand.
  destruct (tool_has_sample _ Htool) as (sample & Hsample & Htruthy).
  destruct (@prelude_spec _ Hid) as (u & t & n & Hu & Hp).
  eexists. exists sample.
  split.
  { rewrite run_eval, Hp. unfold render_page. rewrite Hpage, Hload, Herr.
    unfold render_tool_page. rewrite Htool.
    unfold tool_form, generation, request_and_parse, generation_handler,
      sample_or_default. rewrite Hev, Hreply. unfold_m. simpl.
    rewrite prompt_lookup_store. simpl. rewrite Hcand. simpl.
    rewrite Hsample. reflexivity. }
  cbn [ss db out is_loading error_message generated_result set_is_loading].
  split; [exact Hsample|].
  repeat (split; [reflexivity|]).
  split. { unfold widget_prompt. rewrite <- app_assoc. reflexivity. }
  split; vm_compute; reflexivity.
Qed.

Lemma empty_candidates_witness :
  exists w1,
    run (article_env (inr (JDict [(py "candidates", JList [])]))) pending_world
    = (Rerun, w1)
    /\ error_message (ss w1)
       = Some (py "Erro ao gerar conteúdo: list index out of range")
    /\ generated_result (ss w1) = py "Artigo gerado sobre o tema X...".
Proof.
  destruct (tool_get "article" tool_configs) as [tl|] eqn:Htool;
    [|vm_compute in Htool; discriminate Htool].
  assert (Hid : identifiable (ss pending_world)) by (vm_compute; reflexivity).
  assert (Hcand : lookup (py "candidates") [(py "candidates", JList [])]
                  = Some (JList [])) by (vm_compute; reflexivity).
  destruct (@empty_candidates_raise_index_error
              (article_env (inr (JDict [(py "candidates", JList [])])))
              pending_world "article" tl [(py "candidates", JList [])]
              eq_refl Htool eq_refl Hid eq_refl eq_refl eq_refl Hcand)
    as (w1 & sample & Hrun & Hsample & _ & Herr & Hres & _).
  exists w1. split; [exact Hrun|].
  rewrite Herr, Hres.
  vm_compute in Htool. injection Htool as <-.
  vm_compute in Hsample. injection Hsample as <-.
  split; vm_compute; reflexivity.
Defined.

(** C4.  A submission whose prompt is empty or made of white space ends
    the execution at line 279: nothing is sent to the generation API,
    [is_loading] and [generated_result] are as they were, and the execution
    that follows shows [Por favor, insira um prompt.] as an error, before
    the result of an earlier generation, if there is one, and what
    [download_as_pdf] reports for it. *)
Theorem whitespace_prompt_rejected (E : env) (w : world)
    (tool_key : string) (tl : tool) (typed : pystr) :
  page_of E = ToolPage tool_key ->
  tool_get tool_key tool_configs = Some tl ->
  event_of E = FormSubmit tool_key typed ->
  identifiable (ss w) ->
  whitespace_only typed ->
  is_loading (ss w) = false ->
  exists w1 w2,
    run E w = (Rerun, w1)
    /\ is_loading (ss w1) = false
    /\ generated_result (ss w1) = generated_result (ss w)
    /\ error_message (ss w1) = Some (py "Por favor, insira um prompt.")
    /\ count_posts (out w1) = count_posts (out w)
    /\ run (quiet E) w1 = (Ok tt, w2)
    /\ out w2
       = out w1
         ++ Shown error (py "Por favor, insira um prompt.")
            :: (if str_truthy (generated_result (ss w))
                then ResultShown (generated_result (ss w))
                     :: pdf_events E (generated_result (ss w))
                else [])
    /\ is_loading (ss w2) = false
    /\ generated_result (ss w2) = generated_result (ss w)
    /\ count_posts (out w2) = count_posts (out w).
Proof.
  intros Hpage Htool Hev Hid Hws Hload.
  apply strip_whitespace in Hws.
  destruct (@prelude_spec _ Hid) as (u & t & n & Hu & Hp).
  assert (Hrun1 : exists w1,
    run E w = (Rerun, w1)
    /\ ss w1 = set_error_message (Some (py "Por favor, insira um prompt."))
                 (set_prompt_ (prompt_store tool_key typed (prompt_ (ss w)))
                    (prelude (ss w)))
    /\ db w1 = db w
    /\ count_posts (out w1) = count_posts (out w)).
  { rewrite run_eval, Hp. unfold render_page. rewrite Hpage, Hload.
    unfold render_tool_page. rewrite Htool.
    unfold tool_form. rewrite Hev, String.eqb_refl. unfold_m.
    destruct (error_message (ss w)) as [[|c m]|]; simpl; rewrite Hws; simpl;
      eexists; (split; [reflexivity|]); simpl; repeat split;
      count_events. }
  destruct Hrun1 as (w1 & Hrun1 & Hss1 & Hdb1 & Hposts1).
  assert (Hrun2 : exists w2,
    run (quiet E) w1 = (Ok tt, w2)
    /\ out w2
       = out w1
         ++ Shown error (py "Por favor, insira um prompt.")
            :: (if str_truthy (generated_result (ss w))
                then ResultShown (generated_result (ss w))
                     :: pdf_events E (generated_result (ss w))
                else [])
    /\ is_loading (ss w2) = false
    /\ generated_result (ss w2) = generated_result (ss w)).
  { rewrite run_eval, Hss1, Hp. unfold render_page, quiet. cbn [page_of].
    rewrite Hpage, Hload.
    rewrite prelude_fixed; [|exact Hu|reflexivity|reflexivity].
    unfold render_tool_page. rewrite Htool.
    unfold tool_form, generation, result_area. unfold_m. simpl.
    known_truthy. simpl.
    destruct (str_truthy (generated_result (ss w))); simpl;
      rewrite ?download_as_pdf_eval; simpl;
      eexists; (split; [reflexivity|]); simpl;
      rewrite <- ?app_assoc; repeat split. }
  destruct Hrun2 as (w2 & Hrun2 & Hout2 & Hload2 & Hres2).
  exists w1, w2.
  rewrite Hss1, Hp.
  cbn [is_loading generated_result error_message set_error_message set_prompt_].
  repeat (split; [first [reflexivity | assumption]|]).
  rewrite Hout2, count_posts_app, Hposts1.
  destruct (str_truthy (generated_result (ss w)));
    unfold count_posts; cbn [filter is_post List.length];
    rewrite ?pdf_events_no_post; simpl; lia.
Qed.

Lemma whitespace_prompt_witness :
  whitespace_only (py "  ")
  /\ exists w1,
       run (sample_env (ToolPage "article")
              (FormSubmit "article" (py "  ")) (inr JNull) None)
           (MkWorld visitor_session [] [])
       = (Rerun, w1)
       /\ error_message (ss w1) = Some (py "Por favor, insira um prompt.")
       /\ count_posts (out w1) = 0.
Proof.
  assert (Hws : whitespace_only (py "  ")) by (vm_compute; reflexivity).
  split; [exact Hws|].
  destruct (tool_get "article" tool_configs) as [tl|] eqn:Htool;
    [|vm_compute in Htool; discriminate Htool].
  assert (Hid : identifiable (ss (MkWorld visitor_session [] [])))
    by (vm_compute; reflexivity).
  destruct (@whitespace_prompt_rejected
              (sample_env (ToolPage "article")
                 (FormSubmit "article" (py "  ")) (inr JNull) None)
              (MkWorld visitor_session [] []) "article" tl (py "  ")
              eq_refl Htool eq_refl Hid Hws eq_refl)
    as (w1 & w2 & Hrun & _ & _ & Herr & Hposts & _).
  exists w1. split; [exact Hrun|]. split; [exact Herr|]. exact Hposts.
Defined.

(** *** Failures of the store *)

(** C6.  When the store call of a save, an update or a delete raises, the
    function reports the failure and returns; the session, and with it the
    cached list, its cursor and its flags, and the collection are as they
    were, and the execution goes on (no [st.rerun()]). *)
Theorem store_failure_leaves_cache (E : env) (w : world) (e : pyexc) :
  identified (ss w) ->
  store_fault E = Some e ->
  (forall c_toolId c_toolName c_prompt c_text,
     save_content_to_firestore E c_toolId c_toolName c_prompt c_text w =
     (Ok tt,
      MkWorld (ss w) (db w)
        (out w ++ [StoreAdd (MkFields c_toolId c_toolName c_prompt c_text
                               (server_time E) None);
                   Printed (py "Erro ao salvar conteúdo no Firestore: "
                            ++ exc_str e);
                   Shown error (py "Falha ao salvar conteúdo: " ++ exc_str e)])))
  /\ (forall content_id new_prompt new_text,
        update_content_in_firestore E content_id new_prompt new_text w =
        (Ok false,
         MkWorld (ss w) (db w)
           (out w ++ [StoreUpdate content_id new_prompt new_text;
                      Printed (py "Erro ao atualizar conteúdo: " ++ exc_str e);
                      Shown error (py "Falha ao atualizar conteúdo: "
                                   ++ exc_str e)])))
  /\ (forall content_id,
        delete_content_from_firestore E content_id w =
        (Ok tt,
         MkWorld (ss w) (db w)
           (out w ++ [StoreDelete content_id;
                      Printed (py "Erro ao excluir conteúdo: " ++ exc_str e);
                      Shown error (py "Falha ao excluir conteúdo: "
                                   ++ exc_str e)]))).
Proof.
  intros Hid Hf. split; [|split]; intros.
  - apply save_content_fault; assumption.
  - apply update_content_failure; [assumption | left; assumption].
  - apply delete_content_fault; assumption.
Qed.

Lemma store_failure_witness :
  cache_of
    (ss (snd (save_content_to_firestore
                (sample_env (ToolPage "article") (SaveClick "article")
                   (inr JNull) (Some unavailable_error))
                (py "article") (py "Gerador de Artigos") (py "gatos")
                (py "Era uma vez...") listed_world)))
  = cache_of (ss listed_world).
Proof.
  assert (Hid : identified (ss listed_world)) by (vm_compute; reflexivity).
  destruct (@store_failure_leaves_cache
              (sample_env (ToolPage "article") (SaveClick "article")
                 (inr JNull) (Some unavailable_error))
              listed_world unavailable_error Hid eq_refl)
    as (Hsave & _ & _).
  rewrite Hsave. reflexivity.
Defined.



(** *** The page of saved content *)

Arguments fetch_content : simpl never.
Arguments query_docs : simpl never.

Lemma items_events_cons (E : env) (it : item) (r : list item) :
  items_events E (it :: r) = (item_events E it ++ items_events E r)%list.
Proof. reflexivity. Qed.

Lemma items_events_app (E : env) (l1 l2 : list item) :
  items_events E (l1 ++ l2) = (items_events E l1 ++ items_events E l2)%list.
Proof. apply flat_map_app. Qed.

Lemma items_events_no_post (E : env) (l : list item) :
  filter is_post (items_events E l) = [].
Proof.
  induction l as [|it r IH]; [reflexivity|].
  rewrite items_events_cons, filter_app, IH. unfold item_events.
  cbn [filter is_post]. rewrite pdf_events_no_post. reflexivity.
Qed.

Lemma items_events_no_stream (E : env) (l : list item) :
  filter is_stream (items_events E l) = [].
Proof.
  induction l as [|it r IH]; [reflexivity|].
  rewrite items_events_cons, filter_app, IH. unfold item_events.
  cbn [filter is_stream]. rewrite pdf_events_no_stream. reflexivity.
Qed.

Lemma items_events_no_write (E : env) (l : list item) :
  filter is_write (items_events E l) = [].
Proof.
  induction l as [|it r IH]; [reflexivity|].
  rewrite items_events_cons, filter_app, IH. unfold item_events.
  cbn [filter is_write]. rewrite pdf_events_no_write. reflexivity.
Qed.

Lemma items_events_shown (E : env) (l : list item) (x : item) :
  In x l -> In (ItemShown x) (items_events E l).
Proof.
  induction l as [|it r IH]; intros Hx; [destruct Hx|].
  rewrite items_events_cons. apply in_or_app.
  destruct Hx as [-> | Hx]; [left; left; reflexivity | right; auto].
Qed.

Lemma confirm_events_no_post (s : session) :
  filter is_post (confirm_events s) = [].
Proof. unfold confirm_events. destruct (opt_truthy _); reflexivity. Qed.

Lemma confirm_events_no_stream (s : session) :
  filter is_stream (confirm_events s) = [].
Proof. unfold confirm_events. destruct (opt_truthy _); reflexivity. Qed.

Lemma confirm_events_no_write (s : session) :
  filter is_write (confirm_events s) = [].
Proof. unfold confirm_events. destruct (opt_truthy _); reflexivity. Qed.

(** Lists of events up to associativity. *)
Ltac same_events :=
  rewrite ?app_nil_r, <- ?app_assoc; cbn [app]; reflexivity.

(** Lines 373-414 for one item. *)
Lemma render_items_cons (E : env) (it : item) (r : list item) (w : world) :
  render_items E (it :: r) w =
  if is_event_edit E (item_id it)
  then (Rerun,
        MkWorld
          (set_editing_item (prompt (item_fields it)) (text (item_fields it))
             (toolName (item_fields it))
             (set_editing_item_id (Some (item_id it)) (ss w)))
          (db w) (out w ++ item_events E it))
  else render_items E r
         (MkWorld
            (if is_event_delete E (item_id it)
             then set_deleting_item_id (Some (item_id it)) (ss w)
             else ss w)
            (db w) (out w ++ item_events E it)).
Proof.
  cbn [render_items]. unfold item_events. unfold_m. simpl.
  rewrite download_as_pdf_eval. simpl.
  destruct (is_event_edit E (item_id it)), (is_event_delete E (item_id it));
    simpl; rewrite <- app_assoc; reflexivity.
Qed.

(** Without a click on one of their buttons the expanders only show. *)
Lemma render_items_shown (E : env) (l : list item) (w : world) :
  event_of E = NoEvent \/ event_of E = LoadMore ->
  render_items E l w
  = (Ok tt, MkWorld (ss w) (db w) (out w ++ items_events E l)).
Proof.
  intros Hev. revert w. induction l as [|it r IH]; intros w.
  - cbn [render_items items_events flat_map]. unfold ret.
    rewrite app_nil_r, world_eta. reflexivity.
  - rewrite render_items_cons. unfold is_event_edit, is_event_delete.
    destruct Hev as [Hev | Hev]; rewrite Hev; rewrite IH;
      cbn [ss db out]; rewrite items_events_cons, <- app_assoc;
      reflexivity.
Qed.

Opaque items_events.

Arguments render_items : simpl never.

(** Lines 359-366 with a store that answers. *)
Lemma first_page_load (E : env) (w : world) :
  identified (ss w) ->
  generated_content_list (ss w) = Some [] ->
  is_loading_content (ss w) = true ->
  store_fault E = None ->
  render_my_content_page E w =
  (Rerun,
   MkWorld
     (set_is_loading_content false
        (set_has_more_content
           (Nat.eqb (List.length (query_docs (db w) ITEMS_PER_PAGE None))
              ITEMS_PER_PAGE)
           (set_last_doc_snapshot
              (last_opt (query_docs (db w) ITEMS_PER_PAGE None))
              (set_generated_content_list
                 (Some (map item_of_snapshot
                          (query_docs (db w) ITEMS_PER_PAGE None)))
                 (ss w)))))
     (db w) (out w ++ [StoreStream ITEMS_PER_PAGE None])).
Proof.
  intros Hid Hlist Hload Hf.
  unfold render_my_content_page. unfold_m. simpl.
  repeat (progress (rewrite ?Hlist, ?Hload; simpl)).
  rewrite (fetch_content_ok E w ITEMS_PER_PAGE None Hid Hf).
  reflexivity.
Qed.

(** Lines 359-366 with a store that fails. *)
Lemma first_page_load_fault (E : env) (w : world) (e : pyexc) :
  identified (ss w) ->
  generated_content_list (ss w) = Some [] ->
  is_loading_content (ss w) = true ->
  store_fault E = Some e ->
  render_my_content_page E w =
  (Rerun,
   MkWorld
     (set_is_loading_content false
        (set_has_more_content false
           (set_last_doc_snapshot None
              (set_generated_content_list (Some []) (ss w)))))
     (db w)
     (out w ++ [StoreStream ITEMS_PER_PAGE None;
                Shown error (py "Erro ao buscar conteúdos: " ++ exc_str e)])).
Proof.
  intros Hid Hlist Hload Hf.
  unfold render_my_content_page. unfold_m. simpl.
  repeat (progress (rewrite ?Hlist, ?Hload; simpl)).
  rewrite (fetch_content_fault E w ITEMS_PER_PAGE None Hid Hf).
  reflexivity.
Qed.

(** Lines 369-371: an empty list that is not loading is the end of the
    page, whatever the widget event. *)
Lemma empty_list_shown (E : env) (w : world) :
  generated_content_list (ss w) = Some [] ->
  is_loading_content (ss w) = false ->
  render_my_content_page E w =
  (Ok tt, MkWorld (ss w) (db w) (out w ++ [Shown info no_content_message])).
Proof.
  intros Hlist Hload.
  unfold render_my_content_page, no_content_message. unfold_m. simpl.
  repeat (progress (rewrite ?Hlist, ?Hload; simpl)).
  reflexivity.
Qed.

(** Lines 373-475 when no button of the page was clicked, or the button
    that loads more while there is no more to load. *)
Lemma list_shown (E : env) (w : world) (l : list item) :
  generated_content_list (ss w) = Some l ->
  l <> [] ->
  is_loading_content (ss w) = false ->
  event_of E = NoEvent
  \/ (event_of E = LoadMore /\ has_more_content (ss w) = false) ->
  render_my_content_page E w =
  (Ok tt,
   MkWorld (ss w) (db w)
     (out w ++ items_events E l ++ confirm_events (ss w))).
Proof.
  intros Hlist Hne Hload Hev.
  assert (Hev' : event_of E = NoEvent \/ event_of E = LoadMore) by tauto.
  destruct l as [|it r]; [contradiction|].
  unfold render_my_content_page, confirm_events. unfold_m. simpl.
  repeat (progress (rewrite ?Hlist, ?Hload; simpl)).
  rewrite (render_items_shown E (it :: r) w Hev'). simpl.
  unfold edit_modal, confirm_delete_modal, load_more_section,
    is_event_load_more.
  unfold_m.
  destruct Hev as [Hev | [Hev Hmore]]; rewrite Hev; simpl;
    destruct (opt_truthy (editing_item_id (ss w))); simpl;
    destruct (opt_truthy (deleting_item_id (ss w))); simpl;
    rewrite ?Hload, ?Hmore; simpl;
    try (destruct (has_more_content (ss w)); simpl);
    same_events.
Qed.

(** Lines 461-473 with a store that answers. *)
Lemma load_more_page (E : env) (w : world) (l : list item) :
  identified (ss w) ->
  generated_content_list (ss w) = Some l ->
  l <> [] ->
  is_loading_content (ss w) = false ->
  has_more_content (ss w) = true ->
  event_of E = LoadMore ->
  store_fault E = None ->
  render_my_content_page E w =
  (Rerun,
   MkWorld
     (set_is_loading_content false
        (set_has_more_content
           (Nat.eqb
              (List.length
                 (query_docs (db w) ITEMS_PER_PAGE (last_doc_snapshot (ss w))))
              ITEMS_PER_PAGE)
           (set_last_doc_snapshot
              (match last_opt (query_docs (db w) ITEMS_PER_PAGE
                                 (last_doc_snapshot (ss w))) with
               | Some d => Some d
               | None => last_doc_snapshot (ss w)
               end)
              (set_generated_content_list
                 (Some (l ++ map item_of_snapshot
                               (query_docs (db w) ITEMS_PER_PAGE
                                  (last_doc_snapshot (ss w)))))
                 (ss w)))))
     (db w)
     (out w ++ items_events E l ++ confirm_events (ss w)
      ++ [StoreStream ITEMS_PER_PAGE (last_doc_snapshot (ss w))])).
Proof.
  intros Hid Hlist Hne Hload Hmore Hev Hf.
  destruct l as [|it r]; [contradiction|].
  unfold render_my_content_page, confirm_events. unfold_m. simpl.
  repeat (progress (rewrite ?Hlist, ?Hload; simpl)).
  rewrite (render_items_shown E (it :: r) w (or_intror Hev)). simpl.
  unfold edit_modal, confirm_delete_modal, load_more_section,
    is_event_load_more.
  unfold_m. rewrite Hev. simpl.
  destruct (opt_truthy (editing_item_id (ss w))); simpl;
    destruct (opt_truthy (deleting_item_id (ss w))); simpl;
    rewrite ?Hload, ?Hmore; simpl;
    rewrite fetch_content_ok by assumption; simpl;
    rewrite Hlist; simpl; same_events.
Qed.

(** *** Pagination *)

Lemma insert_desc_length (d : snapshot) (l : list snapshot) :
  List.length (insert_desc d l) = S (List.length l).
Proof.
  induction l as [|x r IH]; simpl; [reflexivity|].
  destruct (key_ltb x d); simpl; [reflexivity | rewrite IH; reflexivity].
Qed.

Lemma order_by_desc_length (l : list snapshot) :
  List.length (order_by_desc l) = List.length l.
Proof.
  induction l as [|d r IH]; simpl; [reflexivity|].
  rewrite insert_desc_length. f_equal. exact IH.
Qed.

Lemma last_opt_nonempty {A} (l : list A) :
  l <> [] -> exists c, last_opt l = Some c.
Proof.
  induction l as [|x r IH]; intros H; [contradiction|].
  destruct r as [|y r']; [exists x; reflexivity|].
  destruct IH as [c Hc]; [discriminate|]. exists c. exact Hc.
Qed.

Lemma length_nonempty {A} (l : list A) : 0 < List.length l -> l <> [].
Proof. destruct l; simpl; [lia | discriminate]. Qed.

Lemma map_nonempty {A B} (f : A -> B) (l : list A) : l <> [] -> map f l <> [].
Proof. destruct l; [contradiction | discriminate]. Qed.

(** An execution of the page of saved content by a session that has its
    keys and its user is the page function alone. *)
Lemma run_my_content (E : env) (w : world) :
  page_of E = MyContent ->
  identified (ss w) ->
  is_some (error_message (ss w)) = true ->
  is_some (generated_content_list (ss w)) = true ->
  run E w = render_my_content_page E w.
Proof.
  intros Hpage Hid Herr Hlist.
  rewrite run_eval. unfold render_page. rewrite Hpage.
  rewrite prelude_fixed by assumption. rewrite world_eta. reflexivity.
Qed.

(** The execution that follows a [st.rerun()] of the page, once the list
    is loaded, draws and changes nothing. *)
Lemma settled_run (E : env) (w : world) (l : list item) :
  page_of E = MyContent ->
  identified (ss w) ->
  is_some (error_message (ss w)) = true ->
  generated_content_list (ss w) = Some l ->
  is_loading_content (ss w) = false ->
  event_of E = NoEvent
  \/ (event_of E = LoadMore /\ has_more_content (ss w) = false) ->
  run E w =
  (Ok tt,
   MkWorld (ss w) (db w)
     (out w ++ if is_nil l then [Shown info no_content_message]
               else items_events E l ++ confirm_events (ss w))).
Proof.
  intros Hpage Hid Herr Hlist Hload Hev.
  rewrite run_my_content; try assumption; [|rewrite Hlist; reflexivity].
  destruct l as [|it r].
  - apply empty_list_shown; assumption.
  - apply list_shown; [assumption | discriminate | assumption | assumption].
Qed.

(** The documents a page fetch streams, in terms of the ordered
    collection. *)
Lemma query_docs_first (coll : list snapshot) (n : nat) :
  query_docs coll n None = firstn n (order_by_desc coll).
Proof. reflexivity. Qed.

Lemma query_docs_next (coll : list snapshot) (n m : nat) (c : snapshot) :
  NoDup (map snap_id coll) ->
  last_opt (firstn m (order_by_desc coll)) = Some c ->
  query_docs coll n (Some c) = firstn n (skipn m (order_by_desc coll)).
Proof.
  intros Hnd Hc. unfold query_docs.
  rewrite (start_after_last (order_by_desc_descending _ Hnd) _ Hc).
  reflexivity.
Qed.

(** The first visit loads the first page. *)
Lemma visit_listing (E : env) (w : world) :
  page_of E = MyContent ->
  store_fault E = None ->
  identifiable (ss w) ->
  awaiting_first_page (ss w) ->
  fst (visit_my_content E w) = Ok tt
  /\ listing (db w) 1 (snd (visit_my_content E w)).
Proof.
  intros Hpage Hf Hid [Hload Hlist].
  destruct (@prelude_spec _ Hid) as (u & t & n & Hu & Hp).
  unfold visit_my_content, interact.
  rewrite run_eval. unfold render_page. cbn [page_of with_event].
  rewrite Hpage, Hp, Hload, Hlist.
  rewrite first_page_load; [|exact Hu|reflexivity|reflexivity|exact Hf].
  cbn [ss db out reruns].
  set (docs := query_docs (db w) ITEMS_PER_PAGE None).
  match goal with
  | |- context [run ?E' ?w'] =>
    rewrite (@settled_run E' w' (map item_of_snapshot docs))
  end; [|exact Hpage|exact Hu|reflexivity|reflexivity|reflexivity
        |left; reflexivity].
  cbn [fst snd]. split; [reflexivity|].
  unfold listing.
  cbn [ss db out user_id error_message generated_content_list
       is_loading_content has_more_content last_doc_snapshot
       set_is_loading_content set_has_more_content set_last_doc_snapshot
       set_generated_content_list identified].
  assert (Hdocs : docs = firstn (1 * ITEMS_PER_PAGE) (order_by_desc (db w)))
    by reflexivity.
  rewrite <- Hdocs.
  repeat (split; [first [reflexivity | exact Hu]|]).
  split; [|intros _; reflexivity].
  rewrite Hdocs, length_firstn.
  unfold ITEMS_PER_PAGE.
  destruct (Nat.leb_spec (1 * 5) (List.length (order_by_desc (db w))));
    [apply Nat.eqb_eq | apply Nat.eqb_neq]; lia.
Qed.

(** A click on the button that loads more content loads the next page, or
    nothing when the last fetch did not fill its page. *)
Lemma click_listing (E : env) (w : world) (coll : list snapshot) (k : nat) :
  page_of E = MyContent ->
  store_fault E = None ->
  NoDup (map snap_id coll) ->
  1 <= k ->
  listing coll k w ->
  fst (interact 1 (with_event LoadMore E) w) = Ok tt
  /\ listing coll (S k) (snd (interact 1 (with_event LoadMore E) w)).
Proof.
  intros Hpage Hf Hnd Hk (Hdb & Hid & Herr & Hlist & Hload & Hmore & Hlast).
  set (L := order_by_desc coll) in *.
  assert (Hstep : S k * ITEMS_PER_PAGE = k * ITEMS_PER_PAGE + ITEMS_PER_PAGE)
    by lia.
  unfold interact.
  destruct (has_more_content (ss w)) eqn:Hm.
  - (* the last fetch filled its page *)
    symmetry in Hmore. apply Nat.leb_le in Hmore.
    specialize (Hlast eq_refl).
    assert (Hne : firstn (k * ITEMS_PER_PAGE) L <> []).
    { apply length_nonempty. rewrite length_firstn.
      unfold ITEMS_PER_PAGE in *. lia. }
    destruct (last_opt_nonempty Hne) as [c Hc].
    rewrite Hc in Hlast.
    rewrite run_my_content;
      [|exact Hpage|exact Hid|exact Herr|rewrite Hlist; reflexivity].
    rewrite (@load_more_page (with_event LoadMore E) w _ Hid Hlist
               (map_nonempty _ Hne) Hload Hm eq_refl Hf).
    cbn [reruns].
    rewrite Hlast, Hdb.
    rewrite (@query_docs_next coll ITEMS_PER_PAGE (k * ITEMS_PER_PAGE) c Hnd Hc).
    fold L.
    set (docs := firstn ITEMS_PER_PAGE (skipn (k * ITEMS_PER_PAGE) L)).
    assert (Hall : firstn (S k * ITEMS_PER_PAGE) L
                   = (firstn (k * ITEMS_PER_PAGE) L ++ docs)%list).
    { rewrite Hstep. apply firstn_add. }
    match goal with
    | |- context [run ?E' ?w'] =>
      rewrite (@settled_run E' w'
                 (map item_of_snapshot (firstn (k * ITEMS_PER_PAGE) L)
                  ++ map item_of_snapshot docs))
    end; [|exact Hpage|exact Hid|exact Herr|reflexivity|reflexivity
          |left; reflexivity].
    cbn [fst snd]. split; [reflexivity|].
    unfold listing.
    cbn [ss db out user_id error_message generated_content_list
         is_loading_content has_more_content last_doc_snapshot
         set_is_loading_content set_has_more_content set_last_doc_snapshot
         set_generated_content_list identified].
    fold L. rewrite Hall, map_app.
    repeat (split; [first [reflexivity | assumption]|]).
    assert (Hlen : List.length docs
                   = Nat.min ITEMS_PER_PAGE
                       (List.length L - k * ITEMS_PER_PAGE)).
    { unfold docs. rewrite length_firstn, length_skipn. reflexivity. }
    split.
    + rewrite Hlen. unfold ITEMS_PER_PAGE in *.
      destruct (Nat.leb_spec (S k * 5) (List.length L));
        [apply Nat.eqb_eq | apply Nat.eqb_neq]; lia.
    + intros Hfull. apply Nat.eqb_eq in Hfull.
      assert (Hdne : docs <> []).
      { apply length_nonempty. rewrite Hfull. unfold ITEMS_PER_PAGE. lia. }
      rewrite (last_opt_app _ Hdne).
      destruct (last_opt_nonempty Hdne) as [d Hd]. rewrite Hd. reflexivity.
  - (* the last fetch did not fill its page: there is no button *)
    symmetry in Hmore. apply Nat.leb_gt in Hmore.
    rewrite (@settled_run (with_event LoadMore E) w _ Hpage Hid Herr Hlist
               Hload (or_intror (conj eq_refl Hm))).
    cbn [fst snd]. split; [reflexivity|].
    unfold listing. cbn [ss db out]. fold L.
    assert (Hsame : firstn (S k * ITEMS_PER_PAGE) L
                    = firstn (k * ITEMS_PER_PAGE) L).
    { rewrite !firstn_all2; [reflexivity | lia | lia]. }
    rewrite Hsame, Hm.
    repeat (split; [assumption|]).
    split; [|discriminate].
    symmetry. apply Nat.leb_gt. lia.
Qed.

Lemma clicks_listing (E : env) (w : world) (coll : list snapshot) (n : nat) :
  page_of E = MyContent ->
  store_fault E = None ->
  NoDup (map snap_id coll) ->
  listing coll 1 w ->
  listing coll (1 + n) (load_more_clicks n E w).
Proof.
  intros Hpage Hf Hnd H1.
  induction n as [|n IH]; [exact H1|].
  cbn [load_more_clicks].
  apply (@click_listing E _ coll (1 + n) Hpage Hf Hnd); [lia | exact IH].
Qed.

Lemma descending_newest_first (l : list snapshot) :
  descending l -> newest_first l.
Proof.
  unfold descending, newest_first.
  induction 1 as [|a l Hl IH Ha]; constructor; [exact IH|].
  eapply Forall_impl; [|exact Ha].
  intros b Hb. unfold key_ltb in Hb.
  apply orb_true_iff in Hb. destruct Hb as [Hb | Hb].
  - apply Z.ltb_lt in Hb. lia.
  - apply andb_true_iff in Hb. destruct Hb as [Hb _].
    apply Z.eqb_eq in Hb. lia.
Qed.

(** Lines 182-187: an entry of the list carries the name and the fields
    of its document. *)
Lemma items_of_snapshots (docs : list snapshot) :
  map item_id (map item_of_snapshot docs) = map snap_id docs
  /\ map item_fields (map item_of_snapshot docs) = map snap_fields docs.
Proof.
  rewrite !map_map. split; apply map_ext; intros d; reflexivity.
Qed.

(** C1.  The first visit of the page of saved content followed by [n]
    clicks on the button that loads more leaves a cached list whose
    entries carry, in order, the names and the fields of the first
    [(1 + n) * ITEMS_PER_PAGE] documents of the collection ordered by
    [createdAt] descending (all of them when there are fewer), for every
    collection whose documents have distinct names and a store that
    answers.  The ordered collection holds the documents of the
    collection, from the latest [createdAt] to the earliest. *)
Theorem pages_are_prefix (E : env) (w : world) (n : nat) :
  page_of E = MyContent ->
  store_fault E = None ->
  NoDup (map snap_id (db w)) ->
  identifiable (ss w) ->
  awaiting_first_page (ss w) ->
  exists l,
    generated_content_list
      (ss (load_more_clicks n E (snd (visit_my_content E w)))) = Some l
    /\ map item_id l
       = map snap_id
           (firstn ((1 + n) * ITEMS_PER_PAGE) (order_by_desc (db w)))
    /\ map item_fields l
       = map snap_fields
           (firstn ((1 + n) * ITEMS_PER_PAGE) (order_by_desc (db w)))
    /\ newest_first (order_by_desc (db w))
    /\ (forall d, In d (order_by_desc (db w)) <-> In d (db w))
    /\ List.length (order_by_desc (db w)) = List.length (db w).
Proof.
  intros Hpage Hf Hnd Hid Hwait.
  destruct (visit_listing E w Hpage Hf Hid Hwait) as [_ H1].
  destruct (clicks_listing E n Hpage Hf Hnd H1) as (_ & _ & _ & Hlist & _).
  eexists. split; [exact Hlist|].
  split; [apply items_of_snapshots|].
  split; [apply items_of_snapshots|].
  split; [apply descending_newest_first, order_by_desc_descending, Hnd|].
  split; [intros d; apply order_by_desc_in | apply order_by_desc_length].
Qed.

Lemma distinct_NoDup (l : list pystr) : distinct l = true -> NoDup l.
Proof.
  induction l as [|x r IH]; simpl; intros H; [constructor|].
  apply andb_true_iff in H. destruct H as [Hx Hr].
  constructor; [|auto].
  intros Hin. apply negb_true_iff in Hx.
  assert (Hex : existsb (str_eqb x) r = true).
  { apply existsb_exists. exists x. split; [exact Hin | apply str_eqb_refl]. }
  rewrite Hex in Hx. discriminate.
Qed.

Lemma sample_collection_distinct : NoDup (map snap_id sample_collection).
Proof. apply distinct_NoDup. vm_compute. reflexivity. Qed.

Lemma pages_are_prefix_witness :
  exists l,
    generated_content_list
      (ss (load_more_clicks 1 (list_env NoEvent None)
             (snd (visit_my_content (list_env NoEvent None) fresh_world))))
    = Some l
    /\ map item_id l
       = [py "doc8"; py "doc7"; py "doc6"; py "doc5"; py "doc4"; py "doc3";
          py "doc2"; py "doc1"]
    /\ map (fun it => createdAt (item_fields it)) l
       = [800; 700; 600; 500; 400; 300; 200; 100]%Z
    /\ map (fun it => prompt (item_fields it)) l
       = [py "tema 8"; py "tema 7"; py "tema 6"; py "tema 5"; py "tema 4";
          py "tema 3"; py "tema 2"; py "tema 1"].
Proof.
  assert (Hid : identifiable (ss fresh_world)) by (vm_compute; reflexivity).
  assert (Hwait : awaiting_first_page (ss fresh_world))
    by (split; vm_compute; reflexivity).
  destruct (@pages_are_prefix (list_env NoEvent None) fresh_world 1 eq_refl
              eq_refl sample_collection_distinct Hid Hwait)
    as (l & Hlist & Hids & Hfields & _).
  exists l. split; [exact Hlist|].
  split; [rewrite Hids; vm_compute; reflexivity|].
  assert (Hc : forall f : doc_fields -> Z,
             map (fun it => f (item_fields it)) l = map f (map item_fields l))
    by (intros f; rewrite map_map; reflexivity).
  assert (Hp : forall f : doc_fields -> pystr,
             map (fun it => f (item_fields it)) l = map f (map item_fields l))
    by (intros f; rewrite map_map; reflexivity).
  split.
  - rewrite (Hc createdAt), Hfields. vm_compute. reflexivity.
  - rewrite (Hp prompt), Hfields. vm_compute. reflexivity.
Defined.

(** [get_user_id] for every session. *)
Lemma get_user_id_eval (w : world) :
  get_user_id w =
  (Ok (user_id (with_user (ss w))), MkWorld (with_user (ss w)) (db w) (out w)).
Proof.
  unfold get_user_id, with_user.
  destruct w as [s d o].
  destruct s as [uid tuid udn isl gres emsg prm gcl lds hmc ilc did eid
                 eip eit eitn].
  destruct uid as [[|? ?]|], tuid; reflexivity.
Qed.

(** Every page fetch of [ITEMS_PER_PAGE] documents returns, and its third
    component tells whether the page is full. *)
Lemma fetch_content_has_more (E : env) (w : world) (cursor : option snapshot) :
  exists content last w1,
    fetch_content E ITEMS_PER_PAGE cursor w =
    (Ok (content, last, Nat.eqb (List.length content) ITEMS_PER_PAGE), w1).
Proof.
  unfold fetch_content.
  rewrite (bind_ok _ (get_user_id_eval w)).
  destruct (opt_truthy (user_id (with_user (ss w)))) eqn:Hu; cbn [negb].
  - assert (Hid : identified (ss (MkWorld (with_user (ss w)) (db w) (out w))))
      by exact Hu.
    rewrite (bind_ok _ (get_content_collection_ref_identified _ Hid)).
    unfold store_stream, fail_on_fault.
    destruct (store_fault E) as [e|]; unfold_m; cbn [ss db out].
    + exists [], None. eexists. reflexivity.
    + eexists (map item_of_snapshot _), _, _. rewrite length_map. reflexivity.
  - exists [], None. eexists. reflexivity.
Qed.

(** C5.  The third component of what [fetch_content] returns is the test
    that the number of documents streamed equals the limit: for every call
    with [ITEMS_PER_PAGE], and for every limit when the store answers.  On
    a collection of eight documents the first visit caches the five newest
    with [has_more_content] true, and one click on the button that loads
    more caches all eight, from the latest [createdAt] to the earliest,
    with [has_more_content] false; the entries carry the names and the
    fields of the documents. *)
Theorem has_more_iff_full_page :
  (forall E w cursor,
     exists content last w1,
       fetch_content E ITEMS_PER_PAGE cursor w =
       (Ok (content, last, Nat.eqb (List.length content) ITEMS_PER_PAGE), w1))
  /\ (forall E w limit_num cursor,
        identified (ss w) -> store_fault E = None ->
        exists content docs w1,
          fetch_content E limit_num cursor w =
          (Ok (content, last_opt docs,
               Nat.eqb (List.length content) limit_num), w1)
          /\ docs = query_docs (db w) limit_num cursor
          /\ map item_id content = map snap_id docs
          /\ map item_fields content = map snap_fields docs)
  /\ (forall E w,
        page_of E = MyContent ->
        store_fault E = None ->
        NoDup (map snap_id (db w)) ->
        identifiable (ss w) ->
        awaiting_first_page (ss w) ->
        List.length (db w) = 8 ->
        exists l1 l2,
          generated_content_list (ss (snd (visit_my_content E w))) = Some l1
          /\ map item_id l1 = map snap_id (firstn 5 (order_by_desc (db w)))
          /\ map item_fields l1
             = map snap_fields (firstn 5 (order_by_desc (db w)))
          /\ List.length l1 = 5
          /\ has_more_content (ss (snd (visit_my_content E w))) = true
          /\ generated_content_list
               (ss (load_more_clicks 1 E (snd (visit_my_content E w))))
             = Some l2
          /\ map item_id l2 = map snap_id (order_by_desc (db w))
          /\ map item_fields l2 = map snap_fields (order_by_desc (db w))
          /\ List.length l2 = 8
          /\ has_more_content
               (ss (load_more_clicks 1 E (snd (visit_my_content E w))))
             = false
          /\ newest_first (order_by_desc (db w))
          /\ (forall d, In d (order_by_desc (db w)) <-> In d (db w))).
Proof.
  split; [|split].
  - intros E w cursor. apply fetch_content_has_more.
  - intros E w limit_num cursor Hid Hf.
    do 3 eexists.
    split.
    { rewrite fetch_content_ok by assumption.
      rewrite <- (length_map item_of_snapshot). reflexivity. }
    split; [reflexivity|].
    split; apply items_of_snapshots.
  - intros E w Hpage Hf Hnd Hid Hwait Hlen.
    destruct (visit_listing E w Hpage Hf Hid Hwait) as [_ H1].
    pose proof (clicks_listing E 1 Hpage Hf Hnd H1) as H2.
    destruct H1 as (_ & _ & _ & Hlist1 & _ & Hmore1 & _).
    destruct H2 as (_ & _ & _ & Hlist2 & _ & Hmore2 & _).
    assert (HL : List.length (order_by_desc (db w)) = 8)
      by (rewrite order_by_desc_length; exact Hlen).
    rewrite Hlist1, Hmore1, Hlist2, Hmore2, HL.
    unfold ITEMS_PER_PAGE.
    rewrite (firstn_all2 (n := (1 + 1) * 5)) by (rewrite HL; simpl; lia).
    do 2 eexists.
    split; [reflexivity|].
    split; [apply items_of_snapshots|].
    split; [apply items_of_snapshots|].
    split; [rewrite length_map, length_firstn, HL; reflexivity|].
    split; [reflexivity|].
    split; [reflexivity|].
    split; [apply items_of_snapshots|].
    split; [apply items_of_snapshots|].
    split; [rewrite length_map; exact HL|].
    split; [reflexivity|].
    split; [apply descending_newest_first, order_by_desc_descending, Hnd|].
    intros d. apply order_by_desc_in.
Qed.

Lemma has_more_witness :
  exists l1 l2,
    generated_content_list
      (ss (snd (visit_my_content (list_env NoEvent None) fresh_world)))
    = Some l1
    /\ map item_id l1
       = [py "doc8"; py "doc7"; py "doc6"; py "doc5"; py "doc4"]
    /\ has_more_content
         (ss (snd (visit_my_content (list_env NoEvent None) fresh_world)))
       = true
    /\ generated_content_list
         (ss (load_more_clicks 1 (list_env NoEvent None)
                (snd (visit_my_content (list_env NoEvent None) fresh_world))))
       = Some l2
    /\ map item_id l2
       = [py "doc8"; py "doc7"; py "doc6"; py "doc5"; py "doc4"; py "doc3";
          py "doc2"; py "doc1"]
    /\ map (fun it => createdAt (item_fields it)) l2
       = [800; 700; 600; 500; 400; 300; 200; 100]%Z
    /\ has_more_content
         (ss (load_more_clicks 1 (list_env NoEvent None)
                (snd (visit_my_content (list_env NoEvent None) fresh_world))))
       = false.
Proof.
  assert (Hid : identifiable (ss fresh_world)) by (vm_compute; reflexivity).
  assert (Hwait : awaiting_first_page (ss fresh_world))
    by (split; vm_compute; reflexivity).
  assert (Hlen : List.length (db fresh_world) = 8) by reflexivity.
  destruct (proj2 (proj2 has_more_iff_full_page) (list_env NoEvent None)
              fresh_world eq_refl eq_refl sample_collection_distinct Hid Hwait
              Hlen)
    as (l1 & l2 & Hl1 & Hids1 & _ & _ & Hmore1 & Hl2 & Hids2 & Hfields2 & _
        & Hmore2 & _).
  exists l1, l2.
  split; [exact Hl1|].
  split; [rewrite Hids1; vm_compute; reflexivity|].
  split; [exact Hmore1|].
  split; [exact Hl2|].
  split; [rewrite Hids2; vm_compute; reflexivity|].
  split; [|exact Hmore2].
  rewrite <- (map_map item_fields createdAt), Hfields2.
  vm_compute. reflexivity.
Defined.

(** *** A fetch that fails, a list that is invalidated *)

(** C10.  A page fetch that the store fails shows the error and returns
    [([], None, False)].  The first load then stores the empty list, no
    cursor and [has_more_content = False]: the session is the one a first
    load of an empty collection leaves, the execution that follows shows
    the text of the empty list, and a click on the button that loads more
    fetches nothing. *)
Theorem failed_fetch_looks_empty (E : env) (w : world) (e : pyexc) :
  page_of E = MyContent ->
  store_fault E = Some e ->
  identifiable (ss w) ->
  awaiting_first_page (ss w) ->
  (forall limit_num cursor w',
     identified (ss w') ->
     fetch_content E limit_num cursor w' =
     (Ok ([], None, false),
      MkWorld (ss w') (db w')
        (out w' ++ [StoreStream limit_num cursor;
                    Shown error (py "Erro ao buscar conteúdos: "
                                 ++ exc_str e)])))
  /\ exists w1,
       run E w = (Rerun, w1)
       /\ cache_of (ss w1) = (Some [], None, false, false)
       /\ db w1 = db w
       /\ out w1
          = out w ++ [StoreStream ITEMS_PER_PAGE None;
                      Shown error (py "Erro ao buscar conteúdos: "
                                   ++ exc_str e)]
       /\ (forall E0,
             page_of E0 = MyContent -> store_fault E0 = None ->
             run E0 (MkWorld (ss w) [] (out w))
             = (Rerun, MkWorld (ss w1) [] (out w ++ [StoreStream ITEMS_PER_PAGE None])))
       /\ (forall E1,
             page_of E1 = MyContent ->
             run E1 w1
             = (Ok tt,
                MkWorld (ss w1) (db w1)
                  (out w1 ++ [Shown info no_content_message]))).
Proof.
  intros Hpage Hf Hid [Hload Hlist].
  split.
  { intros limit_num cursor w' Hid'. apply fetch_content_fault; assumption. }
  destruct (@prelude_spec _ Hid) as (u & t & n & Hu & Hp).
  eexists. split.
  { rewrite run_eval. unfold render_page. rewrite Hpage, Hp, Hload, Hlist.
    rewrite (@first_page_load_fault E _ e);
      [|exact Hu|reflexivity|reflexivity|exact Hf].
    cbn [ss db out]. reflexivity. }
  cbn [ss db out].
  split; [reflexivity|].
  split; [reflexivity|].
  split; [reflexivity|].
  split.
  - intros E0 Hpage0 Hf0.
    rewrite run_eval. unfold render_page. cbn [ss db out].
    rewrite Hpage0, Hp, Hload, Hlist.
    rewrite first_page_load; [|exact Hu|reflexivity|reflexivity|exact Hf0].
    reflexivity.
  - intros E1 Hpage1.
    rewrite run_my_content; [|exact Hpage1|exact Hu|reflexivity|reflexivity].
    apply empty_list_shown; reflexivity.
Qed.

Lemma failed_fetch_witness :
  exists w1,
    run (list_env NoEvent (Some unavailable_error)) fresh_world = (Rerun, w1)
    /\ cache_of (ss w1) = (Some [], None, false, false)
    /\ db w1 = sample_collection.
Proof.
  assert (Hid : identifiable (ss fresh_world)) by (vm_compute; reflexivity).
  assert (Hwait : awaiting_first_page (ss fresh_world))
    by (split; vm_compute; reflexivity).
  destruct (@failed_fetch_looks_empty (list_env NoEvent (Some unavailable_error))
              fresh_world unavailable_error eq_refl eq_refl Hid Hwait)
    as (_ & w1 & Hrun & Hcache & Hdb & _).
  exists w1. split; [exact Hrun|]. split; [exact Hcache|]. exact Hdb.
Defined.

(** The execution of the page of saved content that follows an
    invalidation: line 498 puts the empty list back, [is_loading_content]
    is still false, and lines 353-366 fetch nothing. *)
Lemma invalidated_list_not_fetched (E : env) (w : world) :
  page_of E = MyContent ->
  identified (ss w) ->
  generated_content_list (ss w) = None ->
  is_loading_content (ss w) = false ->
  exists w2,
    run E w = (Ok tt, w2)
    /\ generated_content_list (ss w2) = Some []
    /\ db w2 = db w
    /\ out w2 = out w ++ [Shown info no_content_message].
Proof.
  intros Hpage Hid Hlist Hload.
  destruct (@prelude_spec _ (identified_identifiable Hid))
    as (u & t & n & Hu & Hp).
  eexists. split.
  { rewrite run_eval. unfold render_page. rewrite Hpage, Hp, Hlist, Hload.
    apply empty_list_shown; reflexivity. }
  cbn [ss db out generated_content_list or_default].
  repeat split.
Qed.

(** C2.  A successful save, update or delete deletes the key
    [generated_content_list].  When the list had been loaded before,
    [is_loading_content] is false, and the next execution of the page of
    saved content fetches no page: it shows the text of the empty list,
    although the collection holds documents. *)
Theorem invalidation_fetches_nothing (E E' : env) (w : world)
    (c_toolId c_toolName c_prompt c_text content_id : pystr) :
  identified (ss w) ->
  is_loading_content (ss w) = false ->
  store_fault E = None ->
  page_of E' = MyContent ->
  (exists w1 w2,
     save_content_to_firestore E c_toolId c_toolName c_prompt c_text w
     = (Rerun, w1)
     /\ generated_content_list (ss w1) = None
     /\ db w1 <> []
     /\ run E' w1 = (Ok tt, w2)
     /\ generated_content_list (ss w2) = Some []
     /\ out w2 = out w1 ++ [Shown info no_content_message]
     /\ count_streams (out w2) = count_streams (out w1))
  /\ (has_doc content_id (db w) = true ->
      exists w1 w2,
        update_content_in_firestore E content_id c_prompt c_text w
        = (Ok true, w1)
        /\ generated_content_list (ss w1) = None
        /\ db w1 <> []
        /\ run E' w1 = (Ok tt, w2)
        /\ generated_content_list (ss w2) = Some []
        /\ out w2 = out w1 ++ [Shown info no_content_message]
        /\ count_streams (out w2) = count_streams (out w1))
  /\ (exists w1 w2,
        delete_content_from_firestore E content_id w = (Rerun, w1)
        /\ generated_content_list (ss w1) = None
        /\ run E' w1 = (Ok tt, w2)
        /\ generated_content_list (ss w2) = Some []
        /\ out w2 = out w1 ++ [Shown info no_content_message]
        /\ count_streams (out w2) = count_streams (out w1)).
Proof.
  intros Hid Hload Hf Hpage.
  assert (Hwl : generated_content_list (without_list (ss w)) = None).
  { unfold without_list.
    destruct (generated_content_list (ss w)) eqn:Hl; [reflexivity | exact Hl]. }
  assert (Hwid : identified (without_list (ss w))).
  { unfold without_list.
    destruct (generated_content_list (ss w)); exact Hid. }
  assert (Hwload : is_loading_content (without_list (ss w)) = false).
  { unfold without_list.
    destruct (generated_content_list (ss w)); exact Hload. }
  split; [|split].
  - rewrite (save_content_ok E w c_toolId c_toolName c_prompt c_text Hid Hf).
    match goal with
    | |- context [(Rerun, ?w1)] =>
      destruct (@invalidated_list_not_fetched E' w1 Hpage Hwid Hwl Hwload)
        as (w2 & Hrun & Hl2 & _ & Hout)
    end.
    eexists. exists w2. split; [reflexivity|].
    cbn [ss db out] in *.
    split; [exact Hwl|]. split; [discriminate|]. split; [exact Hrun|].
    split; [exact Hl2|]. split; [exact Hout|].
    rewrite Hout. count_events.
  - intros Hdoc.
    rewrite (update_content_ok E w content_id c_prompt c_text Hid Hf Hdoc).
    match goal with
    | |- context [(Ok true, ?w1)] =>
      destruct (@invalidated_list_not_fetched E' w1 Hpage Hwid Hwl Hwload)
        as (w2 & Hrun & Hl2 & _ & Hout)
    end.
    eexists. exists w2. split; [reflexivity|].
    cbn [ss db out] in *.
    split; [exact Hwl|].
    split.
    { intros Hnil. apply map_eq_nil in Hnil. rewrite Hnil in Hdoc.
      discriminate Hdoc. }
    split; [exact Hrun|].
    split; [exact Hl2|]. split; [exact Hout|].
    rewrite Hout. count_events.
  - rewrite (delete_content_ok E w content_id Hid Hf).
    match goal with
    | |- context [(Rerun, ?w1)] =>
      destruct (@invalidated_list_not_fetched E' w1 Hpage Hwid Hwl Hwload)
        as (w2 & Hrun & Hl2 & _ & Hout)
    end.
    eexists. exists w2. split; [reflexivity|].
    cbn [ss db out] in *.
    split; [exact Hwl|]. split; [exact Hrun|].
    split; [exact Hl2|]. split; [exact Hout|].
    rewrite Hout. count_events.
Qed.

Lemma invalidation_witness :
  exists w1 w2,
    save_content_to_firestore (sample_env (ToolPage "article")
                                 (SaveClick "article") (inr JNull) None)
      (py "article") (py "Gerador de Artigos") (py "gatos")
      (py "Era uma vez...") listed_world
    = (Rerun, w1)
    /\ List.length (db w1) = 9
    /\ run (list_env NoEvent None) w1 = (Ok tt, w2)
    /\ out w2 = out w1 ++ [Shown info no_content_message]
    /\ count_streams (out w2) = 0.
Proof.
  assert (Hid : identified (ss listed_world)) by (vm_compute; reflexivity).
  destruct (@invalidation_fetches_nothing
              (sample_env (ToolPage "article") (SaveClick "article")
                 (inr JNull) None)
              (list_env NoEvent None) listed_world
              (py "article") (py "Gerador de Artigos") (py "gatos")
              (py "Era uma vez...") (py "doc1") Hid eq_refl eq_refl eq_refl)
    as ((w1 & w2 & Hsave & _ & _ & Hrun & _ & Hout & Hstreams) & _).
  exists w1, w2.
  split; [exact Hsave|].
  pose proof Hsave as Hw1.
  rewrite (save_content_ok
             (sample_env (ToolPage "article") (SaveClick "article")
                (inr JNull) None)
             listed_world (py "article") (py "Gerador de Artigos")
             (py "gatos") (py "Era uma vez...") Hid eq_refl) in Hw1.
  injection Hw1 as Hw1.
  split; [rewrite <- Hw1; reflexivity|].
  split; [exact Hrun|]. split; [exact Hout|].
  rewrite Hstreams, <- Hw1. reflexivity.
Defined.

(** * Further properties of the code *)

(** ** Requests to the generation API *)

Lemma silent_ret {A} (a : A) : silent (ret a).
Proof. intros w. reflexivity. Qed.

Lemma silent_bind {A B} (m : M A) (k : A -> M B) :
  silent m -> (forall a, silent (k a)) -> silent (bind m k).
Proof.
  intros Hm Hk w. unfold bind.
  specialize (Hm w). destruct (m w) as [[a|e|] w']; cbn [snd] in *.
  - rewrite <- Hm. apply Hk.
  - exact Hm.
  - exact Hm.
Qed.

Lemma silent_lift {A} (r : res A) : silent (lift r).
Proof. intros w. reflexivity. Qed.

Lemma silent_raise {A} (e : pyexc) : silent (@raise A e).
Proof. intros w. reflexivity. Qed.

Lemma silent_rerun {A} : silent (@st_rerun A).
Proof. intros w. reflexivity. Qed.

Lemma silent_emit (e : event) : is_post e = false -> silent (emit e).
Proof.
  intros He w. unfold emit, posts. cbn [snd out].
  rewrite filter_app. cbn [filter]. rewrite He. apply app_nil_r.
Qed.

Lemma silent_count {A} (m : M A) (w : world) :
  silent m -> count_posts (out (snd (m w))) = count_posts (out w).
Proof.
  intros Hm. unfold count_posts. change (filter is_post) with posts.
  rewrite (Hm w). reflexivity.
Qed.

Lemma silent_get_session : silent get_session.
Proof. intros w. reflexivity. Qed.

Lemma silent_modify (f : session -> session) : silent (modify f).
Proof. intros w. reflexivity. Qed.

Lemma silent_get_db : silent get_db.
Proof. intros w. reflexivity. Qed.

Lemma silent_put_db (d : list snapshot) : silent (put_db d).
Proof. intros w. reflexivity. Qed.

Lemma silent_when (b : bool) (m : M unit) : silent m -> silent (when b m).
Proof. intros Hm. destruct b; [exact Hm | apply silent_ret]. Qed.

Lemma silent_attr {A} (name : string) (o : option A) : silent (attr name o).
Proof. destruct o; [apply silent_ret | apply silent_raise]. Qed.

Lemma silent_try_except {A} (m : M A) (h : pyexc -> M A) :
  silent m -> (forall e, silent (h e)) -> silent (try_except m h).
Proof.
  intros Hm Hh w. unfold try_except.
  specialize (Hm w). destruct (m w) as [[a|e|] w']; cbn [snd] in *.
  - exact Hm.
  - rewrite <- Hm. apply Hh.
  - exact Hm.
Qed.

Lemma silent_try_finally {A} (m : M A) (f : M unit) :
  silent m -> silent f -> silent (try_finally m f).
Proof.
  intros Hm Hf w. unfold try_finally.
  specialize (Hm w). destruct (m w) as [r w']. cbn [snd] in Hm.
  specialize (Hf w'). destruct (f w') as [[[]|e|] w'']; cbn [snd] in *;
    congruence.
Qed.

Lemma silent_add_toast (message : pystr) (type : level) :
  silent (add_toast message type).
Proof. apply silent_emit. reflexivity. Qed.

(** Proves [silent] of a computation built from the combinators. *)
Ltac silence :=
  repeat first
    [ assumption
    | match goal with
      | H : forall _, silent _ |- _ => apply H
      | H : forall _ _, silent _ |- _ => apply H
      | H : forall _ _ _, silent _ |- _ => apply H
      | H : forall _ _ _ _, silent _ |- _ => apply H
      end
    | apply silent_ret
    | apply silent_lift
    | apply silent_raise
    | apply silent_rerun
    | apply silent_get_session
    | apply silent_get_db
    | apply silent_put_db
    | apply silent_modify
    | apply silent_add_toast
    | apply silent_attr
    | apply silent_emit; reflexivity
    | apply silent_when
    | apply silent_try_except; [|intros ?]
    | apply silent_try_finally
    | apply silent_bind; [|intros ?]
    | match goal with
      | |- silent (match ?x with _ => _ end) => destruct x
      | |- silent (let '(_, _) := ?x in _) => destruct x
      end ].

Lemma silent_get_user_id : silent get_user_id.
Proof. unfold get_user_id. silence. Qed.

Lemma silent_collection_ref : silent get_content_collection_ref.
Proof.
  unfold get_content_collection_ref.
  apply silent_bind; [apply silent_get_user_id | intros; apply silent_ret].
Qed.

Lemma silent_fail_on_fault (E : env) : silent (fail_on_fault E).
Proof. unfold fail_on_fault. silence. Qed.

Lemma silent_save (E : env) (a b c d : pystr) :
  silent (save_content_to_firestore E a b c d).
Proof.
  pose proof silent_get_user_id. pose proof silent_collection_ref.
  pose proof (silent_fail_on_fault E).
  unfold save_content_to_firestore, store_add. silence.
Qed.

Lemma silent_fetch (E : env) (n : nat) (c : option snapshot) :
  silent (fetch_content E n c).
Proof.
  pose proof silent_get_user_id. pose proof silent_collection_ref.
  pose proof (silent_fail_on_fault E).
  unfold fetch_content, store_stream. silence.
Qed.

Lemma silent_delete (E : env) (i : pystr) :
  silent (delete_content_from_firestore E i).
Proof.
  pose proof silent_get_user_id. pose proof silent_collection_ref.
  pose proof (silent_fail_on_fault E).
  unfold delete_content_from_firestore, store_delete. silence.
Qed.

Lemma silent_update (E : env) (i p t : pystr) :
  silent (update_content_in_firestore E i p t).
Proof.
  pose proof silent_get_user_id. pose proof silent_collection_ref.
  pose proof (silent_fail_on_fault E).
  unfold update_content_in_firestore, store_update. silence.
Qed.

Lemma silent_render_items (E : env) (l : list item) : silent (render_items E l).
Proof.
  induction l as [|it r IH]; unfold render_items; fold render_items; silence.
Qed.

Lemma silent_my_content (E : env) : silent (render_my_content_page E).
Proof.
  pose proof (silent_fetch E). pose proof (silent_render_items E).
  pose proof (silent_update E). pose proof (silent_delete E).
  unfold render_my_content_page, load_more_section, edit_modal,
    confirm_delete_modal.
  silence.
Qed.

Lemma silent_tool_form (E : env) (tool_key : string) :
  silent (tool_form E tool_key).
Proof. unfold tool_form. silence. Qed.

Lemma silent_result_area (E : env) (tl : tool) (tool_key : string) :
  silent (result_area E tl tool_key).
Proof.
  pose proof (silent_save E).
  unfold result_area. silence.
Qed.

Lemma silent_handler (tl : tool) (e : pyexc) : silent (generation_handler tl e).
Proof. unfold generation_handler. silence. Qed.

(** The request of line 293 is the only one, whatever comes back. *)
Lemma request_and_parse_posts (E : env) (tl : tool) (p : pystr) (w : world) :
  posts (out (snd (try_except (request_and_parse E tl p)
                     (generation_handler tl) w)))
  = posts (out w) ++ [ApiPost p].
Proof.
  assert (Hrest : forall m : M unit, silent m ->
            posts (out (snd (try_except (bind (emit (ApiPost p))
                                           (fun _ => m))
                               (generation_handler tl) w)))
            = posts (out w) ++ [ApiPost p]).
  { intros m Hm.
    assert (Hs : silent (try_except m (generation_handler tl)))
      by (apply silent_try_except; [exact Hm | apply silent_handler]).
    specialize (Hs (MkWorld (ss w) (db w) (out w ++ [ApiPost p]))).
    unfold try_except, bind, emit in *. cbn [ss db out] in *.
    destruct (m _) as [[a|e|] w']; cbn [snd] in *; rewrite Hs;
      unfold posts; rewrite filter_app; reflexivity. }
  unfold request_and_parse. apply Hrest. silence.
Qed.

(** Lines 286-318 send one request when a generation is pending and its
    prompt is stored, and none otherwise; the request carries the prefix
    of the tool and the stored prompt. *)
Lemma generation_requests (E : env) (tl : tool) (tool_key : string)
    (w : world) :
  posts (out (snd (generation E tl tool_key w)))
  = posts (out w)
    ++ (if is_loading (ss w)
        then match prompt_lookup tool_key (prompt_ (ss w)) with
             | Some p => [ApiPost (apiPromptPrefix tl ++ p)]
             | None => []
             end
        else []).
Proof.
  unfold generation, bind, get_session, when.
  destruct (is_loading (ss w)); [|cbn [ret snd]; rewrite app_nil_r; reflexivity].
  destruct (prompt_lookup tool_key (prompt_ (ss w))) as [p|];
    [|cbn [raise snd]; rewrite app_nil_r; reflexivity].
  cbn [ret].
  pose proof (request_and_parse_posts E tl (apiPromptPrefix tl ++ p) w) as Hp.
  unfold try_finally, modify, st_rerun.
  destruct (try_except _ _ w) as [r w']. cbn [snd] in *.
  destruct r; cbn [snd out]; exact Hp.
Qed.

Lemma generation_posts (E : env) (tl : tool) (tool_key : string) (w : world) :
  count_posts (out (snd (generation E tl tool_key w)))
  = count_posts (out w)
    + (if is_loading (ss w) && is_some (prompt_lookup tool_key (prompt_ (ss w)))
       then 1 else 0).
Proof.
  unfold count_posts. change (filter is_post) with posts.
  rewrite generation_requests, length_app.
  destruct (is_loading (ss w)); [|reflexivity].
  destruct (prompt_lookup tool_key (prompt_ (ss w))); reflexivity.
Qed.

Lemma silent_at_most_one {A} (m : M A) : silent m -> sends_at_most_one m.
Proof. intros Hm w. rewrite (silent_count w Hm). lia. Qed.

Lemma at_most_one_after_silent {A B} (m : M A) (k : A -> M B) :
  silent m -> (forall a, sends_at_most_one (k a)) ->
  sends_at_most_one (bind m k).
Proof.
  intros Hm Hk w. unfold bind. pose proof (silent_count w Hm) as Hc.
  destruct (m w) as [[a|e|] w']; cbn [snd] in *;
    [rewrite <- Hc; apply Hk | lia | lia].
Qed.

Lemma at_most_one_then_silent {A B} (m : M A) (k : A -> M B) :
  sends_at_most_one m -> (forall a, silent (k a)) ->
  sends_at_most_one (bind m k).
Proof.
  intros Hm Hk w. unfold bind. specialize (Hm w).
  destruct (m w) as [[a|e|] w']; cbn [snd] in *;
    [rewrite (silent_count w' (Hk a)); exact Hm | exact Hm | exact Hm].
Qed.

Lemma generation_at_most_one (E : env) (tl : tool) (tool_key : string) :
  sends_at_most_one (generation E tl tool_key).
Proof.
  intros w. rewrite generation_posts.
  destruct (is_loading (ss w) && _); lia.
Qed.

Lemma tool_page_at_most_one (E : env) (tool_key : string) :
  sends_at_most_one (render_tool_page E tool_key).
Proof.
  unfold render_tool_page.
  destruct (tool_get tool_key tool_configs) as [tl|];
    [|apply silent_at_most_one; silence].
  apply at_most_one_after_silent; [apply silent_tool_form|].
  intros [p b].
  apply at_most_one_after_silent; [silence|]. intros s.
  apply at_most_one_after_silent; [silence|]. intros _.
  apply at_most_one_after_silent; [silence|]. intros _.
  apply at_most_one_then_silent;
    [apply generation_at_most_one | intros; apply silent_result_area].
Qed.

Arguments result_area : simpl never.

(** Without a pending generation the page of a tool sends nothing. *)
Lemma tool_page_idle_silent (E : env) (tool_key : string) (w : world) :
  is_loading (ss w) = false ->
  count_posts (out (snd (render_tool_page E tool_key w)))
  = count_posts (out w).
Proof.
  intros Hload. unfold render_tool_page.
  destruct (tool_get tool_key tool_configs) as [tl|];
    [|apply silent_count, silent_emit; reflexivity].
  unfold tool_form, generation. unfold_m.
  destruct (event_of E) as [|k typed|k|i|i|i cp ct|i|i|i|];
    try destruct (String.eqb k tool_key);
    simpl; destruct (opt_truthy (error_message (ss w))); simpl;
    try destruct (str_truthy (strip typed)); simpl;
    rewrite ?Hload; simpl;
    rewrite ?(silent_count _ (silent_result_area E tl tool_key)); simpl;
    count_events.
Qed.

(** X1.  One execution of the script sends at most one request to the
    generation API, and none when the page is not the page of a tool or
    when no generation is pending. *)
Theorem one_request_per_execution (E : env) (w : world) :
  count_posts (out w) <= count_posts (out (snd (run E w)))
  <= S (count_posts (out w))
  /\ ((forall tool_key, page_of E <> ToolPage tool_key) ->
      count_posts (out (snd (run E w))) = count_posts (out w))
  /\ (is_loading (ss w) = false ->
      count_posts (out (snd (run E w))) = count_posts (out w)).
Proof.
  assert (Hpre : is_loading (prelude (ss w)) = is_loading (ss w)).
  { unfold prelude, with_user, with_defaults.
    destruct (ss w) as [uid tuid udn isl gres emsg prm gcl lds hmc ilc did
                        eid eip eit eitn].
    destruct emsg, gcl, uid as [[|? ?]|], tuid; reflexivity. }
  rewrite run_eval. unfold render_page.
  split; [|split].
  - destruct (page_of E) as [|tool_key|].
    + cbn [ret snd out]. lia.
    + apply (tool_page_at_most_one E tool_key
               (MkWorld (prelude (ss w)) (db w) (out w))).
    + rewrite (silent_count _ (silent_my_content E)). cbn [out]. lia.
  - intros Hpage.
    destruct (page_of E) as [|k|].
    + reflexivity.
    + exfalso. apply (Hpage k). reflexivity.
    + rewrite (silent_count _ (silent_my_content E)). reflexivity.
  - intros Hload.
    destruct (page_of E) as [|k|].
    + reflexivity.
    + rewrite tool_page_idle_silent; [reflexivity|].
      cbn [ss]. rewrite Hpre. exact Hload.
    + rewrite (silent_count _ (silent_my_content E)). reflexivity.
Qed.

(** ** The life of a generation request *)

Lemma generation_handler_returns (tl : tool) (e : pyexc) (w : world) :
  exists w', generation_handler tl e w = (Ok tt, w').
Proof.
  unfold generation_handler. unfold_m.
  destruct (is_request_exception e); eexists; reflexivity.
Qed.

(** A pending generation always ends: the request is sent once,
    [is_loading] is reset by the [finally] clause and the script reruns. *)
Lemma generation_pending (E : env) (tl : tool) (tool_key : string)
    (w : world) (p : pystr) :
  is_loading (ss w) = true ->
  prompt_lookup tool_key (prompt_ (ss w)) = Some p ->
  exists w',
    generation E tl tool_key w = (Rerun, w')
    /\ is_loading (ss w') = false
    /\ count_posts (out w') = S (count_posts (out w)).
Proof.
  intros Hload Hp.
  pose proof (generation_posts E tl tool_key w) as Hposts.
  rewrite Hload, Hp in Hposts. cbn [andb is_some] in Hposts.
  revert Hposts.
  unfold generation. unfold_m. rewrite Hload, Hp.
  destruct (request_and_parse E tl (apiPromptPrefix tl ++ p) w)
    as [[[]|e|] w1]; cbn [fst snd] in *.
  - intros Hposts. eexists. split; [reflexivity|]. cbn [ss db out].
    split; [reflexivity | cbn [out] in Hposts; lia].
  - destruct (generation_handler_returns tl e w1) as [w2 Hh].
    rewrite Hh. cbn [snd]. intros Hposts. eexists.
    split; [reflexivity|]. cbn [ss db out].
    split; [reflexivity | cbn [out] in Hposts; lia].
  - intros Hposts. eexists. split; [reflexivity|]. cbn [ss db out].
    split; [reflexivity | cbn [out] in Hposts; lia].
Qed.

Arguments generation : simpl never.

(** X2.  A submission whose prompt holds more than white space makes the
    generation pending: the execution ends at line 284 with [is_loading]
    true, the result and the error message emptied and the typed prompt
    stored, and sends nothing.  The execution that follows sends exactly
    one request, resets [is_loading] and reruns, whatever the API
    answers. *)
Theorem submit_starts_generation (E : env) (w : world)
    (tool_key : string) (tl : tool) (typed : pystr) :
  page_of E = ToolPage tool_key ->
  tool_get tool_key tool_configs = Some tl ->
  event_of E = FormSubmit tool_key typed ->
  identifiable (ss w) ->
  ~ whitespace_only typed ->
  exists w1 w2,
    run E w = (Rerun, w1)
    /\ is_loading (ss w1) = true
    /\ generated_result (ss w1) = []
    /\ error_message (ss w1) = Some []
    /\ widget_prompt tool_key (ss w1) = typed
    /\ count_posts (out w1) = count_posts (out w)
    /\ run (quiet E) w1 = (Rerun, w2)
    /\ is_loading (ss w2) = false
    /\ count_posts (out w2) = S (count_posts (out w)).
Proof.
  intros Hpage Htool Hev Hid Hws.
  assert (Hstrip : str_truthy (strip typed) = true).
  { destruct (strip typed) eqn:Hs; [|reflexivity].
    exfalso. apply Hws. apply strip_nil_iff. exact Hs. }
  destruct (@prelude_spec _ Hid) as (u & t & n & Hu & Hp).
  assert (Hrun1 : exists w1,
    run E w = (Rerun, w1)
    /\ ss w1 = set_is_loading true
                 (set_generated_result []
                    (set_error_message (Some [])
                       (set_prompt_
                          (prompt_store tool_key typed (prompt_ (ss w)))
                          (prelude (ss w)))))
    /\ count_posts (out w1) = count_posts (out w)).
  { rewrite run_eval, Hp. unfold render_page. rewrite Hpage.
    unfold render_tool_page. rewrite Htool.
    unfold tool_form. rewrite Hev, String.eqb_refl. unfold_m.
    destruct (error_message (ss w)) as [[|c m]|]; simpl; rewrite Hstrip;
      simpl; eexists; (split; [reflexivity|]); simpl; split;
      try reflexivity; count_events. }
  destruct Hrun1 as (w1 & Hrun1 & Hss1 & Hposts1).
  assert (Hstored : prompt_lookup tool_key (prompt_ (ss w1)) = Some typed).
  { rewrite Hss1. cbn [prompt_ set_is_loading set_generated_result
                       set_error_message set_prompt_].
    apply prompt_lookup_store. }
  assert (Hrun2 : exists w2,
    run (quiet E) w1 = (Rerun, w2)
    /\ is_loading (ss w2) = false
    /\ count_posts (out w2) = S (count_posts (out w1))).
  { rewrite run_eval. unfold render_page, quiet. cbn [page_of].
    rewrite Hpage.
    rewrite prelude_fixed;
      [|rewrite Hss1, Hp; exact Hu|rewrite Hss1; reflexivity
       |rewrite Hss1, Hp; reflexivity].
    unfold render_tool_page. rewrite Htool.
    assert (Herr : opt_truthy (error_message (ss w1)) = false)
      by (rewrite Hss1; reflexivity).
    unfold tool_form. unfold_m. simpl. rewrite Hstored, Herr. simpl.
    match goal with
    | |- context [generation ?E' tl tool_key ?w'] =>
      destruct (@generation_pending E' tl tool_key w' typed) as
          (w2 & Hgen & Hload2 & Hposts2);
        [ cbn [ss is_loading set_prompt_]; rewrite Hss1; reflexivity
        | cbn [ss prompt_ set_prompt_]; apply prompt_lookup_store
        | rewrite Hgen ]
    end.
    exists w2. split; [reflexivity|]. split; [exact Hload2|].
    exact Hposts2. }
  destruct Hrun2 as (w2 & Hrun2 & Hload2 & Hposts2).
  exists w1, w2.
  split; [exact Hrun1|].
  rewrite Hss1.
  cbn [is_loading generated_result error_message set_is_loading
       set_generated_result set_error_message].
  repeat (split; [reflexivity|]).
  split.
  { unfold widget_prompt.
    cbn [prompt_ set_is_loading set_generated_result set_error_message
         set_prompt_].
    rewrite prompt_lookup_store. reflexivity. }
  split; [exact Hposts1|]. split; [exact Hrun2|]. split; [exact Hload2|].
  rewrite Hposts2, Hposts1. reflexivity.
Qed.

Lemma submit_starts_generation_witness :
  ~ whitespace_only (py "gatos")
  /\ exists w1 w2,
       run (sample_env (ToolPage "article")
              (FormSubmit "article" (py "gatos")) (inr JNull) None)
         (MkWorld visitor_session [] [])
       = (Rerun, w1)
       /\ is_loading (ss w1) = true
       /\ run (quiet (sample_env (ToolPage "article")
                        (FormSubmit "article" (py "gatos")) (inr JNull) None))
            w1
          = (Rerun, w2)
       /\ count_posts (out w2) = 1.
Proof.
  assert (Hws : ~ whitespace_only (py "gatos"))
    by (unfold whitespace_only; vm_compute; discriminate).
  split; [exact Hws|].
  destruct (tool_get "article" tool_configs) as [tl|] eqn:Htool;
    [|vm_compute in Htool; discriminate Htool].
  assert (Hid : identifiable (ss (MkWorld visitor_session [] [])))
    by (vm_compute; reflexivity).
  destruct (@submit_starts_generation
              (sample_env (ToolPage "article")
                 (FormSubmit "article" (py "gatos")) (inr JNull) None)
              (MkWorld visitor_session [] []) "article" tl (py "gatos")
              eq_refl Htool eq_refl Hid Hws)
    as (w1 & w2 & Hrun1 & Hload1 & _ & _ & _ & _ & Hrun2 & _ & Hposts).
  exists w1, w2.
  split; [exact Hrun1|]. split; [exact Hload1|]. split; [exact Hrun2|].
  exact Hposts.
Defined.




Lemma text_parts_of_texts (texts : list pystr) :
  text_parts_of (map text_part texts) = Ok (map JStr texts).
Proof.
  induction texts as [|t r IH]; [reflexivity|].
  cbn [map text_parts_of]. unfold text_part at 1, dict_get.
  cbn [lookup]. rewrite str_eqb_refl, IH. reflexivity.
Qed.

Lemma join_from_texts (i : nat) (texts : list pystr) :
  join_from i (map JStr texts) = Ok (List.concat texts).
Proof.
  revert i. induction texts as [|t r IH]; intros i; [reflexivity|].
  cbn [map join_from List.concat]. rewrite IH. reflexivity.
Qed.

(** X3.  When the API answers with one candidate whose content is a
    non-empty list of text parts, the pending generation ends with the
    concatenation of the texts as [generated_result], the success toast,
    one request that carries the prefix of the tool followed by the stored
    prompt, and no error message; the execution that follows shows the
    result when it is not empty. *)
Theorem generation_success (E : env) (w : world) (tool_key : string)
    (tl : tool) (texts : list pystr) :
  page_of E = ToolPage tool_key ->
  tool_get tool_key tool_configs = Some tl ->
  event_of E = NoEvent ->
  identifiable (ss w) ->
  is_loading (ss w) = true ->
  error_message (ss w) = Some [] ->
  api_reply E = inr (reply_with texts) ->
  texts <> [] ->
  exists w1 w2,
    run E w = (Rerun, w1)
    /\ is_loading (ss w1) = false
    /\ generated_result (ss w1) = List.concat texts
    /\ error_message (ss w1) = Some []
    /\ out w1
       = out w
         ++ [ApiPost (apiPromptPrefix tl ++ widget_prompt tool_key (ss w));
             Shown success (py "Conteúdo gerado com sucesso!")]
    /\ run (quiet E) w1 = (Ok tt, w2)
    /\ (str_truthy (List.concat texts) = true ->
        In (ResultShown (List.concat texts)) (out w2))
    /\ count_posts (out w2) = count_posts (out w1)
    /\ generated_result (ss w2) = List.concat texts.
Proof.
  intros Hpage Htool Hev Hid Hload Herr Hreply Hne.
  destruct (@prelude_spec _ Hid) as (u & t & n & Hu & Hp).
  destruct texts as [|t0 r]; [contradiction|].
  cbn [List.concat].
  destruct (str_truthy (t0 ++ List.concat r)) eqn:Htr;
  (eexists; eexists;
  split;
  [ rewrite run_eval, Hp; unfold render_page; rewrite Hpage, Hload, Herr;
    unfold render_tool_page; rewrite Htool;
    unfold tool_form, generation, request_and_parse;
    rewrite Hev, Hreply; unfold_m; simpl;
    rewrite prompt_lookup_store; simpl;
    rewrite text_parts_of_texts; simpl;
    unfold join; cbn [join_from]; rewrite join_from_texts; simpl;
    reflexivity |];
  cbn [ss db out is_loading error_message generated_result set_is_loading
       set_generated_result];
  repeat (split; [reflexivity|]);
  (split; [unfold widget_prompt; rewrite <- app_assoc; reflexivity|]);
  split;
  [ rewrite run_eval; unfold render_page, quiet; cbn [page_of ss db out];
    rewrite Hpage; rewrite prelude_fixed; [|exact Hu|reflexivity|reflexivity];
    unfold render_tool_page; rewrite Htool;
    unfold tool_form, generation, result_area; unfold_m; simpl;
    rewrite Htr; simpl; rewrite ?download_as_pdf_eval; simpl;
    rewrite ?Htr; simpl; reflexivity |];
  cbn [ss db out generated_result];
  (split; [intros Ht; try discriminate Ht; rewrite !in_app_iff; cbn [In];
           auto 10|]);
  split;
  [ unfold count_posts; rewrite ?filter_app, ?length_app;
    rewrite ?pdf_events_no_post; simpl; lia
  | reflexivity ]).
Qed.

Lemma generation_success_witness :
  exists w1,
    run (article_env (inr (reply_with [py "Era "; py "uma vez."])))
      pending_world
    = (Rerun, w1)
    /\ generated_result (ss w1) = py "Era uma vez.".
Proof.
  destruct (tool_get "article" tool_configs) as [tl|] eqn:Htool;
    [|vm_compute in Htool; discriminate Htool].
  assert (Hid : identifiable (ss pending_world)) by (vm_compute; reflexivity).
  assert (Hne : [py "Era "; py "uma vez."] <> []) by discriminate.
  destruct (@generation_success
              (article_env (inr (reply_with [py "Era "; py "uma vez."])))
              pending_world "article" tl [py "Era "; py "uma vez."]
              eq_refl Htool eq_refl Hid eq_refl eq_refl eq_refl Hne)
    as (w1 & w2 & Hrun & _ & Hres & _).
  exists w1. split; [exact Hrun|]. rewrite Hres. vm_compute. reflexivity.
Defined.

(** ** Writing to the store *)

Arguments save_content_to_firestore : simpl never.

Lemma insert_desc_newest (d : snapshot) (l : list snapshot) :
  (forall x, In x l -> key_ltb x d = true) -> insert_desc d l = d :: l.
Proof.
  destruct l as [|x r]; [reflexivity|]. intros H. cbn [insert_desc].
  rewrite (H x (or_introl eq_refl)). reflexivity.
Qed.

Lemma identified_without_list (s : session) :
  identified s -> identified (without_list s).
Proof.
  unfold without_list. destruct (generated_content_list s); auto.
Qed.

(** X4.  A click on the button that saves stores one new document, made
    of the id and the name of the tool, the prompt of the form and the
    generated text, and reruns.  When the store's clock is ahead of the
    documents it holds and the page of saved content has not been loaded
    yet, the first visit of that page lists the saved document first. *)
Theorem saved_document_is_listed_first (E E' : env) (w : world)
    (tool_key : string) (tl : tool) :
  page_of E = ToolPage tool_key ->
  tool_get tool_key tool_configs = Some tl ->
  event_of E = SaveClick tool_key ->
  identifiable (ss w) ->
  is_loading (ss w) = false ->
  str_truthy (generated_result (ss w)) = true ->
  store_fault E = None ->
  (forall x, In x (db w) -> (createdAt (snap_fields x) < server_time E)%Z) ->
  is_loading_content (ss w) = true ->
  page_of E' = MyContent ->
  store_fault E' = None ->
  exists w1 rest,
    run E w = (Rerun, w1)
    /\ db w1
       = MkSnap (fresh_id E)
           (MkFields (tool_id tl) (tool_name tl)
              (widget_prompt tool_key (ss w)) (generated_result (ss w))
              (server_time E) None)
         :: db w
    /\ generated_content_list (ss (snd (visit_my_content E' w1)))
       = Some (MkItem (fresh_id E)
                 (MkFields (tool_id tl) (tool_name tl)
                    (widget_prompt tool_key (ss w)) (generated_result (ss w))
                    (server_time E) None)
               :: rest).
Proof.
  intros Hpage Htool Hev Hid Hload Hres Hf Hnew Hlc Hpage' Hf'.
  destruct (@prelude_spec _ Hid) as (u & t & n & Hu & Hp).
  set (saved := MkFields (tool_id tl) (tool_name tl)
                  (widget_prompt tool_key (ss w)) (generated_result (ss w))
                  (server_time E) None).
  assert (Hrun : exists w1,
    run E w = (Rerun, w1)
    /\ db w1 = MkSnap (fresh_id E) saved :: db w
    /\ identified (ss w1)
    /\ generated_content_list (ss w1) = None
    /\ is_loading_content (ss w1) = true).
  { rewrite run_eval, Hp. unfold render_page. rewrite Hpage, Hload.
    unfold render_tool_page. rewrite Htool.
    unfold tool_form, generation, result_area. rewrite Hev. unfold_m.
    destruct (error_message (ss w)) as [[|c m]|];
      (eexists; split;
       [ simpl; rewrite Hres; simpl; rewrite download_as_pdf_eval; simpl;
         rewrite String.eqb_refl; simpl;
         rewrite Hres; rewrite prompt_lookup_store;
         (rewrite save_content_ok; [|exact Hu|exact Hf]);
         reflexivity |]);
      cbn [ss db out];
      (split; [reflexivity|]);
      (split; [apply identified_without_list; exact Hu|]);
      unfold without_list; simpl; rewrite Hlc;
      destruct (generated_content_list (ss w)); split; reflexivity. }
  destruct Hrun as (w1 & Hrun & Hdb & Hid1 & Hlist1 & Hlc1).
  assert (Hwait : awaiting_first_page (ss w1)).
  { split; [exact Hlc1|]. rewrite Hlist1. reflexivity. }
  destruct (visit_listing E' w1 Hpage' Hf' (identified_identifiable Hid1) Hwait)
    as [_ (_ & _ & _ & Hlist & _)].
  exists w1. eexists.
  split; [exact Hrun|]. split; [exact Hdb|].
  rewrite Hlist, Hdb. cbn [order_by_desc fold_right].
  rewrite insert_desc_newest.
  - reflexivity.
  - intros x Hx. apply (proj1 (order_by_desc_in _ _)) in Hx.
    unfold key_ltb. cbn [snap_fields createdAt].
    apply orb_true_iff. left. apply Z.ltb_lt. apply Hnew. exact Hx.
Qed.

Lemma saved_document_witness :
  exists w1 rest,
    run (sample_env (ToolPage "article") (SaveClick "article") (inr JNull) None)
      written_world
    = (Rerun, w1)
    /\ generated_content_list
         (ss (snd (visit_my_content (list_env NoEvent None) w1)))
       = Some (MkItem (py "doc9")
                 (MkFields (py "article") (py "Gerador de Artigos")
                    (py "gatos") (py "Era uma vez.") 900 None)
               :: rest).
Proof.
  destruct (tool_get "article" tool_configs) as [tl|] eqn:Htool;
    [|vm_compute in Htool; discriminate Htool].
  assert (Hid : identifiable (ss written_world)) by (vm_compute; reflexivity).
  assert (Hres : str_truthy (generated_result (ss written_world)) = true)
    by (vm_compute; reflexivity).
  assert (Hnew : forall x, In x (db written_world) ->
                   (createdAt (snap_fields x) < 900)%Z).
  { intros x Hx. vm_compute in Hx.
    repeat (destruct Hx as [<- | Hx]; [reflexivity|]). contradiction. }
  destruct (@saved_document_is_listed_first
              (sample_env (ToolPage "article") (SaveClick "article")
                 (inr JNull) None)
              (list_env NoEvent None) written_world "article" tl
              eq_refl Htool eq_refl Hid eq_refl Hres eq_refl Hnew eq_refl
              eq_refl eq_refl)
    as (w1 & rest & Hrun & _ & Hlist).
  exists w1, rest. split; [exact Hrun|].
  rewrite Hlist.
  vm_compute in Htool. injection Htool as <-.
  vm_compute. reflexivity.
Defined.

Lemma has_doc_filtered (i : pystr) (l : list snapshot) :
  has_doc i (filter (fun x => negb (str_eqb (snap_id x) i)) l) = false.
Proof.
  unfold has_doc. induction l as [|x r IH]; [reflexivity|].
  cbn [filter]. destruct (str_eqb (snap_id x) i) eqn:Hx; cbn [negb].
  - exact IH.
  - cbn [existsb]. rewrite Hx. exact IH.
Qed.

Lemma filter_absent (i : pystr) (l : list snapshot) :
  has_doc i l = false ->
  filter (fun x => negb (str_eqb (snap_id x) i)) l = l.
Proof.
  unfold has_doc. induction l as [|x r IH]; [reflexivity|].
  cbn [existsb filter]. intros H. apply orb_false_iff in H.
  destruct H as [Hx Hr]. rewrite Hx. cbn [negb]. f_equal. auto.
Qed.

(** X5.  A delete that the store serves removes every document of that
    name and no other, shows the success toast, drops the cached list and
    reruns.  Deleting a document that is absent succeeds in the same way
    and leaves the collection as it is. *)
Theorem delete_removes_the_document (E : env) (w : world) (content_id : pystr) :
  identified (ss w) ->
  store_fault E = None ->
  exists w1,
    delete_content_from_firestore E content_id w = (Rerun, w1)
    /\ has_doc content_id (db w1) = false
    /\ (forall d, In d (db w1) <-> In d (db w) /\ snap_id d <> content_id)
    /\ (has_doc content_id (db w) = false -> db w1 = db w)
    /\ generated_content_list (ss w1) = None
    /\ out w1 = out w ++ [StoreDelete content_id;
                          Shown success (py "Conteúdo excluído com sucesso!")].
Proof.
  intros Hid Hf. eexists.
  split; [apply delete_content_ok; assumption|].
  cbn [ss db out].
  split; [apply has_doc_filtered|].
  split.
  { intros d. rewrite filter_In. rewrite negb_true_iff.
    split; intros [Hin Hne]; (split; [exact Hin|]).
    - intros Heq. apply str_eqb_eq in Heq. congruence.
    - destruct (str_eqb (snap_id d) content_id) eqn:Heq; [|reflexivity].
      apply str_eqb_eq in Heq. contradiction. }
  split; [apply filter_absent|].
  split; [|reflexivity].
  unfold without_list. destruct (generated_content_list (ss w)) eqn:Hl;
    [reflexivity | exact Hl].
Qed.

Lemma delete_removes_witness :
  exists w1,
    delete_content_from_firestore (list_env (ConfirmDelete (py "doc3")) None)
      (py "doc3") listed_world
    = (Rerun, w1)
    /\ map snap_id (db w1)
       = map py ["doc1"; "doc2"; "doc4"; "doc5"; "doc6"; "doc7"; "doc8"]%string.
Proof.
  assert (Hid : identified (ss listed_world)) by (vm_compute; reflexivity).
  destruct (@delete_removes_the_document
              (list_env (ConfirmDelete (py "doc3")) None) listed_world
              (py "doc3") Hid eq_refl)
    as (w1 & Hrun & _).
  exists w1. split; [exact Hrun|].
  rewrite (delete_content_ok (list_env (ConfirmDelete (py "doc3")) None)
             listed_world (py "doc3") Hid eq_refl) in Hrun.
  injection Hrun as <-. vm_compute. reflexivity.
Defined.

Lemma update_doc_key (i p t : pystr) (now : Z) (a b : snapshot) :
  key_ltb (update_doc i p t now a) (update_doc i p t now b) = key_ltb a b.
Proof.
  unfold update_doc, key_ltb.
  destruct (str_eqb (snap_id a) i), (str_eqb (snap_id b) i); reflexivity.
Qed.

Lemma insert_desc_updated (i p t : pystr) (now : Z) (d : snapshot)
    (l : list snapshot) :
  insert_desc (update_doc i p t now d) (map (update_doc i p t now) l)
  = map (update_doc i p t now) (insert_desc d l).
Proof.
  induction l as [|x r IH]; [reflexivity|].
  cbn [map insert_desc]. rewrite update_doc_key.
  destruct (key_ltb x d); cbn [map]; [reflexivity|]. rewrite IH. reflexivity.
Qed.

Lemma order_by_desc_updated (i p t : pystr) (now : Z) (l : list snapshot) :
  order_by_desc (map (update_doc i p t now) l)
  = map (update_doc i p t now) (order_by_desc l).
Proof.
  induction l as [|d r IH]; [reflexivity|].
  cbn [map order_by_desc fold_right].
  change (fold_right insert_desc [] (map (update_doc i p t now) r))
    with (order_by_desc (map (update_doc i p t now) r)).
  rewrite IH. apply insert_desc_updated.
Qed.

Lemma update_doc_id (i p t : pystr) (now : Z) (d : snapshot) :
  snap_id (update_doc i p t now d) = snap_id d.
Proof. unfold update_doc. destruct (str_eqb (snap_id d) i); reflexivity. Qed.

(** X6.  An update that the store serves rewrites the prompt and the text
    of the documents of that name and stamps them with the server's time;
    it keeps every name, every creation time and every other document,
    hence the order in which the collection is listed; it drops the cached
    list and returns [True]. *)
Theorem update_rewrites_one_document (E : env) (w : world)
    (content_id new_prompt new_text : pystr) :
  identified (ss w) ->
  store_fault E = None ->
  has_doc content_id (db w) = true ->
  exists w1,
    update_content_in_firestore E content_id new_prompt new_text w
    = (Ok true, w1)
    /\ db w1
       = map (update_doc content_id new_prompt new_text (server_time E)) (db w)
    /\ (forall d, In d (db w) -> snap_id d <> content_id -> In d (db w1))
    /\ (forall d, In d (db w) -> snap_id d = content_id ->
        In (MkSnap content_id
              (MkFields (toolId (snap_fields d)) (toolName (snap_fields d))
                 new_prompt new_text (createdAt (snap_fields d))
                 (Some (server_time E))))
           (db w1))
    /\ map snap_id (order_by_desc (db w1))
       = map snap_id (order_by_desc (db w))
    /\ generated_content_list (ss w1) = None.
Proof.
  intros Hid Hf Hdoc. eexists.
  split; [apply update_content_ok; assumption|].
  cbn [ss db out].
  split; [reflexivity|].
  split.
  { intros d Hin Hne. apply in_map_iff. exists d. split; [|exact Hin].
    unfold update_doc.
    destruct (str_eqb (snap_id d) content_id) eqn:Heq; [|reflexivity].
    apply str_eqb_eq in Heq. contradiction. }
  split.
  { intros d Hin Heq. apply in_map_iff. exists d. split; [|exact Hin].
    unfold update_doc. rewrite Heq, str_eqb_refl. reflexivity. }
  split.
  { rewrite order_by_desc_updated, map_map.
    apply map_ext. intros d. apply update_doc_id. }
  unfold without_list. destruct (generated_content_list (ss w)) eqn:Hl;
    [reflexivity | exact Hl].
Qed.

Lemma update_rewrites_witness :
  exists w1,
    update_content_in_firestore
      (list_env (SaveEdit (py "doc3") (py "cães") (py "Fim.")) None)
      (py "doc3") (py "cães") (py "Fim.") listed_world
    = (Ok true, w1)
    /\ In (MkSnap (py "doc3")
             (MkFields (py "article") (py "Gerador de Artigos") (py "cães")
                (py "Fim.") 300 (Some 900%Z)))
          (db w1).
Proof.
  assert (Hid : identified (ss listed_world)) by (vm_compute; reflexivity).
  assert (Hdoc : has_doc (py "doc3") (db listed_world) = true)
    by (vm_compute; reflexivity).
  destruct (@update_rewrites_one_document
              (list_env (SaveEdit (py "doc3") (py "cães") (py "Fim.")) None)
              listed_world (py "doc3") (py "cães") (py "Fim.") Hid eq_refl Hdoc)
    as (w1 & Hrun & Hdb & _).
  exists w1. split; [exact Hrun|].
  rewrite Hdb. vm_compute. do 2 right. left. reflexivity.
Defined.


(** ** The dialogs of the page of saved content *)

Arguments update_content_in_firestore : simpl never.
Arguments delete_content_from_firestore : simpl never.

Lemma render_items_no_click (E : env) (l : list item) (w : world) :
  is_item_click (event_of E) = false ->
  render_items E l w
  = (Ok tt, MkWorld (ss w) (db w) (out w ++ items_events E l)).
Proof.
  intros Hev. revert w. induction l as [|it r IH]; intros w.
  - unfold render_items, ret.
    change (items_events E []) with (@nil event).
    rewrite app_nil_r, world_eta. reflexivity.
  - rewrite render_items_cons. unfold is_event_edit, is_event_delete.
    destruct (event_of E); try discriminate Hev; rewrite IH;
      cbn [ss db out]; rewrite items_events_cons, <- app_assoc;
      reflexivity.
Qed.

(** An event that stands in a list of events as it is written. *)
Ltac in_events :=
  lazymatch goal with
  | |- In ?x (?y :: _) =>
    first [constr_eq x y; apply in_eq | apply in_cons; in_events]
  | |- In _ (_ ++ _) =>
    apply in_or_app; first [left; in_events | right; in_events]
  end.

(** The page up to its dialogs, when no button of an expander was
    clicked. *)
Ltac enter_list_page Hpage Hid Herr Hlist Hload Hev :=
  rewrite run_my_content;
    [|exact Hpage|exact Hid|exact Herr|rewrite Hlist; reflexivity];
  unfold render_my_content_page; unfold_m; simpl;
  repeat (progress (rewrite ?Hlist, ?Hload; simpl));
  rewrite render_items_no_click by (rewrite Hev; reflexivity);
  simpl.

(** X7.  Saving an edit whose text is empty or white space is refused
    before the store is called: the error toast is shown, nothing is
    written, the collection and the session are as they were, and the
    dialog stays open. *)
Theorem empty_edit_is_refused (E : env) (w : world) (l : list item)
    (i current_prompt current_text : pystr) :
  page_of E = MyContent ->
  identified (ss w) ->
  is_some (error_message (ss w)) = true ->
  generated_content_list (ss w) = Some l ->
  l <> [] ->
  is_loading_content (ss w) = false ->
  editing_item_id (ss w) = Some i ->
  str_truthy i = true ->
  event_of E = SaveEdit i current_prompt current_text ->
  whitespace_only current_text ->
  exists w1,
    run E w = (Ok tt, w1)
    /\ ss w1 = ss w
    /\ db w1 = db w
    /\ In (Shown error (py "O conteúdo não pode estar vazio.")) (out w1)
    /\ count_writes (out w1) = count_writes (out w).
Proof.
  intros Hpage Hid Herr Hlist Hne Hload Hedit Hi Hev Hws.
  apply strip_whitespace in Hws.
  destruct l as [|it r]; [contradiction|].
  enter_list_page Hpage Hid Herr Hlist Hload Hev.
  unfold edit_modal, confirm_delete_modal, load_more_section,
    is_event_load_more.
  rewrite Hev, Hedit. unfold_m. simpl. rewrite Hi, str_eqb_refl. simpl.
  rewrite Hws. simpl.
  destruct (opt_truthy (deleting_item_id (ss w))); simpl;
    rewrite ?Hload; simpl;
    destruct (has_more_content (ss w)); simpl;
    (eexists; split; [reflexivity|]); cbn [ss db out];
    (split; [reflexivity|]); (split; [reflexivity|]);
    (split; [in_events|]);
    unfold count_writes; rewrite !filter_app, !length_app;
    rewrite items_events_no_write; simpl; lia.
Qed.

Lemma empty_edit_witness :
  exists w1,
    run (list_env (SaveEdit (py "doc6") (py "gatos") (py " ")) None)
      editing_world
    = (Ok tt, w1)
    /\ ss w1 = ss editing_world
    /\ db w1 = sample_collection.
Proof.
  assert (Hid : identified (ss editing_world)) by (vm_compute; reflexivity).
  assert (Hws : whitespace_only (py " ")) by (vm_compute; reflexivity).
  assert (Hne : map item_of_snapshot (map sample_doc [8; 7; 6; 5; 4]) <> [])
    by discriminate.
  assert (Hi : str_truthy (py "doc6") = true) by (vm_compute; reflexivity).
  destruct (@empty_edit_is_refused
              (list_env (SaveEdit (py "doc6") (py "gatos") (py " ")) None)
              editing_world _ (py "doc6") (py "gatos") (py " ")
              eq_refl Hid eq_refl eq_refl Hne eq_refl eq_refl Hi eq_refl Hws)
    as (w1 & Hrun & Hss & Hdb & _).
  exists w1. split; [exact Hrun|]. split; [exact Hss|]. exact Hdb.
Defined.

(** X8.  A confirmed delete that the store serves never reaches line 452:
    the [st.rerun()] of line 208 ends the execution inside
    [delete_content_from_firestore], so [deleting_item_id] is still set
    when the script reruns.  When the store fails, the function returns,
    line 452 deletes the key and line 453 reruns, with the list and the
    collection as they were. *)
Theorem confirmed_delete_keeps_the_key (E : env) (w : world) (l : list item)
    (i : pystr) :
  page_of E = MyContent ->
  identified (ss w) ->
  is_some (error_message (ss w)) = true ->
  generated_content_list (ss w) = Some l ->
  l <> [] ->
  is_loading_content (ss w) = false ->
  deleting_item_id (ss w) = Some i ->
  str_truthy i = true ->
  event_of E = ConfirmDelete i ->
  (store_fault E = None ->
   exists w1,
     run E w = (Rerun, w1)
     /\ deleting_item_id (ss w1) = Some i
     /\ generated_content_list (ss w1) = None
     /\ db w1 = filter (fun x => negb (str_eqb (snap_id x) i)) (db w))
  /\ (forall e, store_fault E = Some e ->
      exists w1,
        run E w = (Rerun, w1)
        /\ deleting_item_id (ss w1) = None
        /\ generated_content_list (ss w1) = Some l
        /\ db w1 = db w
        /\ In (Shown error (py "Falha ao excluir conteúdo: " ++ exc_str e))
             (out w1)).
Proof.
  intros Hpage Hid Herr Hlist Hne Hload Hdel Hi Hev.
  destruct l as [|it r]; [contradiction|].
  split.
  - intros Hf.
    enter_list_page Hpage Hid Herr Hlist Hload Hev.
    unfold edit_modal. rewrite Hev. unfold_m.
    destruct (opt_truthy (editing_item_id (ss w))); simpl;
      rewrite Hdel; simpl; rewrite Hi;
      unfold confirm_delete_modal; rewrite Hev; unfold_m; simpl;
      rewrite str_eqb_refl; simpl;
      (rewrite delete_content_ok; [|exact Hid|exact Hf]);
      eexists; (split; [reflexivity|]); cbn [ss db out];
      unfold without_list; rewrite Hlist; cbn [is_some];
      repeat split; assumption.
  - intros e Hf.
    enter_list_page Hpage Hid Herr Hlist Hload Hev.
    unfold edit_modal. rewrite Hev. unfold_m.
    destruct (opt_truthy (editing_item_id (ss w))); simpl;
      rewrite Hdel; simpl; rewrite Hi;
      unfold confirm_delete_modal; rewrite Hev; unfold_m; simpl;
      rewrite str_eqb_refl; simpl;
      (rewrite (@delete_content_fault E _ e); [|exact Hid|exact Hf]);
      simpl; rewrite Hdel; simpl;
      eexists; (split; [reflexivity|]); cbn [ss db out];
      (split; [reflexivity|]); (split; [assumption|]);
      (split; [reflexivity|]);
      in_events.
Qed.

Lemma confirmed_delete_witness :
  exists w1,
    run (list_env (ConfirmDelete (py "doc6")) None) deleting_world
    = (Rerun, w1)
    /\ deleting_item_id (ss w1) = Some (py "doc6")
    /\ has_doc (py "doc6") (db w1) = false.
Proof.
  assert (Hid : identified (ss deleting_world)) by (vm_compute; reflexivity).
  assert (Hne : map item_of_snapshot (map sample_doc [8; 7; 6; 5; 4]) <> [])
    by discriminate.
  assert (Hi : str_truthy (py "doc6") = true) by (vm_compute; reflexivity).
  destruct (@confirmed_delete_keeps_the_key
              (list_env (ConfirmDelete (py "doc6")) None) deleting_world _
              (py "doc6") eq_refl Hid eq_refl eq_refl Hne eq_refl eq_refl Hi
              eq_refl)
    as [Hok _].
  destruct (Hok eq_refl) as (w1 & Hrun & Hkey & _ & Hdb).
  exists w1. split; [exact Hrun|]. split; [exact Hkey|].
  rewrite Hdb. apply has_doc_filtered.
Defined.

(** ** The buttons of an expander *)

Lemma render_items_edit (E : env) (l1 : list item) (it : item)
    (l2 : list item) (w : world) :
  event_of E = EditClick (item_id it) ->
  (forall x, In x l1 -> item_id x <> item_id it) ->
  render_items E (l1 ++ it :: l2) w =
  (Rerun,
   MkWorld
     (set_editing_item (prompt (item_fields it)) (text (item_fields it))
        (toolName (item_fields it))
        (set_editing_item_id (Some (item_id it)) (ss w)))
     (db w) (out w ++ items_events E l1 ++ item_events E it)).
Proof.
  intros Hev. revert w. induction l1 as [|x r IH]; intros w Hfirst.
  - cbn [app]. rewrite render_items_cons.
    unfold is_event_edit. rewrite Hev, str_eqb_refl. reflexivity.
  - cbn [app]. rewrite render_items_cons.
    unfold is_event_edit, is_event_delete. rewrite Hev.
    assert (Hx : str_eqb (item_id it) (item_id x) = false).
    { destruct (str_eqb (item_id it) (item_id x)) eqn:Heq; [|reflexivity].
      apply str_eqb_eq in Heq. exfalso.
      apply (Hfirst x (or_introl eq_refl)). symmetry. exact Heq. }
    rewrite Hx.
    rewrite IH by (intros y Hy; apply Hfirst; right; exact Hy).
    cbn [ss db out]. rewrite items_events_cons, <- !app_assoc. reflexivity.
Qed.

(** X9.  A click on the edit button of an item copies the id, the prompt,
    the text and the tool name of that item (the first of the list with
    that id) into the session and reruns at line 410; nothing is written
    to the store and the cached list stays. *)
Theorem edit_click_opens_the_dialog (E : env) (w : world)
    (l1 : list item) (it : item) (l2 : list item) :
  page_of E = MyContent ->
  identified (ss w) ->
  is_some (error_message (ss w)) = true ->
  generated_content_list (ss w) = Some (l1 ++ it :: l2) ->
  is_loading_content (ss w) = false ->
  (forall x, In x l1 -> item_id x <> item_id it) ->
  event_of E = EditClick (item_id it) ->
  exists w1,
    run E w = (Rerun, w1)
    /\ editing_item_id (ss w1) = Some (item_id it)
    /\ editing_item_prompt (ss w1) = prompt (item_fields it)
    /\ editing_item_text (ss w1) = text (item_fields it)
    /\ editing_item_toolName (ss w1) = toolName (item_fields it)
    /\ generated_content_list (ss w1) = Some (l1 ++ it :: l2)
    /\ db w1 = db w
    /\ count_writes (out w1) = count_writes (out w).
Proof.
  intros Hpage Hid Herr Hlist Hload Hfirst Hev.
  rewrite run_my_content;
    [|exact Hpage|exact Hid|exact Herr|rewrite Hlist; reflexivity].
  unfold render_my_content_page. unfold_m. simpl.
  repeat (progress (rewrite ?Hlist, ?Hload; simpl)).
  assert (Hnil : is_nil (l1 ++ it :: l2) = false)
    by (destruct l1; reflexivity).
  rewrite Hnil. simpl.
  rewrite (render_items_edit E l1 it l2 w Hev Hfirst).
  eexists. split; [reflexivity|]. cbn [ss db out].
  repeat (split; [first [reflexivity | exact Hlist]|]).
  unfold count_writes, item_events. rewrite !filter_app, !length_app.
  rewrite items_events_no_write. cbn [filter is_write].
  rewrite pdf_events_no_write. simpl. lia.
Qed.

Lemma edit_click_witness :
  exists w1,
    run (list_env (EditClick (py "doc6")) None) listed_world = (Rerun, w1)
    /\ editing_item_id (ss w1) = Some (py "doc6")
    /\ editing_item_prompt (ss w1) = py "tema 6".
Proof.
  assert (Hid : identified (ss listed_world)) by (vm_compute; reflexivity).
  assert (Hfirst : forall x,
             In x (map item_of_snapshot (map sample_doc [8; 7])) ->
             item_id x <> item_id (item_of_snapshot (sample_doc 6))).
  { intros x Hx. cbn [map In] in Hx.
    destruct Hx as [<- | [<- | []]]; vm_compute; discriminate. }
  destruct (@edit_click_opens_the_dialog
              (list_env (EditClick (py "doc6")) None) listed_world
              (map item_of_snapshot (map sample_doc [8; 7]))
              (item_of_snapshot (sample_doc 6))
              (map item_of_snapshot (map sample_doc [5; 4]))
              eq_refl Hid eq_refl eq_refl eq_refl Hfirst eq_refl)
    as (w1 & Hrun & Hi & Hp & _).
  exists w1. split; [exact Hrun|]. split; [exact Hi|].
  rewrite Hp. vm_compute. reflexivity.
Defined.

Lemma render_items_delete (E : env) (i : pystr) (l : list item) (w : world) :
  event_of E = DeleteClick i ->
  render_items E l w =
  (Ok tt,
   MkWorld
     (if existsb (fun x => str_eqb i (item_id x)) l
      then set_deleting_item_id (Some i) (ss w) else ss w)
     (db w) (out w ++ items_events E l)).
Proof.
  intros Hev. revert w. induction l as [|x r IH]; intros w.
  - unfold render_items, ret. cbn [existsb].
    change (items_events E []) with (@nil event).
    rewrite app_nil_r, world_eta. reflexivity.
  - rewrite render_items_cons.
    unfold is_event_edit, is_event_delete. rewrite Hev.
    cbn [existsb].
    destruct (str_eqb i (item_id x)) eqn:Hx; cbn [orb];
      rewrite IH; cbn [ss db out]; rewrite items_events_cons, <- app_assoc.
    + apply str_eqb_eq in Hx. rewrite <- Hx.
      destruct (existsb (fun x0 => str_eqb i (item_id x0)) r); reflexivity.
    + reflexivity.
Qed.

(** X10.  A click on the delete button of a listed item records its id
    and opens the dialog in the same execution, which draws every item and
    ends without a rerun and without a call of the store.  The cancel
    button of the dialog then forgets the id and reruns, with the
    collection and the cached list as they were before the click. *)
Theorem delete_click_then_cancel (E1 E2 : env) (w : world) (l : list item)
    (i : pystr) :
  page_of E1 = MyContent ->
  page_of E2 = MyContent ->
  event_of E1 = DeleteClick i ->
  event_of E2 = CancelDelete i ->
  identified (ss w) ->
  is_some (error_message (ss w)) = true ->
  generated_content_list (ss w) = Some l ->
  is_loading_content (ss w) = false ->
  In i (map item_id l) ->
  str_truthy i = true ->
  exists w1 w2,
    run E1 w = (Ok tt, w1)
    /\ deleting_item_id (ss w1) = Some i
    /\ out w1 = out w ++ items_events E1 l ++ confirm_events (ss w1)
    /\ confirm_events (ss w1) <> []
    /\ run E2 w1 = (Rerun, w2)
    /\ deleting_item_id (ss w2) = None
    /\ generated_content_list (ss w2) = Some l
    /\ db w2 = db w
    /\ count_writes (out w2) = count_writes (out w).
Proof.
  intros Hpage1 Hpage2 Hev1 Hev2 Hid Herr Hlist Hload Hin Hi.
  assert (Hex : existsb (fun x => str_eqb i (item_id x)) l = true).
  { apply in_map_iff in Hin. destruct Hin as (x & Hx & Hin).
    apply existsb_exists. exists x. split; [exact Hin|].
    rewrite Hx. apply str_eqb_refl. }
  destruct l as [|it r]; [destruct Hin|].
  set (s1 := set_deleting_item_id (Some i) (ss w)).
  assert (Hwarn : opt_truthy (deleting_item_id s1) = true) by exact Hi.
  assert (Hrun1 :
    run E1 w =
    (Ok tt, MkWorld s1 (db w)
              (out w ++ items_events E1 (it :: r) ++ confirm_events s1))).
  { rewrite run_my_content;
      [|exact Hpage1|exact Hid|exact Herr|rewrite Hlist; reflexivity].
    unfold confirm_events. rewrite Hwarn. subst s1.
    unfold render_my_content_page. unfold_m. simpl.
    repeat (progress (rewrite ?Hlist, ?Hload; simpl)).
    rewrite (@render_items_delete E1 i (it :: r) w Hev1).
    rewrite Hex. simpl.
    unfold edit_modal, confirm_delete_modal, load_more_section,
      is_event_load_more.
    rewrite Hev1. unfold_m. simpl.
    destruct (opt_truthy (editing_item_id (ss w))); simpl;
      rewrite Hi; simpl; rewrite ?Hload; simpl;
      destruct (has_more_content (ss w)); simpl; same_events. }
  set (w1 := MkWorld s1 (db w)
               (out w ++ items_events E1 (it :: r) ++ confirm_events s1))
    in *.
  assert (Hlist1 : generated_content_list (ss w1) = Some (it :: r))
    by exact Hlist.
  assert (Hload1 : is_loading_content (ss w1) = false) by exact Hload.
  assert (Hdel1 : deleting_item_id (ss w1) = Some i) by reflexivity.
  assert (Hrun2 :
    run E2 w1 =
    (Rerun, MkWorld (set_deleting_item_id None (ss w1)) (db w1)
              (out w1 ++ items_events E2 (it :: r) ++ confirm_events s1))).
  { assert (Hid1 : identified (ss w1)) by exact Hid.
    assert (Herr1 : is_some (error_message (ss w1)) = true) by exact Herr.
    unfold confirm_events at 1. rewrite Hwarn.
    clearbody w1. clear Hwarn. clearbody s1.
    enter_list_page Hpage2 Hid1 Herr1 Hlist1 Hload1 Hev2.
    unfold edit_modal. rewrite Hev2. unfold_m.
    destruct (opt_truthy (editing_item_id (ss w1))); simpl;
      rewrite Hdel1; simpl; rewrite Hi;
      unfold confirm_delete_modal; rewrite Hev2; unfold_m; simpl;
      rewrite str_eqb_refl; simpl; rewrite Hdel1; simpl; same_events. }
  exists w1. eexists.
  split; [exact Hrun1|].
  split; [reflexivity|].
  split; [reflexivity|].
  split.
  { cbn [ss w1]. unfold confirm_events. rewrite Hwarn. discriminate. }
  split; [exact Hrun2|]. cbn [ss db out].
  split; [reflexivity|]. split; [exact Hlist|]. split; [reflexivity|].
  unfold w1. cbn [out].
  unfold count_writes. rewrite !filter_app, !length_app.
  rewrite !items_events_no_write, !confirm_events_no_write. simpl. lia.
Qed.

Lemma delete_click_witness :
  exists w1 w2,
    run (list_env (DeleteClick (py "doc6")) None) listed_world = (Ok tt, w1)
    /\ deleting_item_id (ss w1) = Some (py "doc6")
    /\ run (list_env (CancelDelete (py "doc6")) None) w1 = (Rerun, w2)
    /\ deleting_item_id (ss w2) = None
    /\ db w2 = sample_collection.
Proof.
  assert (Hid : identified (ss listed_world)) by (vm_compute; reflexivity).
  assert (Hin : In (py "doc6")
                  (map item_id
                     (map item_of_snapshot (map sample_doc [8; 7; 6; 5; 4])))).
  { cbn [map In]. right. right. left. vm_compute. reflexivity. }
  assert (Hi : str_truthy (py "doc6") = true) by (vm_compute; reflexivity).
  destruct (@delete_click_then_cancel
              (list_env (DeleteClick (py "doc6")) None)
              (list_env (CancelDelete (py "doc6")) None) listed_world _
              (py "doc6") eq_refl eq_refl eq_refl eq_refl Hid eq_refl eq_refl
              eq_refl Hin Hi)
    as (w1 & w2 & Hrun1 & Hdel1 & _ & _ & Hrun2 & Hdel2 & _ & Hdb & _).
  exists w1, w2.
  split; [exact Hrun1|]. split; [exact Hdel1|]. split; [exact Hrun2|].
  split; [exact Hdel2|]. exact Hdb.
Defined.



(** ** The button that loads more *)

(** Lines 461-473 with a store that fails. *)
Lemma load_more_page_fault (E : env) (w : world) (l : list item) (e : pyexc) :
  identified (ss w) ->
  generated_content_list (ss w) = Some l ->
  l <> [] ->
  is_loading_content (ss w) = false ->
  has_more_content (ss w) = true ->
  event_of E = LoadMore ->
  store_fault E = Some e ->
  render_my_content_page E w =
  (Rerun,
   MkWorld
     (set_is_loading_content false
        (set_has_more_content false
           (set_last_doc_snapshot (last_doc_snapshot (ss w))
              (set_generated_content_list (Some (l ++ [])) (ss w)))))
     (db w)
     (out w ++ items_events E l ++ confirm_events (ss w)
      ++ [StoreStream ITEMS_PER_PAGE (last_doc_snapshot (ss w));
          Shown error (py "Erro ao buscar conteúdos: " ++ exc_str e)])).
Proof.
  intros Hid Hlist Hne Hload Hmore Hev Hf.
  destruct l as [|it r]; [contradiction|].
  unfold render_my_content_page, confirm_events. unfold_m. simpl.
  repeat (progress (rewrite ?Hlist, ?Hload; simpl)).
  rewrite (render_items_shown E (it :: r) w (or_intror Hev)). simpl.
  unfold edit_modal, confirm_delete_modal, load_more_section,
    is_event_load_more.
  unfold_m. rewrite Hev. simpl.
  destruct (opt_truthy (editing_item_id (ss w))); simpl;
    destruct (opt_truthy (deleting_item_id (ss w))); simpl;
    rewrite ?Hload, ?Hmore; simpl;
    rewrite (@fetch_content_fault E _ ITEMS_PER_PAGE _ e) by assumption; simpl;
    rewrite Hlist; simpl; same_events.
Qed.

(** X12.  When the store fails while more content is loaded, the cached
    list and the cursor stay, the error of the fetch is shown once, and
    [has_more_content] becomes [False]: the button is gone, and a later
    click event fetches nothing even when the store answers again. *)
Theorem failed_load_more_hides_the_button (E E' : env) (w : world)
    (l : list item) (e : pyexc) :
  page_of E = MyContent ->
  page_of E' = MyContent ->
  identified (ss w) ->
  is_some (error_message (ss w)) = true ->
  generated_content_list (ss w) = Some l ->
  l <> [] ->
  is_loading_content (ss w) = false ->
  has_more_content (ss w) = true ->
  event_of E = LoadMore ->
  store_fault E = Some e ->
  event_of E' = LoadMore ->
  exists w1 w2,
    run E w = (Rerun, w1)
    /\ generated_content_list (ss w1) = Some l
    /\ last_doc_snapshot (ss w1) = last_doc_snapshot (ss w)
    /\ has_more_content (ss w1) = false
    /\ is_loading_content (ss w1) = false
    /\ db w1 = db w
    /\ count_streams (out w1) = S (count_streams (out w))
    /\ In (Shown error (py "Erro ao buscar conteúdos: " ++ exc_str e)) (out w1)
    /\ run E' w1 = (Ok tt, w2)
    /\ ss w2 = ss w1
    /\ count_streams (out w2) = count_streams (out w1).
Proof.
  intros Hpage Hpage' Hid Herr Hlist Hne Hload Hmore Hev Hf Hev'.
  assert (Hrun1 : exists w1,
    run E w = (Rerun, w1)
    /\ identified (ss w1)
    /\ is_some (error_message (ss w1)) = true
    /\ generated_content_list (ss w1) = Some l
    /\ last_doc_snapshot (ss w1) = last_doc_snapshot (ss w)
    /\ has_more_content (ss w1) = false
    /\ is_loading_content (ss w1) = false
    /\ db w1 = db w
    /\ out w1 = out w ++ items_events E l ++ confirm_events (ss w)
                ++ [StoreStream ITEMS_PER_PAGE (last_doc_snapshot (ss w));
                    Shown error (py "Erro ao buscar conteúdos: " ++ exc_str e)]).
  { rewrite run_my_content;
      [|exact Hpage|exact Hid|exact Herr|rewrite Hlist; reflexivity].
    rewrite (load_more_page_fault E w Hid Hlist Hne Hload Hmore Hev Hf).
    eexists. split; [reflexivity|]. cbn [ss db out].
    split; [exact Hid|]. split; [exact Herr|].
    split; [cbn; rewrite app_nil_r; reflexivity|].
    repeat (split; [reflexivity|]). reflexivity. }
  destruct Hrun1 as (w1 & Hrun1 & Hid1 & Herr1 & Hlist1 & Hlast1 & Hmore1
                     & Hload1 & Hdb1 & Hout1).
  exists w1. eexists.
  split; [exact Hrun1|]. split; [exact Hlist1|]. split; [exact Hlast1|].
  split; [exact Hmore1|]. split; [exact Hload1|]. split; [exact Hdb1|].
  split.
  { rewrite Hout1. unfold count_streams. rewrite !filter_app, !length_app.
    rewrite items_events_no_stream, confirm_events_no_stream. simpl. lia. }
  split.
  { rewrite Hout1. in_events. }
  split.
  { apply (@settled_run E' w1 l Hpage' Hid1 Herr1 Hlist1 Hload1).
    right. split; [exact Hev' | exact Hmore1]. }
  cbn [ss out]. split; [reflexivity|].
  destruct l as [|it r]; [contradiction|]. cbn [is_nil].
  unfold count_streams. rewrite !filter_app, !length_app.
  rewrite items_events_no_stream, confirm_events_no_stream. simpl. lia.
Qed.

Lemma failed_load_more_witness :
  exists w1 w2,
    run (list_env LoadMore (Some unavailable_error)) listed_world = (Rerun, w1)
    /\ has_more_content (ss w1) = false
    /\ run (list_env LoadMore None) w1 = (Ok tt, w2)
    /\ count_streams (out w2) = 1.
Proof.
  assert (Hid : identified (ss listed_world)) by (vm_compute; reflexivity).
  assert (Hne : map item_of_snapshot (map sample_doc [8; 7; 6; 5; 4]) <> [])
    by discriminate.
  destruct (@failed_load_more_hides_the_button
              (list_env LoadMore (Some unavailable_error))
              (list_env LoadMore None) listed_world _ unavailable_error
              eq_refl eq_refl Hid eq_refl eq_refl Hne eq_refl eq_refl eq_refl
              eq_refl eq_refl)
    as (w1 & w2 & Hrun1 & _ & _ & Hmore & _ & _ & Hs1 & _ & Hrun2 & _ & Hs2).
  exists w1, w2.
  split; [exact Hrun1|]. split; [exact Hmore|]. split; [exact Hrun2|].
  rewrite Hs2, Hs1. reflexivity.
Defined.

(** X13.  Once every document is listed, the button that loads more is
    still offered exactly when the size of the collection equals the
    number of documents requested so far: a collection whose size is a
    multiple of [ITEMS_PER_PAGE] costs one more click, which adds
    nothing. *)
Theorem button_after_the_last_page (E : env) (w : world) (n : nat) :
  page_of E = MyContent ->
  store_fault E = None ->
  NoDup (map snap_id (db w)) ->
  identifiable (ss w) ->
  awaiting_first_page (ss w) ->
  List.length (db w) <= (1 + n) * ITEMS_PER_PAGE ->
  exists l,
    generated_content_list
      (ss (load_more_clicks n E (snd (visit_my_content E w)))) = Some l
    /\ map item_id l = map snap_id (order_by_desc (db w))
    /\ map item_fields l = map snap_fields (order_by_desc (db w))
    /\ has_more_content
         (ss (load_more_clicks n E (snd (visit_my_content E w))))
       = Nat.eqb (List.length (db w)) ((1 + n) * ITEMS_PER_PAGE)
    /\ generated_content_list
         (ss (load_more_clicks (S n) E (snd (visit_my_content E w))))
       = Some l
    /\ has_more_content
         (ss (load_more_clicks (S n) E (snd (visit_my_content E w))))
       = false.
Proof.
  intros Hpage Hf Hnd Hid Hwait Hlen.
  destruct (visit_listing E w Hpage Hf Hid Hwait) as [_ H1].
  pose proof (order_by_desc_length (db w)) as HL.
  destruct (clicks_listing E n Hpage Hf Hnd H1)
    as (_ & _ & _ & Hlist & _ & Hmore & _).
  destruct (clicks_listing E (S n) Hpage Hf Hnd H1)
    as (_ & _ & _ & Hlist' & _ & Hmore' & _).
  rewrite firstn_all2 in Hlist by lia.
  rewrite firstn_all2 in Hlist' by (unfold ITEMS_PER_PAGE in *; lia).
  eexists. split; [exact Hlist|].
  split; [apply items_of_snapshots|].
  split; [apply items_of_snapshots|].
  split.
  { rewrite Hmore, HL.
    destruct (Nat.leb_spec ((1 + n) * ITEMS_PER_PAGE) (List.length (db w)));
      symmetry; [apply Nat.eqb_eq | apply Nat.eqb_neq]; lia. }
  split; [exact Hlist'|].
  rewrite Hmore', HL. apply Nat.leb_gt. unfold ITEMS_PER_PAGE in *. lia.
Qed.

Lemma button_after_the_last_page_witness :
  exists l,
    generated_content_list
      (ss (load_more_clicks 0 (list_env NoEvent None)
             (snd (visit_my_content (list_env NoEvent None) five_docs_world))))
    = Some l
    /\ map item_id l
       = [py "doc5"; py "doc4"; py "doc3"; py "doc2"; py "doc1"]
    /\ has_more_content
         (ss (load_more_clicks 0 (list_env NoEvent None)
                (snd (visit_my_content (list_env NoEvent None)
                        five_docs_world))))
       = true
    /\ has_more_content
         (ss (load_more_clicks 1 (list_env NoEvent None)
                (snd (visit_my_content (list_env NoEvent None)
                        five_docs_world))))
       = false.
Proof.
  assert (Hnd : NoDup (map snap_id (db five_docs_world)))
    by (apply distinct_NoDup; vm_compute; reflexivity).
  assert (Hid : identifiable (ss five_docs_world))
    by (vm_compute; reflexivity).
  assert (Hwait : awaiting_first_page (ss five_docs_world))
    by (split; vm_compute; reflexivity).
  assert (Hlen : List.length (db five_docs_world) <= (1 + 0) * ITEMS_PER_PAGE)
    by (vm_compute; lia).
  destruct (@button_after_the_last_page (list_env NoEvent None)
              five_docs_world 0 eq_refl eq_refl Hnd Hid Hwait Hlen)
    as (l & Hlist & Hids & _ & Hmore & _ & Hmore').
  exists l. split; [exact Hlist|].
  split; [rewrite Hids; vm_compute; reflexivity|].
  split; [rewrite Hmore; vm_compute; reflexivity|].
  exact Hmore'.
Defined.

(** ** An error message is shown once *)

(** X14.  An error message left by an earlier execution is shown by the
    next execution of the page of a tool, which deletes the key (lines
    271-273); the defaults loop of the execution after that sets it to
    the empty string (lines 497-499), and the message is not shown
    again. *)
Theorem error_message_is_shown_once (E : env) (w : world)
    (tool_key : string) (tl : tool) (m : pystr) :
  page_of E = ToolPage tool_key ->
  tool_get tool_key tool_configs = Some tl ->
  event_of E = NoEvent ->
  identifiable (ss w) ->
  is_loading (ss w) = false ->
  error_message (ss w) = Some m ->
  str_truthy m = true ->
  exists w1 w2,
    run E w = (Ok tt, w1)
    /\ out w1
       = out w
         ++ Shown error m
            :: (if str_truthy (generated_result (ss w))
                then ResultShown (generated_result (ss w))
                     :: pdf_events E (generated_result (ss w))
                else [])
    /\ error_message (ss w1) = None
    /\ run E w1 = (Ok tt, w2)
    /\ out w2
       = out w1
         ++ (if str_truthy (generated_result (ss w))
             then ResultShown (generated_result (ss w))
                  :: pdf_events E (generated_result (ss w))
             else [])
    /\ error_message (ss w2) = Some [].
Proof.
  intros Hpage Htool Hev Hid Hload Herr Hm.
  destruct (@prelude_spec _ Hid) as (u & t & n & Hu & Hp).
  assert (Hrun1 : exists w1,
    run E w = (Ok tt, w1)
    /\ out w1
       = out w
         ++ Shown error m
            :: (if str_truthy (generated_result (ss w))
                then ResultShown (generated_result (ss w))
                     :: pdf_events E (generated_result (ss w))
                else [])
    /\ ss w1 = set_error_message None
                 (set_prompt_
                    (prompt_store tool_key (widget_prompt tool_key (ss w))
                       (prompt_ (ss w)))
                    (prelude (ss w)))).
  { rewrite run_eval, Hp. unfold render_page. rewrite Hpage, Hload, Herr.
    unfold render_tool_page. rewrite Htool.
    unfold tool_form, generation, result_area, widget_prompt.
    rewrite Hev. unfold_m. simpl. rewrite Hm. simpl.
    destruct (str_truthy (generated_result (ss w))); simpl;
      rewrite ?download_as_pdf_eval; simpl;
      eexists; (split; [reflexivity|]); simpl;
      rewrite <- ?app_assoc; split; reflexivity. }
  destruct Hrun1 as (w1 & Hrun1 & Hout1 & Hss1).
  assert (Hrun2 : exists w2,
    run E w1 = (Ok tt, w2)
    /\ out w2
       = out w1
         ++ (if str_truthy (generated_result (ss w))
             then ResultShown (generated_result (ss w))
                  :: pdf_events E (generated_result (ss w))
             else [])
    /\ error_message (ss w2) = Some []).
  { assert (Hid1 : identifiable (ss w1)).
    { apply identified_identifiable. unfold identified.
      rewrite Hss1, Hp. exact Hu. }
    destruct (@prelude_spec _ Hid1) as (u1 & t1 & n1 & Hu1 & Hp1).
    rewrite run_eval, Hp1. unfold render_page. rewrite Hpage.
    rewrite Hss1, Hp. simpl. rewrite Hload.
    unfold render_tool_page. rewrite Htool.
    unfold tool_form, generation, result_area.
    rewrite Hev. unfold_m. simpl. rewrite ?Hload. simpl.
    destruct (str_truthy (generated_result (ss w))); simpl;
      rewrite ?download_as_pdf_eval; simpl;
      eexists; (split; [reflexivity|]); simpl;
      rewrite <- ?app_assoc, ?app_nil_r; split; reflexivity. }
  destruct Hrun2 as (w2 & Hrun2 & Hout2 & Herr2).
  exists w1, w2.
  split; [exact Hrun1|]. split; [exact Hout1|].
  split; [rewrite Hss1; reflexivity|].
  split; [exact Hrun2|]. split; [exact Hout2 | exact Herr2].
Qed.

Lemma error_message_witness :
  exists w1 w2,
    run (article_env (inr JNull))
      (MkWorld (set_error_message (Some (py "Erro de rede/API: 503"))
                  visitor_session) [] [])
    = (Ok tt, w1)
    /\ out w1 = [Shown error (py "Erro de rede/API: 503")]
    /\ run (article_env (inr JNull)) w1 = (Ok tt, w2)
    /\ out w2 = out w1.
Proof.
  destruct (tool_get "article" tool_configs) as [tl|] eqn:Htool;
    [|vm_compute in Htool; discriminate Htool].
  assert (Hid : identifiable
                  (ss (MkWorld (set_error_message
                                  (Some (py "Erro de rede/API: 503"))
                                  visitor_session) [] [])))
    by (vm_compute; reflexivity).
  assert (Hm : str_truthy (py "Erro de rede/API: 503") = true)
    by (vm_compute; reflexivity).
  destruct (@error_message_is_shown_once (article_env (inr JNull))
              (MkWorld (set_error_message (Some (py "Erro de rede/API: 503"))
                          visitor_session) [] [])
              "article" tl (py "Erro de rede/API: 503")
              eq_refl Htool eq_refl Hid eq_refl eq_refl Hm)
    as (w1 & w2 & Hrun1 & Hout1 & _ & Hrun2 & Hout2 & _).
  exists w1, w2.
  split; [exact Hrun1|]. split; [exact Hout1|]. split; [exact Hrun2|].
  rewrite Hout2. apply app_nil_r.
Defined.

(** ** The text of the PDF *)

Lemma split_lines_cons (s : pystr) : exists l ls, split_lines s = l :: ls.
Proof.
  induction s as [|c r IH]; [exists [], []; reflexivity|].
  cbn [split_lines]. destruct (c =? 10)%N; [eexists; eexists; reflexivity|].
  destruct IH as (l & ls & ->). eexists; eexists; reflexivity.
Qed.

Lemma join_lines_char (c : N) (l : pystr) (ls : list pystr) :
  join_lines ((c :: l) :: ls) = c :: join_lines (l :: ls).
Proof. destruct ls; reflexivity. Qed.

Lemma join_split_lines (s : pystr) : join_lines (split_lines s) = s.
Proof.
  induction s as [|c r IH]; [reflexivity|].
  cbn [split_lines]. destruct (N.eqb_spec c 10) as [-> | Hc].
  - destruct (split_lines_cons r) as (l & ls & Hr). rewrite Hr in *.
    change (join_lines ([] :: l :: ls))
      with ([] ++ LF ++ join_lines (l :: ls))%list.
    rewrite IH. reflexivity.
  - destruct (split_lines_cons r) as (l & ls & Hr). rewrite Hr in *.
    rewrite join_lines_char, IH. reflexivity.
Qed.

Lemma split_lines_chars (P : N -> Prop) (s : pystr) :
  Forall P s ->
  Forall (Forall (fun c => P c /\ c <> 10%N)) (split_lines s).
Proof.
  induction 1 as [|c r Hc Hr IH]; [repeat constructor|].
  cbn [split_lines]. destruct (N.eqb_spec c 10) as [-> | Hne].
  - constructor; [constructor | exact IH].
  - destruct (split_lines r) as [|l ls]; [repeat constructor; assumption|].
    inversion IH as [|? ? Hl Hls]; subst.
    constructor; [constructor; [split; assumption | exact Hl] | exact Hls].
Qed.

Lemma split_lines_length (s : pystr) :
  List.length (split_lines s) = S (count_occ N.eq_dec s 10%N).
Proof.
  induction s as [|c r IH]; [reflexivity|].
  cbn [split_lines count_occ].
  destruct (N.eqb_spec c 10) as [-> | Hne].
  - destruct (N.eq_dec 10 10) as [_ | H]; [|contradiction].
    cbn [List.length]. rewrite IH. reflexivity.
  - destruct (N.eq_dec c 10) as [H | _]; [contradiction|].
    destruct (split_lines r) as [|l ls]; [discriminate IH | exact IH].
Qed.

Lemma latin1_replace_chars (text : pystr) :
  Forall (fun c => (c < 256)%N) (latin1_replace text).
Proof.
  unfold latin1_replace. apply Forall_forall. intros c Hc.
  apply in_map_iff in Hc. destruct Hc as (x & <- & _).
  destruct (N.ltb_spec x 256); lia.
Qed.

Lemma latin1_replace_id (text : pystr) :
  Forall (fun c => (c < 256)%N) text -> latin1_replace text = text.
Proof.
  unfold latin1_replace. induction 1 as [|c r Hc Hr IH]; [reflexivity|].
  cbn [map]. rewrite IH. apply N.ltb_lt in Hc. rewrite Hc. reflexivity.
Qed.

(** X15.  The lines that [download_as_pdf] writes hold Latin-1 characters
    only and no line feed; joined by line feeds they are the text with
    each character outside Latin-1 replaced by a question mark, so a
    Latin-1 text is written as it is; there is one line more than there
    are line feeds in the text. *)
Theorem pdf_lines_keep_the_text (text : pystr) :
  join_lines (pdf_lines text)
  = map (fun c => if (c <? 256)%N then c else 63%N) text
  /\ Forall (Forall (fun c => (c < 256)%N /\ c <> 10%N)) (pdf_lines text)
  /\ List.length (pdf_lines text) = S (count_occ N.eq_dec text 10%N)
  /\ (Forall (fun c => (c < 256)%N) text -> join_lines (pdf_lines text) = text).
Proof.
  unfold pdf_lines. rewrite join_split_lines.
  split; [reflexivity|].
  split; [apply split_lines_chars, latin1_replace_chars|].
  split.
  - rewrite split_lines_length. f_equal. unfold latin1_replace.
    induction text as [|c r IH]; [reflexivity|].
    cbn [map count_occ]. rewrite IH.
    destruct (N.ltb_spec c 256) as [Hc | Hc].
    + reflexivity.
    + destruct (N.eq_dec 63 10) as [H | _]; [discriminate H|].
      destruct (N.eq_dec c 10) as [-> | _]; [lia | reflexivity].
  - apply latin1_replace_id.
Qed.

Lemma pdf_lines_witness :
  join_lines (pdf_lines (py "Olá — mundo" ++ LF ++ py "fim"))
  = py "Olá ? mundo" ++ LF ++ py "fim"
  /\ pdf_lines (py "Olá — mundo" ++ LF ++ py "fim")
     = [py "Olá ? mundo"; py "fim"].
Proof.
  split.
  - rewrite (proj1 (pdf_lines_keep_the_text
                      (py "Olá — mundo" ++ LF ++ py "fim"))).
    vm_compute. reflexivity.
  - vm_compute. reflexivity.
Defined.
